(** * The attendance store of the Smart Attendance System

    A shallow embedding of [database_manager.py] (class [DatabaseManager])
    and the properties of its operations.

    The four SQLite relations are lists of rows, in insertion (rowid) order.
    Every public method opens a connection, runs its statements inside one
    implicit transaction, commits and closes; it does so inside
    [try ... except Exception].  The methods are therefore computations in a
    small state-and-exception monad: the state holds the database file, the
    connection's view of it (with the changes not yet committed) and the
    backup files; each call into the storage layer may raise a fault that
    the environment injects. *)

From Stdlib Require Import ZArith String List.
From stdpp Require Import base option list sorting gmap strings.

Local Open Scope Z_scope.
Local Open Scope string_scope.

(** ** Values *)

(** A [datetime.date] is its proleptic Gregorian ordinal ([date.toordinal()],
    0001-01-01 is day 1).  The sqlite3 adapter stores it as the text
    YYYY-MM-DD, whose text order is the order of the ordinals. *)
Abbreviation date := Z (only parsing).

(** A [datetime.datetime], as microseconds on a fixed axis.  The adapter stores
    the text YYYY-MM-DD HH:MM:SS[.ffffff], whose text order is again the order
    of the instants. *)
Abbreviation timestamp := Z (only parsing).

(** The smallest ordinal a [date] can hold ([date.min.toordinal()]). *)
Definition MINORDINAL : Z := 1.

(** ** Rows of the four relations (see [init_database]) *)

(** students(student_id TEXT PRIMARY KEY, name TEXT NOT NULL, email, phone,
    department, created_at).  A column without NOT NULL is an [option]. *)
Record student_row := {
  s_student_id : string;
  s_name : string;
  s_email : option string;
  s_phone : option string;
  s_department : option string;
  s_created_at : option timestamp
}.

(** courses(course_id TEXT PRIMARY KEY, course_name TEXT NOT NULL, instructor,
    schedule, created_at). *)
Record course_row := {
  c_course_id : string;
  c_course_name : string;
  c_instructor : option string;
  c_schedule : option string;
  c_created_at : option timestamp
}.

(** attendance(id INTEGER PRIMARY KEY AUTOINCREMENT, student_id NOT NULL,
    date NOT NULL, time_in, time_out, verification_method NOT NULL, course_id,
    created_at, UNIQUE(student_id, date)). *)
Record attendance_row := {
  a_id : Z;
  a_student_id : string;
  a_date : date;
  a_time_in : option timestamp;
  a_time_out : option timestamp;
  a_verification_method : string;
  a_course_id : option string;
  a_created_at : option timestamp
}.

(** course_attendance(id INTEGER PRIMARY KEY AUTOINCREMENT, student_id NOT
    NULL, course_id NOT NULL, date NOT NULL, time_in, time_out,
    verification_method NOT NULL, created_at,
    UNIQUE(student_id, course_id, date)). *)
Record course_attendance_row := {
  ca_id : Z;
  ca_student_id : string;
  ca_course_id : string;
  ca_date : date;
  ca_time_in : option timestamp;
  ca_time_out : option timestamp;
  ca_verification_method : string;
  ca_created_at : option timestamp
}.

Global Instance student_row_eq_dec : EqDecision student_row.
Proof. solve_decision. Defined.
Global Instance course_row_eq_dec : EqDecision course_row.
Proof. solve_decision. Defined.
Global Instance attendance_row_eq_dec : EqDecision attendance_row.
Proof. solve_decision. Defined.
Global Instance course_attendance_row_eq_dec : EqDecision course_attendance_row.
Proof. solve_decision. Defined.

(** The database file: the four tables and the two AUTOINCREMENT counters
    that SQLite keeps in [sqlite_sequence]. *)
Record Store := {
  students : list student_row;
  courses : list course_row;
  attendance : list attendance_row;
  course_attendance : list course_attendance_row;
  attendance_seq : Z;
  course_attendance_seq : Z
}.

Global Instance Store_eq_dec : EqDecision Store.
Proof. solve_decision. Defined.

(** The database right after [init_database] on a new file. *)
Definition empty_store : Store :=
  {| students := []; courses := []; attendance := []; course_attendance := [];
     attendance_seq := 0; course_attendance_seq := 0 |}.

Definition set_students (l : list student_row) (st : Store) : Store :=
  {| students := l; courses := courses st; attendance := attendance st;
     course_attendance := course_attendance st;
     attendance_seq := attendance_seq st;
     course_attendance_seq := course_attendance_seq st |}.

Definition set_courses (l : list course_row) (st : Store) : Store :=
  {| students := students st; courses := l; attendance := attendance st;
     course_attendance := course_attendance st;
     attendance_seq := attendance_seq st;
     course_attendance_seq := course_attendance_seq st |}.

Definition set_attendance (l : list attendance_row) (st : Store) : Store :=
  {| students := students st; courses := courses st; attendance := l;
     course_attendance := course_attendance st;
     attendance_seq := attendance_seq st;
     course_attendance_seq := course_attendance_seq st |}.

Definition set_course_attendance (l : list course_attendance_row) (st : Store)
  : Store :=
  {| students := students st; courses := courses st;
     attendance := attendance st; course_attendance := l;
     attendance_seq := attendance_seq st;
     course_attendance_seq := course_attendance_seq st |}.

(** ** The clock *)

(** What the three clocks read during one call: [date.today()],
    [datetime.now()] and SQLite's CURRENT_TIMESTAMP. *)
Record Clock := {
  today : date;
  now : timestamp;
  current_timestamp : timestamp
}.

(** ** Exceptions and the monad of the methods *)

(** The exceptions the methods meet, all subclasses of [Exception]:
    [sqlite3.IntegrityError] (a violated constraint), [sqlite3.OperationalError]
    (any other fault of the storage layer), [OSError] (a failed file copy) and
    [OverflowError] (date arithmetic out of range). *)
Inductive exn := IntegrityError | OperationalError | OSError | OverflowError.

Global Instance exn_eq_dec : EqDecision exn.
Proof. solve_decision. Defined.

Inductive outcome (A : Type) :=
| Returned (a : A)
| Raised (e : exn).
Arguments Returned {A} a.
Arguments Raised {A} e.

(** The state a method runs in.  [st_db] is the database file at [st_path]
    ([self.db_path]); [st_conn] is what the open connection sees, the file
    plus the statements of the transaction in progress; [st_files] are the
    other files, each holding a copy of a database; [st_faults] lists, for
    the coming calls into the storage layer, the fault each one meets (an
    exhausted list means no more faults). *)
Record St := {
  st_path : string;
  st_db : Store;
  st_conn : Store;
  st_files : gmap string Store;
  st_faults : list (option exn)
}.

Definition M (A : Type) : Type := Clock → St → outcome A * St.

Definition ret {A} (a : A) : M A := λ _ s, (Returned a, s).

Definition bind {A B} (m : M A) (k : A → M B) : M B :=
  λ clk s,
    match m clk s with
    | (Returned a, s') => k a clk s'
    | (Raised e, s') => (Raised e, s')
    end.

Definition raise {A} (e : exn) : M A := λ _ s, (Raised e, s).

(** [try: body except ...: handler]. *)
Definition try_except {A} (body : M A) (handler : exn → M A) : M A :=
  λ clk s,
    match body clk s with
    | (Returned a, s') => (Returned a, s')
    | (Raised e, s') => handler e clk s'
    end.

Notation "'let*' x ':=' m 'in' k" := (bind m (λ x, k))
  (at level 10, x name, m at level 100, k at level 200, only parsing).
Notation "m ';;' k" := (bind m (λ _, k))
  (at level 100, k at level 200, right associativity, only parsing).

Definition get_clock : M Clock := λ clk s, (Returned clk, s).

(** One call into the storage layer: it meets the next injected fault. *)
Definition io : M unit :=
  λ _ s,
    match st_faults s with
    | [] => (Returned (), s)
    | None :: fs =>
        (Returned (),
         {| st_path := st_path s; st_db := st_db s; st_conn := st_conn s;
            st_files := st_files s; st_faults := fs |})
    | Some e :: fs =>
        (Raised e,
         {| st_path := st_path s; st_db := st_db s; st_conn := st_conn s;
            st_files := st_files s; st_faults := fs |})
    end.

Definition with_conn (c : Store) (s : St) : St :=
  {| st_path := st_path s; st_db := st_db s; st_conn := c;
     st_files := st_files s; st_faults := st_faults s |}.

Definition with_db (d : Store) (s : St) : St :=
  {| st_path := st_path s; st_db := d; st_conn := st_conn s;
     st_files := st_files s; st_faults := st_faults s |}.

Definition with_files (f : gmap string Store) (s : St) : St :=
  {| st_path := st_path s; st_db := st_db s; st_conn := st_conn s;
     st_files := f; st_faults := st_faults s |}.

(** [sqlite3.connect(self.db_path)]: a new connection sees the file. *)
Definition connect : M unit :=
  io ;; λ _ s, (Returned (), with_conn (st_db s) s).

(** [cursor.execute] of INSERT, UPDATE or DELETE: the statement runs on the
    connection's view; a violated constraint raises and changes nothing. *)
Definition execute_update (stmt : Clock → Store → outcome Store) : M unit :=
  io ;; λ clk s,
    match stmt clk (st_conn s) with
    | Returned c => (Returned (), with_conn c s)
    | Raised e => (Raised e, s)
    end.

(** [cursor.execute] of a SELECT followed by [fetchone]/[fetchall]. *)
Definition execute_query {A} (q : Store → A) : M A :=
  io ;; λ _ s, (Returned (q (st_conn s)), s).

(** [conn.commit()]: the transaction reaches the file. *)
Definition commit : M unit :=
  io ;; λ _ s, (Returned (), with_db (st_conn s) s).

(** [conn.close()]. *)
Definition close : M unit := io.

(** ** Python truthiness, as used by [if course_id:] and the report filters *)

Definition truthy_str (o : option string) : bool :=
  match o with
  | Some s => negb (bool_decide (s = ""))
  | None => false
  end.

(** A [date] object is always true; only [None] is false. *)
Definition truthy_date (o : option date) : bool :=
  match o with
  | Some _ => true
  | None => false
  end.

(** ** The SQL statements *)

(** The rowid an AUTOINCREMENT table gives its next row: one more than the
    largest rowid the table holds or ever held. *)
Definition next_rowid (seq : Z) (ids : list Z) : Z :=
  Z.max seq (foldr Z.max 0 ids) + 1.

Definition attendance_key (a : attendance_row) : string * date :=
  (a_student_id a, a_date a).

Definition course_attendance_key (r : course_attendance_row)
  : string * string * date :=
  (ca_student_id r, ca_course_id r, ca_date r).

(** The row INSERT INTO students makes; created_at takes its default. *)
Definition new_student_row (clk : Clock)
  (student_id name email phone department : string) : student_row :=
  {| s_student_id := student_id; s_name := name;
     s_email := Some email; s_phone := Some phone;
     s_department := Some department;
     s_created_at := Some (current_timestamp clk) |}.

(** INSERT INTO students (student_id, name, email, phone, department). *)
Definition sql_insert_student (student_id name email phone department : string)
  : Clock → Store → outcome Store :=
  λ clk st,
    if bool_decide (student_id ∈ s_student_id <$> students st)
    then Raised IntegrityError
    else Returned (set_students
           (students st ++
            [new_student_row clk student_id name email phone department]) st).

Definition new_course_row (clk : Clock)
  (course_id course_name instructor schedule : string) : course_row :=
  {| c_course_id := course_id; c_course_name := course_name;
     c_instructor := Some instructor; c_schedule := Some schedule;
     c_created_at := Some (current_timestamp clk) |}.

(** INSERT INTO courses (course_id, course_name, instructor, schedule). *)
Definition sql_insert_course (course_id course_name instructor schedule : string)
  : Clock → Store → outcome Store :=
  λ clk st,
    if bool_decide (course_id ∈ c_course_id <$> courses st)
    then Raised IntegrityError
    else Returned (set_courses
           (courses st ++
            [new_course_row clk course_id course_name instructor schedule]) st).

(** SELECT ... FROM students WHERE student_id = ? *)
Definition sql_select_student (student_id : string) (st : Store)
  : list student_row :=
  filter (λ s, s_student_id s = student_id) (students st).

Definition name_le (x y : student_row) : Prop :=
  String.leb (s_name x) (s_name y) = true.

Definition course_name_le (x y : course_row) : Prop :=
  String.leb (c_course_name x) (c_course_name y) = true.

Global Instance name_le_dec x y : Decision (name_le x y).
Proof. unfold name_le. apply _. Defined.
Global Instance course_name_le_dec x y : Decision (course_name_le x y).
Proof. unfold course_name_le. apply _. Defined.

(** SELECT ... FROM students ORDER BY name *)
Definition sql_select_all_students (st : Store) : list student_row :=
  merge_sort name_le (students st).

(** SELECT ... FROM courses ORDER BY course_name *)
Definition sql_select_all_courses (st : Store) : list course_row :=
  merge_sort course_name_le (courses st).

(** SELECT id FROM attendance WHERE student_id = ? AND date = ? *)
Definition sql_select_attendance_id (student_id : string) (d : date)
  (st : Store) : list Z :=
  a_id <$> filter (λ a, a_student_id a = student_id ∧ a_date a = d)
             (attendance st).

Definition set_a_time_out (t : option timestamp) (a : attendance_row)
  : attendance_row :=
  {| a_id := a_id a; a_student_id := a_student_id a; a_date := a_date a;
     a_time_in := a_time_in a; a_time_out := t;
     a_verification_method := a_verification_method a;
     a_course_id := a_course_id a; a_created_at := a_created_at a |}.

Definition set_a_course_id (c : option string) (a : attendance_row)
  : attendance_row :=
  {| a_id := a_id a; a_student_id := a_student_id a; a_date := a_date a;
     a_time_in := a_time_in a; a_time_out := a_time_out a;
     a_verification_method := a_verification_method a;
     a_course_id := c; a_created_at := a_created_at a |}.

Definition set_ca_time_out (t : option timestamp) (r : course_attendance_row)
  : course_attendance_row :=
  {| ca_id := ca_id r; ca_student_id := ca_student_id r;
     ca_course_id := ca_course_id r; ca_date := ca_date r;
     ca_time_in := ca_time_in r; ca_time_out := t;
     ca_verification_method := ca_verification_method r;
     ca_created_at := ca_created_at r |}.

(** SET time_out = ? WHERE id = ?, on one row. *)
Definition time_out_where_id (t : timestamp) (i : Z) (a : attendance_row)
  : attendance_row :=
  if bool_decide (a_id a = i) then set_a_time_out (Some t) a else a.

(** UPDATE attendance SET time_out = ? WHERE id = ? *)
Definition sql_update_attendance_time_out (t : timestamp) (i : Z)
  : Clock → Store → outcome Store :=
  λ _ st,
    Returned (set_attendance (time_out_where_id t i <$> attendance st) st).

(** SET time_out = ? WHERE student_id = ? AND course_id = ? AND date = ?,
    on one row. *)
Definition time_out_where_key (t : timestamp) (student_id : string)
  (course_id : option string) (d : date) (r : course_attendance_row)
  : course_attendance_row :=
  if bool_decide (ca_student_id r = student_id
                  ∧ Some (ca_course_id r) = course_id ∧ ca_date r = d)
  then set_ca_time_out (Some t) r else r.

(** UPDATE course_attendance SET time_out = ?
    WHERE student_id = ? AND course_id = ? AND date = ? *)
Definition sql_update_course_attendance_time_out (t : timestamp)
  (student_id : string) (course_id : option string) (d : date)
  : Clock → Store → outcome Store :=
  λ _ st,
    Returned (set_course_attendance
      (time_out_where_key t student_id course_id d <$> course_attendance st)
      st).

(** The row INSERT INTO attendance makes: time_out is not given and stays
    NULL, id and created_at take their defaults. *)
Definition new_attendance_row (clk : Clock) (st : Store) (student_id : string)
  (d : date) (t : timestamp) (verification_method : string)
  (course_id : option string) : attendance_row :=
  {| a_id := next_rowid (attendance_seq st) (a_id <$> attendance st);
     a_student_id := student_id; a_date := d;
     a_time_in := Some t; a_time_out := None;
     a_verification_method := verification_method;
     a_course_id := course_id;
     a_created_at := Some (current_timestamp clk) |}.

(** INSERT INTO attendance
    (student_id, date, time_in, verification_method, course_id) *)
Definition sql_insert_attendance (student_id : string) (d : date)
  (t : timestamp) (verification_method : string) (course_id : option string)
  : Clock → Store → outcome Store :=
  λ clk st,
    if bool_decide ((student_id, d) ∈ attendance_key <$> attendance st)
    then Raised IntegrityError
    else
      let r := new_attendance_row clk st student_id d t verification_method
                 course_id in
      Returned
        {| students := students st; courses := courses st;
           attendance := attendance st ++ [r];
           course_attendance := course_attendance st;
           attendance_seq := a_id r;
           course_attendance_seq := course_attendance_seq st |}.

Definition new_course_attendance_row (clk : Clock) (st : Store)
  (student_id course_id : string) (d : date) (t : timestamp)
  (verification_method : string) : course_attendance_row :=
  {| ca_id := next_rowid (course_attendance_seq st)
                (ca_id <$> course_attendance st);
     ca_student_id := student_id; ca_course_id := course_id; ca_date := d;
     ca_time_in := Some t; ca_time_out := None;
     ca_verification_method := verification_method;
     ca_created_at := Some (current_timestamp clk) |}.

(** INSERT INTO course_attendance
    (student_id, course_id, date, time_in, verification_method);
    course_id is NOT NULL there. *)
Definition sql_insert_course_attendance (student_id : string)
  (course_id : option string) (d : date) (t : timestamp)
  (verification_method : string) : Clock → Store → outcome Store :=
  λ clk st,
    match course_id with
    | None => Raised IntegrityError
    | Some c =>
        if bool_decide ((student_id, c, d)
                        ∈ course_attendance_key <$> course_attendance st)
        then Raised IntegrityError
        else
          let r := new_course_attendance_row clk st student_id c d t
                     verification_method in
          Returned
            {| students := students st; courses := courses st;
               attendance := attendance st;
               course_attendance := course_attendance st ++ [r];
               attendance_seq := attendance_seq st;
               course_attendance_seq := ca_id r |}
    end.

(** DELETE FROM attendance WHERE student_id = ? *)
Definition sql_delete_attendance_of (student_id : string)
  : Clock → Store → outcome Store :=
  λ _ st,
    Returned (set_attendance
      (filter (λ a, a_student_id a ≠ student_id) (attendance st)) st).

(** DELETE FROM course_attendance WHERE student_id = ? *)
Definition sql_delete_course_attendance_of (student_id : string)
  : Clock → Store → outcome Store :=
  λ _ st,
    Returned (set_course_attendance
      (filter (λ r, ca_student_id r ≠ student_id) (course_attendance st)) st).

(** DELETE FROM students WHERE student_id = ? *)
Definition sql_delete_student (student_id : string)
  : Clock → Store → outcome Store :=
  λ _ st,
    Returned (set_students
      (filter (λ s, s_student_id s ≠ student_id) (students st)) st).

(** DELETE FROM course_attendance WHERE course_id = ? *)
Definition sql_delete_course_attendance_for (course_id : string)
  : Clock → Store → outcome Store :=
  λ _ st,
    Returned (set_course_attendance
      (filter (λ r, ca_course_id r ≠ course_id) (course_attendance st)) st).

(** SET course_id = NULL WHERE course_id = ?, on one row. *)
Definition null_course_where (course_id : string) (a : attendance_row)
  : attendance_row :=
  if bool_decide (a_course_id a = Some course_id)
  then set_a_course_id None a else a.

(** UPDATE attendance SET course_id = NULL WHERE course_id = ? *)
Definition sql_null_attendance_course (course_id : string)
  : Clock → Store → outcome Store :=
  λ _ st,
    Returned (set_attendance
      (null_course_where course_id <$> attendance st) st).

(** DELETE FROM courses WHERE course_id = ? *)
Definition sql_delete_course (course_id : string)
  : Clock → Store → outcome Store :=
  λ _ st,
    Returned (set_courses
      (filter (λ c, c_course_id c ≠ course_id) (courses st)) st).

(** ** The report query *)

(** A row of the report: (time_in, student_id, name, date,
    verification_method, course_name). *)
Record report_row := {
  rr_time_in : option timestamp;
  rr_student_id : string;
  rr_name : string;
  rr_date : date;
  rr_verification_method : string;
  rr_course_name : option string
}.

Global Instance report_row_eq_dec : EqDecision report_row.
Proof. solve_decision. Defined.

(** The conditions [get_attendance_report] appends to its query, each with
    the parameter appended to [params]. *)
Inductive clause :=
| DateGe (p : option date)          (* AND a.date >= ? *)
| DateLe (p : option date)          (* AND a.date <= ? *)
| StudentIdEq (p : option string)   (* AND a.student_id = ? *)
| CourseIdEq (p : option string).   (* AND a.course_id = ? *)

(** A comparison with NULL is not true. *)
Definition clause_holds (c : clause) (a : attendance_row) : bool :=
  match c with
  | DateGe (Some d) => bool_decide (d ≤ a_date a)%Z
  | DateLe (Some d) => bool_decide (a_date a ≤ d)%Z
  | StudentIdEq (Some s) => bool_decide (a_student_id a = s)
  | CourseIdEq (Some c) => bool_decide (a_course_id a = Some c)
  | _ => false
  end.

(** The order of a TIMESTAMP column: NULL sorts below every value. *)
Definition ts_le (x y : option timestamp) : Prop :=
  match x, y with
  | None, _ => True
  | Some _, None => False
  | Some a, Some b => (a ≤ b)%Z
  end.

Global Instance ts_le_dec x y : Decision (ts_le x y).
Proof. destruct x, y; simpl; apply _. Defined.

(** ORDER BY a.time_in DESC *)
Definition time_in_desc (x y : report_row) : Prop :=
  ts_le (rr_time_in y) (rr_time_in x).

Global Instance time_in_desc_dec x y : Decision (time_in_desc x y).
Proof. unfold time_in_desc. apply _. Defined.

(** LEFT JOIN courses c ON a.course_id = c.course_id: the course names that
    go with an attendance row, NULL when no course matches. *)
Definition left_join_course_name (a : attendance_row) (st : Store)
  : list (option string) :=
  match filter (λ c, a_course_id a = Some (c_course_id c)) (courses st) with
  | [] => [None]
  | cs => (λ c, Some (c_course_name c)) <$> cs
  end.

(** SELECT a.time_in, a.student_id, s.name, a.date, a.verification_method,
           c.course_name
    FROM attendance a JOIN students s ON a.student_id = s.student_id
    LEFT JOIN courses c ON a.course_id = c.course_id
    WHERE 1=1 [clauses] ORDER BY a.time_in DESC.
    Rows with equal time_in come in the order of the scan. *)
Definition sql_select_report (clauses : list clause) (st : Store)
  : list report_row :=
  merge_sort time_in_desc
    (a ← attendance st;
     s ← filter (λ s, a_student_id a = s_student_id s) (students st);
     cn ← left_join_course_name a st;
     if forallb (λ c, clause_holds c a) clauses
     then [{| rr_time_in := a_time_in a; rr_student_id := a_student_id a;
              rr_name := s_name s; rr_date := a_date a;
              rr_verification_method := a_verification_method a;
              rr_course_name := cn |}]
     else []).

(** ** The statistics queries *)

(** SELECT COUNT( * ) FROM attendance WHERE student_id = ? *)
Definition sql_count_attendance (student_id : string) (st : Store) : nat :=
  length (filter (λ a, a_student_id a = student_id) (attendance st)).

(** SELECT COUNT( * ) FROM attendance WHERE student_id = ? AND date >= ? *)
Definition sql_count_attendance_since (student_id : string) (d : date)
  (st : Store) : nat :=
  length (filter (λ a, a_student_id a = student_id ∧ (d ≤ a_date a)%Z)
            (attendance st)).

(** One more row in the group of method [m]. *)
Fixpoint bump (m : string) (groups : list (string * nat))
  : list (string * nat) :=
  match groups with
  | [] => [(m, 1%nat)]
  | (k, n) :: rest =>
      if bool_decide (k = m) then (k, S n) :: rest else (k, n) :: bump m rest
  end.

(** SELECT verification_method, COUNT( * ) FROM attendance
    WHERE student_id = ? GROUP BY verification_method *)
Definition sql_count_by_method (student_id : string) (st : Store)
  : list (string * nat) :=
  foldl (λ groups a, bump (a_verification_method a) groups) []
    (filter (λ a, a_student_id a = student_id) (attendance st)).

(** Python's [dict(pairs)]: a later pair overrides an earlier one. *)
Definition dict (pairs : list (string * nat)) : gmap string nat :=
  foldl (λ d kv, <[kv.1 := kv.2]> d) ∅ pairs.

Record statistics := {
  total_attendance : nat;
  recent_attendance : nat;
  method_stats : gmap string nat
}.

(** What [get_student_statistics] returns: the dictionary with the three
    keys, or the empty dictionary. *)
Inductive stats_dict :=
| Stats (s : statistics)
| EmptyDict.

(** [d - timedelta(days=n)]: a [date] cannot go below [date.min]. *)
Definition date_minus_days (d : date) (n : Z) : M date :=
  if bool_decide (MINORDINAL ≤ d - n)%Z then ret (d - n) else raise OverflowError.

(** ** File copies

    The fault a copy meets is one of opening its files, before a byte is
    written.  A copy that breaks off midway leaves a partly written target;
    the store has no value for such a file, and nothing below says what a
    copy that failed midway leaves in its target. *)

(** [shutil.copy2(self.db_path, backup_path)] *)
Definition copy2_from_db (backup_path : string) : M unit :=
  io ;; λ _ s,
    if bool_decide (backup_path = st_path s) then (Raised OSError, s)
    else (Returned (), with_files (<[backup_path := st_db s]> (st_files s)) s).

(** [shutil.copy2(backup_path, self.db_path)] *)
Definition copy2_to_db (backup_path : string) : M unit :=
  io ;; λ _ s,
    if bool_decide (backup_path = st_path s) then (Raised OSError, s)
    else match st_files s !! backup_path with
         | Some d => (Returned (), with_db d s)
         | None => (Raised OSError, s)
         end.

(** ** The methods of [DatabaseManager]

    Each method is [with self.lock: try: body except ...: default].  The lock
    makes the calls run one after the other, which is how they are composed
    here.  The bodies are given on their own so that what they raise can be
    told from what the method returns; the [print] of a handler is left out. *)

(** CREATE TABLE IF NOT EXISTS leaves an existing table as it is. *)
Definition sql_create_table_if_not_exists : Clock → Store → outcome Store :=
  λ _ st, Returned st.

(** [init_database] has no handler: a fault goes to the caller. *)
Definition init_database : M unit :=
  connect ;;
  execute_update sql_create_table_if_not_exists ;;
  execute_update sql_create_table_if_not_exists ;;
  execute_update sql_create_table_if_not_exists ;;
  execute_update sql_create_table_if_not_exists ;;
  commit ;;
  close.

Definition add_student_body (student_id name email phone department : string)
  : M bool :=
  connect ;;
  execute_update (sql_insert_student student_id name email phone department) ;;
  commit ;;
  close ;;
  ret true.

Definition add_student (student_id name email phone department : string)
  : M bool :=
  try_except (add_student_body student_id name email phone department)
    (λ e, match e with
          | IntegrityError => ret false   (* Student ID already exists *)
          | _ => ret false
          end).

Definition get_student_body (student_id : string) : M (option student_row) :=
  connect ;;
  let* result := execute_query (λ st, head (sql_select_student student_id st)) in
  close ;;
  ret result.

Definition get_student (student_id : string) : M (option student_row) :=
  try_except (get_student_body student_id) (λ _, ret None).

Definition get_all_students_body : M (list student_row) :=
  connect ;;
  let* results := execute_query sql_select_all_students in
  close ;;
  ret results.

Definition get_all_students : M (list student_row) :=
  try_except get_all_students_body (λ _, ret []).

Definition record_attendance_body (student_id verification_method : string)
  (course_id : option string) : M bool :=
  connect ;;
  let* clk := get_clock in
  let today := today clk in
  let current_time := now clk in
  let* existing_record :=
    execute_query (λ st, head (sql_select_attendance_id student_id today st)) in
  match existing_record with
  | Some id =>
      execute_update (sql_update_attendance_time_out current_time id) ;;
      (if truthy_str course_id
       then execute_update
              (sql_update_course_attendance_time_out current_time student_id
                 course_id today)
       else ret ()) ;;
      commit ;;
      close ;;
      ret false   (* Already recorded today *)
  | None =>
      execute_update
        (sql_insert_attendance student_id today current_time
           verification_method course_id) ;;
      (if truthy_str course_id
       then execute_update
              (sql_insert_course_attendance student_id course_id today
                 current_time verification_method)
       else ret ()) ;;
      commit ;;
      close ;;
      ret true
  end.

Definition record_attendance (student_id verification_method : string)
  (course_id : option string) : M bool :=
  try_except (record_attendance_body student_id verification_method course_id)
    (λ _, ret false).

(** The query text grows by one condition for each filter that is true in
    Python's sense. *)
Definition report_clauses (start_date end_date : option date)
  (student_id course_id : option string) : list clause :=
  (if truthy_date start_date then [DateGe start_date] else []) ++
  (if truthy_date end_date then [DateLe end_date] else []) ++
  (if truthy_str student_id then [StudentIdEq student_id] else []) ++
  (if truthy_str course_id then [CourseIdEq course_id] else []).

Definition get_attendance_report_body (start_date end_date : option date)
  (student_id course_id : option string) : M (list report_row) :=
  connect ;;
  let clauses := report_clauses start_date end_date student_id course_id in
  let* results := execute_query (sql_select_report clauses) in
  close ;;
  ret results.

Definition get_attendance_report (start_date end_date : option date)
  (student_id course_id : option string) : M (list report_row) :=
  try_except
    (get_attendance_report_body start_date end_date student_id course_id)
    (λ _, ret []).

Definition add_course_body (course_id course_name instructor schedule : string)
  : M bool :=
  connect ;;
  execute_update (sql_insert_course course_id course_name instructor schedule) ;;
  commit ;;
  close ;;
  ret true.

Definition add_course (course_id course_name instructor schedule : string)
  : M bool :=
  try_except (add_course_body course_id course_name instructor schedule)
    (λ e, match e with
          | IntegrityError => ret false   (* Course ID already exists *)
          | _ => ret false
          end).

Definition get_all_courses_body : M (list course_row) :=
  connect ;;
  let* results := execute_query sql_select_all_courses in
  close ;;
  ret results.

Definition get_all_courses : M (list course_row) :=
  try_except get_all_courses_body (λ _, ret []).

Definition delete_student_body (student_id : string) : M bool :=
  connect ;;
  execute_update (sql_delete_attendance_of student_id) ;;
  execute_update (sql_delete_course_attendance_of student_id) ;;
  execute_update (sql_delete_student student_id) ;;
  commit ;;
  close ;;
  ret true.

Definition delete_student (student_id : string) : M bool :=
  try_except (delete_student_body student_id) (λ _, ret false).

Definition delete_course_body (course_id : string) : M bool :=
  connect ;;
  execute_update (sql_delete_course_attendance_for course_id) ;;
  execute_update (sql_null_attendance_course course_id) ;;
  execute_update (sql_delete_course course_id) ;;
  commit ;;
  close ;;
  ret true.

Definition delete_course (course_id : string) : M bool :=
  try_except (delete_course_body course_id) (λ _, ret false).

Definition get_student_statistics_body (student_id : string) : M stats_dict :=
  connect ;;
  let* total_attendance := execute_query (sql_count_attendance student_id) in
  let* groups := execute_query (sql_count_by_method student_id) in
  let method_stats := dict groups in
  let* clk := get_clock in
  let* thirty_days_ago := date_minus_days (today clk) 30 in
  let* recent_attendance :=
    execute_query (sql_count_attendance_since student_id thirty_days_ago) in
  close ;;
  ret (Stats {| total_attendance := total_attendance;
                recent_attendance := recent_attendance;
                method_stats := method_stats |}).

Definition get_student_statistics (student_id : string) : M stats_dict :=
  try_except (get_student_statistics_body student_id) (λ _, ret EmptyDict).

Definition backup_database_body (backup_path : string) : M bool :=
  copy2_from_db backup_path ;;
  ret true.

Definition backup_database (backup_path : string) : M bool :=
  try_except (backup_database_body backup_path) (λ _, ret false).

Definition restore_database_body (backup_path : string) : M bool :=
  copy2_to_db backup_path ;;
  ret true.

Definition restore_database (backup_path : string) : M bool :=
  try_except (restore_database_body backup_path) (λ _, ret false).

(** ** Calls from outside *)

(** What persists between two calls: the database file and the backups.  The
    connection of a call is gone when the call returns, and with it whatever
    it had not committed. *)
Record World := {
  db_path : string;
  db : Store;
  files : gmap string Store
}.

Definition enter (w : World) (faults : list (option exn)) : St :=
  {| st_path := db_path w; st_db := db w; st_conn := db w;
     st_files := files w; st_faults := faults |}.

Definition leave (s : St) : World :=
  {| db_path := st_path s; db := st_db s; files := st_files s |}.

Definition run {A} (m : M A) (clk : Clock) (faults : list (option exn))
  (w : World) : outcome A * World :=
  match m clk (enter w faults) with
  | (r, s) => (r, leave s)
  end.

Definition set_db (d : Store) (w : World) : World :=
  {| db_path := db_path w; db := d; files := files w |}.

(** A run that meets no fault. *)
Definition no_faults : list (option exn) := [].

(** The store right after [DatabaseManager(path)] on a new file. *)
Definition new_world (path : string) : World :=
  {| db_path := path; db := empty_store; files := ∅ |}.

(** The public operations, as the callers (GUI, command line, tests) use
    them. *)
Inductive call :=
| AddStudent (student_id name email phone department : string)
| GetStudent (student_id : string)
| GetAllStudents
| AddCourse (course_id course_name instructor schedule : string)
| GetAllCourses
| DeleteStudent (student_id : string)
| DeleteCourse (course_id : string)
| RecordAttendance (student_id verification_method : string)
    (course_id : option string)
| GetAttendanceReport (start_date end_date : option date)
    (student_id course_id : option string)
| GetStudentStatistics (student_id : string)
| BackupDatabase (backup_path : string)
| RestoreDatabase (backup_path : string).

(** The values the operations return. *)
Inductive value :=
| VBool (b : bool)
| VStudent (r : option student_row)
| VStudents (l : list student_row)
| VCourses (l : list course_row)
| VReport (l : list report_row)
| VStats (d : stats_dict).

Definition fmap_M {A B} (f : A → B) (m : M A) : M B :=
  let* a := m in ret (f a).

Definition body_of (c : call) : M value :=
  match c with
  | AddStudent i n e p d => fmap_M VBool (add_student_body i n e p d)
  | GetStudent i => fmap_M VStudent (get_student_body i)
  | GetAllStudents => fmap_M VStudents get_all_students_body
  | AddCourse i n ins sch => fmap_M VBool (add_course_body i n ins sch)
  | GetAllCourses => fmap_M VCourses get_all_courses_body
  | DeleteStudent i => fmap_M VBool (delete_student_body i)
  | DeleteCourse i => fmap_M VBool (delete_course_body i)
  | RecordAttendance i m c => fmap_M VBool (record_attendance_body i m c)
  | GetAttendanceReport sd ed i c =>
      fmap_M VReport (get_attendance_report_body sd ed i c)
  | GetStudentStatistics i => fmap_M VStats (get_student_statistics_body i)
  | BackupDatabase p => fmap_M VBool (backup_database_body p)
  | RestoreDatabase p => fmap_M VBool (restore_database_body p)
  end.

Definition method_of (c : call) : M value :=
  match c with
  | AddStudent i n e p d => fmap_M VBool (add_student i n e p d)
  | GetStudent i => fmap_M VStudent (get_student i)
  | GetAllStudents => fmap_M VStudents get_all_students
  | AddCourse i n ins sch => fmap_M VBool (add_course i n ins sch)
  | GetAllCourses => fmap_M VCourses get_all_courses
  | DeleteStudent i => fmap_M VBool (delete_student i)
  | DeleteCourse i => fmap_M VBool (delete_course i)
  | RecordAttendance i m c => fmap_M VBool (record_attendance i m c)
  | GetAttendanceReport sd ed i c =>
      fmap_M VReport (get_attendance_report sd ed i c)
  | GetStudentStatistics i => fmap_M VStats (get_student_statistics i)
  | BackupDatabase p => fmap_M VBool (backup_database p)
  | RestoreDatabase p => fmap_M VBool (restore_database p)
  end.

(** The value a method returns when its body raised. *)
Definition failure_value (c : call) : value :=
  match c with
  | AddStudent _ _ _ _ _ | AddCourse _ _ _ _ | DeleteStudent _
  | DeleteCourse _ | RecordAttendance _ _ _ | BackupDatabase _
  | RestoreDatabase _ => VBool false
  | GetStudent _ => VStudent None
  | GetAllStudents => VStudents []
  | GetAllCourses => VCourses []
  | GetAttendanceReport _ _ _ _ => VReport []
  | GetStudentStatistics _ => VStats EmptyDict
  end.

(** The result type of each operation. *)
Definition value_fits (c : call) (v : value) : Prop :=
  match c, v with
  | (AddStudent _ _ _ _ _ | AddCourse _ _ _ _ | DeleteStudent _
    | DeleteCourse _ | RecordAttendance _ _ _ | BackupDatabase _
    | RestoreDatabase _), VBool _ => True
  | GetStudent _, VStudent _ => True
  | GetAllStudents, VStudents _ => True
  | GetAllCourses, VCourses _ => True
  | GetAttendanceReport _ _ _ _, VReport _ => True
  | GetStudentStatistics _, VStats _ => True
  | _, _ => False
  end.

Definition exec (c : call) (clk : Clock) (faults : list (option exn))
  (w : World) : outcome value * World :=
  run (method_of c) clk faults w.

(** The worlds a new store reaches through calls, whatever the clock reads
    and whatever faults the calls meet. *)
Inductive reachable : World → Prop :=
| reachable_new path : reachable (new_world path)
| reachable_exec w c clk faults :
    reachable w → reachable (exec c clk faults w).2.

(** * Notions used by the theorems *)

(** ** Faults only abort

    A fault makes a call stop early; it never changes what a statement
    computes.  Two classes of computations capture this.  A _quiet_
    computation leaves the files alone (it works on the connection only); a
    _transactional_ one changes the files at one point at most, so that a run
    with faults leaves them either untouched or as the run without faults
    does. *)

(** The same state with no fault ahead. *)
Definition clear (s : St) : St :=
  {| st_path := st_path s; st_db := st_db s; st_conn := st_conn s;
     st_files := st_files s; st_faults := [] |}.

(** A run that returns is replayed by the run without faults. *)
Definition replays {A} (m : M A) : Prop :=
  ∀ clk s a s', m clk s = (Returned a, s') →
    m clk (clear s) = (Returned a, clear s').

Definition quiet {A} (m : M A) : Prop :=
  replays m ∧ ∀ clk s, leave (m clk s).2 = leave s.

Definition transactional {A} (m : M A) : Prop :=
  replays m ∧
  ∀ clk s, leave (m clk s).2 = leave s
           ∨ leave (m clk s).2 = leave (m clk (clear s)).2.

(** ** The effects of the calls

    [effect clk w c w'] lists what a call [c] can do to the files; whatever
    the faults, a call does one of these. *)

(** The store after the second branch of [record_attendance]: time_out is
    set on the row found, and on the course row when a course is given. *)
Definition toggled (clk : Clock) (student_id : string)
  (course_id : option string) (id : Z) (st : Store) : Store :=
  let st1 := set_attendance
               (time_out_where_id (now clk) id <$> attendance st) st in
  if truthy_str course_id
  then set_course_attendance
         (time_out_where_key (now clk) student_id course_id (today clk)
            <$> course_attendance st1) st1
  else st1.

(** The store after the first branch of [record_attendance] when both
    inserts pass. *)
Definition created (clk : Clock) (student_id verification_method : string)
  (course_id : option string) (st : Store) : Store :=
  let r := new_attendance_row clk st student_id (today clk) (now clk)
             verification_method course_id in
  {| students := students st; courses := courses st;
     attendance := attendance st ++ [r];
     course_attendance :=
       match course_id with
       | Some c =>
           if truthy_str course_id
           then course_attendance st ++
                [new_course_attendance_row clk st student_id c (today clk)
                   (now clk) verification_method]
           else course_attendance st
       | None => course_attendance st
       end;
     attendance_seq := a_id r;
     course_attendance_seq :=
       match course_id with
       | Some c =>
           if truthy_str course_id
           then next_rowid (course_attendance_seq st)
                  (ca_id <$> course_attendance st)
           else course_attendance_seq st
       | None => course_attendance_seq st
       end |}.

Definition student_deleted (student_id : string) (st : Store) : Store :=
  {| students := filter (λ s, s_student_id s ≠ student_id) (students st);
     courses := courses st;
     attendance := filter (λ a, a_student_id a ≠ student_id) (attendance st);
     course_attendance :=
       filter (λ r, ca_student_id r ≠ student_id) (course_attendance st);
     attendance_seq := attendance_seq st;
     course_attendance_seq := course_attendance_seq st |}.

Definition course_deleted (course_id : string) (st : Store) : Store :=
  {| students := students st;
     courses := filter (λ c, c_course_id c ≠ course_id) (courses st);
     attendance := null_course_where course_id <$> attendance st;
     course_attendance :=
       filter (λ r, ca_course_id r ≠ course_id) (course_attendance st);
     attendance_seq := attendance_seq st;
     course_attendance_seq := course_attendance_seq st |}.

Inductive effect (clk : Clock) (w : World) : call → World → Prop :=
| effect_none c :
    effect clk w c w
| effect_add_student i n e p d :
    i ∉ s_student_id <$> students (db w) →
    effect clk w (AddStudent i n e p d)
      (set_db (set_students
                 (students (db w) ++ [new_student_row clk i n e p d]) (db w)) w)
| effect_add_course i n ins sch :
    i ∉ c_course_id <$> courses (db w) →
    effect clk w (AddCourse i n ins sch)
      (set_db (set_courses
                 (courses (db w) ++ [new_course_row clk i n ins sch]) (db w)) w)
| effect_toggled i m c id :
    head (sql_select_attendance_id i (today clk) (db w)) = Some id →
    effect clk w (RecordAttendance i m c)
      (set_db (toggled clk i c id (db w)) w)
| effect_created i m c :
    (i, today clk) ∉ attendance_key <$> attendance (db w) →
    (∀ x, c = Some x → x ≠ "" →
       (i, x, today clk) ∉
         course_attendance_key <$> course_attendance (db w)) →
    effect clk w (RecordAttendance i m c)
      (set_db (created clk i m c (db w)) w)
| effect_delete_student i :
    effect clk w (DeleteStudent i) (set_db (student_deleted i (db w)) w)
| effect_delete_course i :
    effect clk w (DeleteCourse i) (set_db (course_deleted i (db w)) w)
| effect_backup p :
    p ≠ db_path w →
    effect clk w (BackupDatabase p)
      {| db_path := db_path w; db := db w; files := <[p := db w]> (files w) |}
| effect_restore p d :
    p ≠ db_path w → files w !! p = Some d →
    effect clk w (RestoreDatabase p) (set_db d w).

(** ** The constraints of the schema *)

(** The PRIMARY KEY and UNIQUE constraints of [init_database].  SQLite
    enforces them on every database file with this schema. *)
Record wf_store (st : Store) : Prop := {
  students_pk : NoDup (s_student_id <$> students st);
  courses_pk : NoDup (c_course_id <$> courses st);
  attendance_pk : NoDup (a_id <$> attendance st);
  attendance_unique : NoDup (attendance_key <$> attendance st);
  course_attendance_pk : NoDup (ca_id <$> course_attendance st);
  course_attendance_unique :
    NoDup (course_attendance_key <$> course_attendance st)
}.

Definition wf_world (w : World) : Prop :=
  wf_store (db w) ∧ map_Forall (λ _, wf_store) (files w).

(** ** Sequences of calls and what they keep *)

(** A sequence of calls, each with what the clock reads and the faults it
    meets. *)
Fixpoint exec_all (calls : list (call * Clock * list (option exn)))
  (w : World) : World :=
  match calls with
  | [] => w
  | (c, clk, faults) :: rest => exec_all rest (exec c clk faults w).2
  end.

(** The calls that do not take the student [i] away: all but
    [delete_student i] and [restore_database]. *)
Definition keeps_student (i : string) (c : call) : Prop :=
  match c with
  | DeleteStudent j => j ≠ i
  | RestoreDatabase _ => False
  | _ => True
  end.

(** What delete_course does to one attendance row. *)
Definition course_reference_nulled (course_id : string)
  (a a' : attendance_row) : Prop :=
  a_id a' = a_id a ∧ a_student_id a' = a_student_id a ∧
  a_date a' = a_date a ∧ a_time_in a' = a_time_in a ∧
  a_time_out a' = a_time_out a ∧
  a_verification_method a' = a_verification_method a ∧
  a_created_at a' = a_created_at a ∧
  (a_course_id a = Some course_id → a_course_id a' = None) ∧
  (a_course_id a ≠ Some course_id → a' = a).

Definition is_restore (c : call) : Prop :=
  match c with
  | RestoreDatabase _ => True
  | _ => False
  end.

(** What a call [c] may do to an attendance row that it keeps: every field
    stays but time_out, which record_attendance sets, and course_id, which
    delete_course sets to NULL. *)
Definition row_kept (c : call) (clk : Clock) (a a' : attendance_row) : Prop :=
  a_student_id a' = a_student_id a ∧ a_date a' = a_date a ∧
  a_time_in a' = a_time_in a ∧
  a_verification_method a' = a_verification_method a ∧
  a_created_at a' = a_created_at a ∧
  (a_time_out a' = a_time_out a
   ∨ (∃ i m x, c = RecordAttendance i m x) ∧ a_time_out a' = Some (now clk)) ∧
  (a_course_id a' = a_course_id a
   ∨ (∃ x, c = DeleteCourse x ∧ a_course_id a = Some x)
     ∧ a_course_id a' = None).

(** The invariant of the specification read to the letter: between a row and
    the row of the same id after a call, only time_out differs. *)
Definition only_time_out_differs (a a' : attendance_row) : Prop :=
  set_a_time_out (a_time_out a) a' = a.

(** ** Counting by method *)

(** The count a list of groups gives a method. *)
Fixpoint group_count (m : string) (groups : list (string * nat)) : nat :=
  match groups with
  | [] => 0
  | (k, n) :: rest => if bool_decide (k = m) then n else group_count m rest
  end.

(** ** The report in the words of the specification *)

(** A filter that is given, in the sense of [if student_id:]: not None and
    not empty. *)
Definition given (o : option string) : option string :=
  if truthy_str o then o else None.

(** A row passes the filters: each filter that is there holds, one that is
    not there asks nothing. *)
Definition passes (start_date end_date : option date)
  (student_id course_id : option string) (a : attendance_row) : bool :=
  from_option (λ d, bool_decide (d ≤ a_date a)%Z) true start_date
  && from_option (λ d, bool_decide (a_date a ≤ d)%Z) true end_date
  && from_option (λ i, bool_decide (a_student_id a = i)) true student_id
  && from_option (λ c, bool_decide (a_course_id a = Some c)) true course_id.

(** The row of the report for an attendance row: the row joined with its
    student row, none if it has no student row; the course name is NULL when
    the course of the row matches no course. *)
Definition report_row_of (st : Store) (a : attendance_row)
  : option report_row :=
  s ← head (sql_select_student (a_student_id a) st);
  Some {| rr_time_in := a_time_in a; rr_student_id := a_student_id a;
          rr_name := s_name s; rr_date := a_date a;
          rr_verification_method := a_verification_method a;
          rr_course_name :=
            c_course_name <$>
              head (filter (λ c, a_course_id a = Some (c_course_id c))
                      (courses st)) |}.

(** The report in the words of the specification: the attendance rows that
    pass all the filters, each joined with its student. *)
Definition report_spec (start_date end_date : option date)
  (student_id course_id : option string) (st : Store) : list report_row :=
  omap (report_row_of st)
    (filter (λ a, passes start_date end_date student_id course_id a = true)
       (attendance st)).

(** ** Sample stores *)

Definition clock_at (d : date) (t : timestamp) : Clock :=
  {| today := d; now := t; current_timestamp := t |}.

(** A store with one attendance row that refers to a course. *)
Definition course_world : World :=
  (exec (RecordAttendance "S001" "id_pass" (Some "CS101"))
     (clock_at 739000 100) no_faults (new_world "attendance_system.db")).2.

(** A store whose backup holds an older row of the same id: a backup of the
    empty store, a check-in, a second backup, the empty store restored and a
    new check-in. *)
Definition restored_world : World :=
  exec_all
    [(BackupDatabase "empty.db", clock_at 739000 50, no_faults);
     (RecordAttendance "S001" "id_pass" None, clock_at 739000 100, no_faults);
     (BackupDatabase "first.db", clock_at 739000 150, no_faults);
     (RestoreDatabase "empty.db", clock_at 739000 160, no_faults);
     (RecordAttendance "S001" "id_pass" None, clock_at 739000 200, no_faults)]
    (new_world "attendance_system.db").

(** A store with one student and one attendance row of that student. *)
Definition one_student_world : World :=
  exec_all
    [(AddStudent "S001" "Ann" "" "" "", clock_at 739000 50, no_faults);
     (RecordAttendance "S001" "id_pass" None, clock_at 739000 100, no_faults)]
    (new_world "attendance_system.db").

(** The attendance row of [course_world]. *)
Definition orphan_row : attendance_row :=
  {| a_id := 1; a_student_id := "S001"; a_date := 739000;
     a_time_in := Some 100%Z; a_time_out := None;
     a_verification_method := "id_pass";
     a_course_id := Some "CS101"; a_created_at := Some 100%Z |}.

(** The attendance row of [one_student_world]. *)
Definition checked_in_row : attendance_row :=
  {| a_id := 1; a_student_id := "S001"; a_date := 739000;
     a_time_in := Some 100%Z; a_time_out := None;
     a_verification_method := "id_pass";
     a_course_id := None; a_created_at := Some 100%Z |}.

(** ** Further notions: courses, reads, backups, the first fault *)

(** The calls that do not take the course [i] away: all but
    [delete_course i] and [restore_database]. *)
Definition keeps_course (i : string) (c : call) : Prop :=
  match c with
  | DeleteCourse j => j ≠ i
  | RestoreDatabase _ => False
  | _ => True
  end.

(** The operations that only read. *)
Definition is_read (c : call) : Prop :=
  match c with
  | GetStudent _ | GetAllStudents | GetAllCourses
  | GetAttendanceReport _ _ _ _ | GetStudentStatistics _ => True
  | _ => False
  end.

(** The calls that do not write the backup at [p]: all but
    [backup_database p]. *)
Definition keeps_backup (p : string) (c : call) : Prop :=
  match c with
  | BackupDatabase q => q ≠ p
  | _ => True
  end.

(** Every course_attendance row goes with an attendance row of the same
    student and day. *)
Definition course_rows_covered (st : Store) : Prop :=
  ∀ r, r ∈ course_attendance st →
       (ca_student_id r, ca_date r) ∈ attendance_key <$> attendance st.

(** The same for the database file and for every backup. *)
Definition covered_world (w : World) : Prop :=
  course_rows_covered (db w)
  ∧ map_Forall (λ _, course_rows_covered) (files w).

(** * The callers of the manager: main.py *)

(** A caller makes one call of the manager after the other; each call meets
    its own clock and its own faults.  [Env] gives both for the n-th call of
    a run, [Sys] holds the files and the number of calls made so far.  What
    a caller prints on the terminal is left out. *)
Record Env := {
  clock_of : nat → Clock;
  faults_of : nat → list (option exn)
}.

Record Sys := {
  world : World;
  calls_made : nat
}.

Definition Prog (A : Type) : Type := Env → Sys → outcome A * Sys.

Definition pret {A} (a : A) : Prog A := λ _ s, (Returned a, s).

Definition pbind {A B} (m : Prog A) (k : A → Prog B) : Prog B :=
  λ env s,
    match m env s with
    | (Returned a, s') => k a env s'
    | (Raised e, s') => (Raised e, s')
    end.

(** [try: body except Exception: handler] in a caller. *)
Definition ptry {A} (body : Prog A) (handler : exn → Prog A) : Prog A :=
  λ env s,
    match body env s with
    | (Returned a, s') => (Returned a, s')
    | (Raised e, s') => handler e env s'
    end.

Notation "'let+' x ':=' m 'in' k" := (pbind m (λ x, k))
  (at level 10, x name, m at level 100, k at level 200, only parsing).
Notation "m ';+' k" := (pbind m (λ _, k))
  (at level 100, k at level 200, right associativity, only parsing).

(** One call of a method of the manager. *)
Definition invoke {A} (m : M A) : Prog A :=
  λ env s,
    match run m (clock_of env (calls_made s)) (faults_of env (calls_made s))
            (world s) with
    | (r, w) => (r, {| world := w; calls_made := S (calls_made s) |})
    end.

(** [for x in l: body] *)
Fixpoint for_each {A} (l : list A) (body : A → Prog unit) : Prog unit :=
  match l with
  | [] => pret ()
  | x :: rest => body x ;+ for_each rest body
  end.

(** A caller run from the files [w]. *)
Definition perform {A} (p : Prog A) (env : Env) (w : World)
  : outcome A * World :=
  match p env {| world := w; calls_made := 0 |} with
  | (r, s) => (r, world s)
  end.

Module SmartAttendanceSystem.

Definition sample_courses : list (string * string * string * string) :=
  [("CS101", "Introduction to Computer Science", "Dr. Smith",
    "Mon/Wed 9:00-10:30");
   ("MATH201", "Calculus II", "Prof. Johnson", "Tue/Thu 11:00-12:30");
   ("ENG101", "English Composition", "Dr. Williams", "Mon/Wed 14:00-15:30");
   ("PHYS101", "Physics I", "Prof. Brown", "Tue/Thu 13:00-14:30");
   ("HIST101", "World History", "Dr. Davis", "Fri 10:00-12:00")].

Definition sample_students
  : list (string * string * string * string * string) :=
  [("S001", "John Doe", "john.doe@university.edu", "555-0101",
    "Computer Science");
   ("S002", "Jane Smith", "jane.smith@university.edu", "555-0102",
    "Mathematics");
   ("S003", "Bob Johnson", "bob.johnson@university.edu", "555-0103",
    "Engineering");
   ("S004", "Alice Brown", "alice.brown@university.edu", "555-0104",
    "Physics");
   ("S005", "Charlie Wilson", "charlie.wilson@university.edu", "555-0105",
    "Computer Science");
   ("S006", "Diana Davis", "diana.davis@university.edu", "555-0106",
    "Mathematics");
   ("S007", "Edward Miller", "edward.miller@university.edu", "555-0107",
    "Engineering");
   ("S008", "Fiona Garcia", "fiona.garcia@university.edu", "555-0108",
    "Physics");
   ("S009", "George Martinez", "george.martinez@university.edu", "555-0109",
    "Computer Science");
   ("S010", "Helen Taylor", "helen.taylor@university.edu", "555-0110",
    "Mathematics")].

(** The loops of [add_sample_data]; the result of each call is dropped. *)
Definition add_courses (courses : list (string * string * string * string))
  : Prog unit :=
  for_each courses (λ '(course_id, course_name, instructor, schedule),
    ptry (invoke (add_course course_id course_name instructor schedule) ;+
          pret ())
         (λ _, pret ())).

Definition add_students
  (students : list (string * string * string * string * string))
  : Prog unit :=
  for_each students (λ '(student_id, name, email, phone, department),
    ptry (invoke (add_student student_id name email phone department) ;+
          pret ())
         (λ _, pret ())).

Definition add_sample_data : Prog unit :=
  add_courses sample_courses ;+
  add_students sample_students.

(** [response] is the value of
    [input("Are you sure ...").lower().strip()]. *)
Definition delete_all_data (response : string) : Prog unit :=
  ptry
    (if bool_decide (response = "yes")
     then
       let+ students := invoke get_all_students in
       for_each students (λ student,
         invoke (delete_student (s_student_id student)) ;+ pret ()) ;+
       let+ courses := invoke get_all_courses in
       for_each courses (λ course,
         invoke (delete_course (c_course_id course)) ;+ pret ())
     else pret ())
    (λ _, pret ()).

(** The database part of [run_system_test]; the part that looks at the
    window touches no file. *)
Definition run_system_test : Prog unit :=
  ptry
    (let test_student_id := "TEST001" in
     invoke (add_student test_student_id "Test Student" "test@test.com"
               "555-0000" "Test Dept") ;+
     let+ student := invoke (get_student test_student_id) in
     let test_course_id := "TEST101" in
     invoke (add_course test_course_id "Test Course" "Test Instructor"
               "Test Schedule") ;+
     let+ result :=
       invoke (record_attendance test_student_id "id_pass"
                 (Some test_course_id)) in
     invoke (delete_student test_student_id) ;+
     pret ())
    (λ _, pret ()).

End SmartAttendanceSystem.

(** An environment in which no call meets a fault. *)
Definition calm (env : Env) : Prop := ∀ n, faults_of env n = no_faults.

(** The environment in which every call reads the clock [clk] and meets no
    fault. *)
Definition still (clk : Clock) : Env :=
  {| clock_of := λ _, clk; faults_of := λ _, no_faults |}.

(** What the deletion of all the courses in [l] does to one attendance
    row: a reference to one of them becomes NULL. *)
Definition null_course_among (l : list string) (a : attendance_row)
  : attendance_row :=
  match a_course_id a with
  | Some c => if bool_decide (c ∈ l) then set_a_course_id None a else a
  | None => a
  end.

(** * The window: gui_module.py *)

(** [date.today()] in a caller: the date at the next call. *)
Definition date_today : Prog date :=
  λ env s, (Returned (today (clock_of env (calls_made s))), s).

Module AttendanceGUI.

(** What a handler shows, in a message box or in the status label of the
    attendance tab. *)
Inductive feedback :=
| RequiredError
    (* showerror("Error", "Student ID and Name are required!") *)
| AddedInfo (name : string)
    (* showinfo("Success", f"Student {name} added successfully!") *)
| AddFailedError (e : exn)
    (* showerror("Error", f"Failed to add student: {str(e)}") *)
| RefreshFailedError (e : exn)
    (* showerror("Error", f"Failed to refresh ... list: {str(e)}") *)
| EnterIdError
    (* showerror("Error", "Please enter a Student ID!") *)
| NotFoundError (student_id : string)
    (* showerror("Error", f"Student ID {student_id} not found!") *)
| RecordedLabel (name student_id : string)
    (* label: f"Attendance recorded for {student[1]} ({student_id})" *)
| AlreadyRecordedLabel
    (* label: "Attendance already recorded for today" *)
| RecordFailedError (e : exn).
    (* showerror("Error", f"Failed to record attendance: {str(e)}") and
       label: "Error recording attendance" *)

Global Instance feedback_eq_dec : EqDecision feedback.
Proof. solve_decision. Defined.

Section Handlers.
(** [str.strip] *)
Context (strip : string → string).

(** The rows go to the tree of the students tab. *)
Definition refresh_student_list : Prog (list feedback) :=
  ptry (invoke get_all_students ;+ pret [])
       (λ e, pret [RefreshFailedError e]).

(** The rows go to the tree of the attendance tab. *)
Definition refresh_attendance_list : Prog (list feedback) :=
  ptry (let+ today := date_today in
        invoke (get_attendance_report (Some today) (Some today) None None) ;+
        pret [])
       (λ e, pret [RefreshFailedError e]).

(** The handler of the button that adds a student; its arguments are the
    texts of the five entries. *)
Definition add_student
  (student_id_entry name_entry email_entry phone_entry department_entry
     : string) : Prog (list feedback) :=
  let student_id := strip student_id_entry in
  let name := strip name_entry in
  let email := strip email_entry in
  let phone := strip phone_entry in
  let department := strip department_entry in
  if bool_decide (student_id = "") || bool_decide (name = "")
  then pret [RequiredError]
  else
    ptry
      (invoke (add_student student_id name email phone department) ;+
       let+ shown := refresh_student_list in
       pret (AddedInfo name :: shown))
      (λ e, pret [AddFailedError e]).

(** The handler of the button that verifies an id; its arguments are the
    text of the entry and the value of the course box. *)
Definition verify_id_attendance (attendance_id_entry course_var : string)
  : Prog (list feedback) :=
  let student_id := strip attendance_id_entry in
  let course_id := course_var in
  if bool_decide (student_id = "") then pret [EnterIdError]
  else
    ptry
      (let+ student := invoke (get_student student_id) in
       match student with
       | None => pret [NotFoundError student_id]
       | Some row =>
           let+ result :=
             invoke (record_attendance student_id "id_pass"
                       (Some course_id)) in
           if (result : bool)
           then let+ shown := refresh_attendance_list in
                pret (RecordedLabel (s_name row) student_id :: shown)
           else pret [AlreadyRecordedLabel]
       end)
      (λ e, pret [RecordFailedError e]).

End Handlers.
End AttendanceGUI.

(** ** Check-out in the words of the specification *)

(** An attendance row after time_out was set to [t]: time_out holds [t],
    every other column is as before. *)
Definition checked_out (t : timestamp) (a a' : attendance_row) : Prop :=
  a_id a' = a_id a ∧ a_student_id a' = a_student_id a ∧
  a_date a' = a_date a ∧ a_time_in a' = a_time_in a ∧
  a_time_out a' = Some t ∧
  a_verification_method a' = a_verification_method a ∧
  a_course_id a' = a_course_id a ∧ a_created_at a' = a_created_at a.

(** The same for a course_attendance row. *)
Definition course_checked_out (t : timestamp)
  (r r' : course_attendance_row) : Prop :=
  ca_id r' = ca_id r ∧ ca_student_id r' = ca_student_id r ∧
  ca_course_id r' = ca_course_id r ∧ ca_date r' = ca_date r ∧
  ca_time_in r' = ca_time_in r ∧ ca_time_out r' = Some t ∧
  ca_verification_method r' = ca_verification_method r ∧
  ca_created_at r' = ca_created_at r.

(** What a check-out does to one row of the attendance table: the row of id
    [id] is checked out at [t], every other row is left as it is. *)
Definition time_out_set (t : timestamp) (id : Z) (b b' : attendance_row)
  : Prop :=
  (a_id b = id → checked_out t b b') ∧ (a_id b ≠ id → b' = b).

(** The two operations that copy the database file. *)
Definition is_copy (c : call) : Prop :=
  match c with
  | BackupDatabase _ | RestoreDatabase _ => True
  | _ => False
  end.

(** * Faults only abort: the two classes of computations *)

Lemma clear_idemp s : clear (clear s) = clear s.
Proof. reflexivity. Qed.

Lemma leave_clear s : leave (clear s) = leave s.
Proof. reflexivity. Qed.

Lemma enter_clear w faults : clear (enter w faults) = enter w no_faults.
Proof. reflexivity. Qed.

Lemma leave_enter w faults : leave (enter w faults) = w.
Proof. by destruct w. Qed.

Lemma quiet_transactional {A} (m : M A) : quiet m → transactional m.
Proof. intros [Hr Hq]. split; [done|]. intros clk s. left. apply Hq. Qed.

Lemma ret_quiet {A} (a : A) : quiet (ret a).
Proof.
  split.
  - intros clk s a' s' [= <- <-]. reflexivity.
  - reflexivity.
Qed.

Lemma raise_quiet {A} (e : exn) : quiet (@raise A e).
Proof. split; [intros clk s a s' [=] | reflexivity]. Qed.

Lemma get_clock_quiet : quiet get_clock.
Proof.
  split.
  - intros clk s a' s' [= <- <-]. reflexivity.
  - reflexivity.
Qed.

Lemma io_quiet : quiet io.
Proof.
  split.
  - intros clk s a s'. unfold io.
    destruct (st_faults s) as [|[e|] fs] eqn:Hfs; intros [= <- <-]; done.
  - intros clk s. unfold io. by destruct (st_faults s) as [|[e|] fs].
Qed.

Lemma bind_replays {A B} (m : M A) (k : A → M B) :
  replays m → (∀ a, replays (k a)) → replays (bind m k).
Proof.
  intros Hm Hk clk s b s'. unfold bind.
  destruct (m clk s) as [[a|e] s1] eqn:Hms; [|done].
  intros Hks. rewrite (Hm _ _ _ _ Hms). by apply Hk.
Qed.

Lemma bind_quiet {A B} (m : M A) (k : A → M B) :
  quiet m → (∀ a, quiet (k a)) → quiet (bind m k).
Proof.
  intros [Hm Hqm] Hk. split.
  - apply bind_replays; [done|]. intros a. apply Hk.
  - intros clk s. unfold bind. specialize (Hqm clk s).
    destruct (m clk s) as [[a|e] s1]; simpl in *; [|done].
    destruct (Hk a) as [_ Hqk]. by rewrite Hqk.
Qed.

(** Quiet work, then a transaction. *)
Lemma bind_quiet_transactional {A B} (m : M A) (k : A → M B) :
  quiet m → (∀ a, transactional (k a)) → transactional (bind m k).
Proof.
  intros [Hm Hqm] Hk. split.
  - apply bind_replays; [done|]. intros a. apply Hk.
  - intros clk s. unfold bind. pose proof (Hqm clk s) as Hs.
    destruct (m clk s) as [[a|e] s1] eqn:Hms; simpl in *; [|by left].
    rewrite (Hm _ _ _ _ Hms). destruct (Hk a) as [_ Htk].
    destruct (Htk clk s1) as [H|H]; [left; congruence | by right].
Qed.

(** A transaction, then quiet work. *)
Lemma bind_transactional_quiet {A B} (m : M A) (k : A → M B) :
  transactional m → (∀ a, quiet (k a)) → transactional (bind m k).
Proof.
  intros [Hm Htm] Hk. split.
  - apply bind_replays; [done|]. intros a. apply Hk.
  - intros clk s. unfold bind.
    assert (Hfree : leave (let (o, s') := m clk (clear s) in
                      match o with
                      | Returned a => k a clk s'
                      | Raised e => (Raised e, s')
                      end).2 = leave (m clk (clear s)).2).
    { destruct (m clk (clear s)) as [[a|e] s0]; [|done].
      destruct (Hk a) as [_ Hqk]. apply Hqk. }
    rewrite Hfree. pose proof (Htm clk s) as Hs.
    destruct (m clk s) as [[a|e] s1] eqn:Hms; simpl in *; [|done].
    destruct (Hk a) as [_ Hqk]. rewrite Hqk.
    right. rewrite (Hm _ _ _ _ Hms). reflexivity.
Qed.

(** A step that reads and writes the connection only, with no call into the
    storage layer of its own. *)
Lemma conn_step_quiet {A} (f : Clock → Store → Store → outcome A * Store) :
  quiet (λ clk s,
    let r := f clk (st_db s) (st_conn s) in (r.1, with_conn r.2 s)).
Proof.
  split.
  - intros clk s a s'. simpl. intros [= Ha <-]. by rewrite <- Ha.
  - reflexivity.
Qed.

Lemma connect_quiet : quiet connect.
Proof.
  apply bind_quiet; [apply io_quiet|]. intros _.
  apply (conn_step_quiet (λ _ d _, (Returned (), d))).
Qed.

Lemma execute_update_quiet stmt : quiet (execute_update stmt).
Proof.
  apply bind_quiet; [apply io_quiet|]. intros _. split.
  - intros clk s a s'. simpl.
    destruct (stmt clk (st_conn s)); intros [= <- <-]; reflexivity.
  - intros clk s. simpl. by destruct (stmt clk (st_conn s)).
Qed.

Lemma execute_query_quiet {A} (q : Store → A) : quiet (execute_query q).
Proof.
  apply bind_quiet; [apply io_quiet|]. intros _. split.
  - intros clk s a s' [= <- <-]. reflexivity.
  - reflexivity.
Qed.

Lemma close_quiet : quiet close.
Proof. apply io_quiet. Qed.

Lemma date_minus_days_quiet d n : quiet (date_minus_days d n).
Proof.
  unfold date_minus_days. case_bool_decide; [apply ret_quiet|apply raise_quiet].
Qed.

Lemma commit_transactional : transactional commit.
Proof.
  apply bind_quiet_transactional; [apply io_quiet|]. intros _. split.
  - intros clk s a s' [= <- <-]. reflexivity.
  - intros clk s. by right.
Qed.

Lemma copy2_from_db_transactional p : transactional (copy2_from_db p).
Proof.
  apply bind_quiet_transactional; [apply io_quiet|]. intros _. split.
  - intros clk s a s'. cbv beta.
    destruct (bool_decide (p = st_path s)) eqn:Hp; intros [= <- <-].
    simpl. rewrite Hp. reflexivity.
  - intros clk s. right. simpl.
    by destruct (bool_decide (p = st_path s)).
Qed.

Lemma copy2_to_db_transactional p : transactional (copy2_to_db p).
Proof.
  apply bind_quiet_transactional; [apply io_quiet|]. intros _. split.
  - intros clk s a s'. cbv beta.
    destruct (bool_decide (p = st_path s)) eqn:Hs; [intros [=]|].
    destruct (st_files s !! p) eqn:Hp; intros [= <- <-].
    simpl. rewrite Hs, Hp. reflexivity.
  - intros clk s. right. simpl.
    destruct (bool_decide (p = st_path s)); [done|].
    by destruct (st_files s !! p).
Qed.

Create HintDb faults discriminated.

#[export] Hint Resolve ret_quiet raise_quiet get_clock_quiet io_quiet
  connect_quiet execute_update_quiet execute_query_quiet close_quiet
  date_minus_days_quiet commit_transactional copy2_from_db_transactional
  copy2_to_db_transactional : faults.

Ltac solve_quiet :=
  cbv zeta;
  lazymatch goal with
  | |- quiet (bind _ _) => apply bind_quiet; [solve_quiet | intros ?; solve_quiet]
  | |- quiet (match ?x with _ => _ end) => destruct x; solve_quiet
  | |- quiet _ => solve [eauto with faults]
  end.

Ltac solve_transactional :=
  cbv zeta;
  lazymatch goal with
  | |- transactional (bind commit _) =>
      apply bind_transactional_quiet;
      [apply commit_transactional | intros ?; solve_quiet]
  | |- transactional (bind (copy2_from_db _) _) =>
      apply bind_transactional_quiet;
      [apply copy2_from_db_transactional | intros ?; solve_quiet]
  | |- transactional (bind (copy2_to_db _) _) =>
      apply bind_transactional_quiet;
      [apply copy2_to_db_transactional | intros ?; solve_quiet]
  | |- transactional (bind _ _) =>
      apply bind_quiet_transactional;
      [solve_quiet | intros ?; solve_transactional]
  | |- transactional (match ?x with _ => _ end) =>
      destruct x; solve_transactional
  end.

Lemma add_student_body_transactional i n e p d :
  transactional (add_student_body i n e p d).
Proof. unfold add_student_body. solve_transactional. Qed.

Lemma add_course_body_transactional i n ins sch :
  transactional (add_course_body i n ins sch).
Proof. unfold add_course_body. solve_transactional. Qed.

Lemma get_student_body_quiet i : quiet (get_student_body i).
Proof. unfold get_student_body. solve_quiet. Qed.

Lemma get_all_students_body_quiet : quiet get_all_students_body.
Proof. unfold get_all_students_body. solve_quiet. Qed.

Lemma get_all_courses_body_quiet : quiet get_all_courses_body.
Proof. unfold get_all_courses_body. solve_quiet. Qed.

Lemma record_attendance_body_transactional i m c :
  transactional (record_attendance_body i m c).
Proof. unfold record_attendance_body. solve_transactional. Qed.

Lemma get_attendance_report_body_quiet sd ed i c :
  quiet (get_attendance_report_body sd ed i c).
Proof. unfold get_attendance_report_body. solve_quiet. Qed.

Lemma delete_student_body_transactional i :
  transactional (delete_student_body i).
Proof. unfold delete_student_body. solve_transactional. Qed.

Lemma delete_course_body_transactional i :
  transactional (delete_course_body i).
Proof. unfold delete_course_body. solve_transactional. Qed.

Lemma get_student_statistics_body_quiet i :
  quiet (get_student_statistics_body i).
Proof. unfold get_student_statistics_body. solve_quiet. Qed.

Lemma backup_database_body_transactional p :
  transactional (backup_database_body p).
Proof. unfold backup_database_body. solve_transactional. Qed.

Lemma restore_database_body_transactional p :
  transactional (restore_database_body p).
Proof. unfold restore_database_body. solve_transactional. Qed.

Lemma fmap_M_transactional {A B} (f : A → B) (m : M A) :
  transactional m → transactional (fmap_M f m).
Proof.
  intros Hm. unfold fmap_M. apply bind_transactional_quiet; [done|].
  intros a. apply ret_quiet.
Qed.

Lemma body_of_transactional c : transactional (body_of c).
Proof.
  destruct c; simpl; apply fmap_M_transactional;
    eauto using quiet_transactional, add_student_body_transactional,
      add_course_body_transactional, get_student_body_quiet,
      get_all_students_body_quiet, get_all_courses_body_quiet,
      record_attendance_body_transactional, get_attendance_report_body_quiet,
      delete_student_body_transactional, delete_course_body_transactional,
      get_student_statistics_body_quiet, backup_database_body_transactional,
      restore_database_body_transactional.
Qed.

(** Every method is its body under the handler that returns the failure
    value. *)
Lemma method_of_body c clk s :
  method_of c clk s =
  match body_of c clk s with
  | (Returned v, s') => (Returned v, s')
  | (Raised _, s') => (Returned (failure_value c), s')
  end.
Proof.
  destruct c; simpl;
    unfold fmap_M, add_student, get_student, get_all_students, add_course,
      get_all_courses, delete_student, delete_course, record_attendance,
      get_attendance_report, get_student_statistics, backup_database,
      restore_database, try_except, bind, ret;
    match goal with |- context [match ?b clk s with _ => _ end] =>
      destruct (b clk s) as [[?|[]] ?] end; reflexivity.
Qed.

Lemma exec_body c clk faults w :
  exec c clk faults w =
  match run (body_of c) clk faults w with
  | (Returned v, w') => (Returned v, w')
  | (Raised _, w') => (Returned (failure_value c), w')
  end.
Proof.
  unfold exec, run. rewrite method_of_body.
  by destruct (body_of c clk (enter w faults)) as [[v|e] s'].
Qed.

(** Whatever faults a call meets, it leaves the files untouched or as the
    call without faults leaves them. *)
Lemma exec_atomic c clk faults w :
  (exec c clk faults w).2 = w
  ∨ (exec c clk faults w).2 = (exec c clk no_faults w).2.
Proof.
  rewrite !exec_body. unfold run.
  destruct (body_of_transactional c) as [_ Ht].
  specialize (Ht clk (enter w faults)).
  rewrite enter_clear, leave_enter in Ht.
  destruct (body_of c clk (enter w faults)) as [[v|e] s'];
    destruct (body_of c clk (enter w no_faults)) as [[v0|e0] s0];
    simpl in *; done.
Qed.

(** A call whose body returns does what the call without faults does. *)
Lemma run_body_replays c clk faults w v w' :
  run (body_of c) clk faults w = (Returned v, w') →
  run (body_of c) clk no_faults w = (Returned v, w').
Proof.
  unfold run. destruct (body_of_transactional c) as [Hr _].
  destruct (body_of c clk (enter w faults)) as [r s'] eqn:Hb.
  simpl. intros [= -> <-].
  apply Hr in Hb. rewrite enter_clear in Hb. by rewrite Hb.
Qed.

Lemma exec_not_failure_replays c clk faults w v :
  (exec c clk faults w).1 = Returned v → v ≠ failure_value c →
  exec c clk faults w = exec c clk no_faults w.
Proof.
  rewrite !exec_body.
  destruct (run (body_of c) clk faults w) as [[v1|e] w1] eqn:Hb.
  - intros _ _. by rewrite (run_body_replays _ _ _ _ _ _ Hb).
  - simpl. intros [= <-]. done.
Qed.

(** * What the methods do when no fault occurs *)

(** The handler of a method leaves no exception. *)
Lemma exec_returns c clk faults w :
  ∃ v, (exec c clk faults w).1 = Returned v.
Proof.
  rewrite exec_body.
  destruct (run (body_of c) clk faults w) as [[v|e] w']; by eexists.
Qed.

Section FaultFree.
Context (clk : Clock) (p : string) (d c : Store) (f : gmap string Store).

Let s0 : St :=
  {| st_path := p; st_db := d; st_conn := c; st_files := f;
     st_faults := [] |}.

Lemma io_free : io clk s0 = (Returned (), s0).
Proof. reflexivity. Qed.

Lemma connect_free : connect clk s0 = (Returned (), with_conn d s0).
Proof. reflexivity. Qed.

Lemma execute_update_free stmt :
  execute_update stmt clk s0 =
  match stmt clk c with
  | Returned c' => (Returned (), with_conn c' s0)
  | Raised e => (Raised e, s0)
  end.
Proof. reflexivity. Qed.

Lemma execute_query_free {A} (q : Store → A) :
  execute_query q clk s0 = (Returned (q c), s0).
Proof. reflexivity. Qed.

Lemma commit_free : commit clk s0 = (Returned (), with_db c s0).
Proof. reflexivity. Qed.

Lemma close_free : close clk s0 = (Returned (), s0).
Proof. reflexivity. Qed.

Lemma copy2_from_db_free path :
  copy2_from_db path clk s0 =
  if bool_decide (path = p) then (Raised OSError, s0)
  else (Returned (), with_files (<[path := d]> f) s0).
Proof. reflexivity. Qed.

Lemma copy2_to_db_free path :
  copy2_to_db path clk s0 =
  if bool_decide (path = p) then (Raised OSError, s0)
  else match f !! path with
       | Some d' => (Returned (), with_db d' s0)
       | None => (Raised OSError, s0)
       end.
Proof. reflexivity. Qed.
End FaultFree.

Create HintDb sql discriminated.

#[export] Hint Unfold sql_insert_student sql_insert_course
  sql_update_attendance_time_out sql_update_course_attendance_time_out
  sql_insert_attendance sql_insert_course_attendance sql_delete_attendance_of
  sql_delete_course_attendance_of sql_delete_student
  sql_delete_course_attendance_for sql_null_attendance_course
  sql_delete_course sql_create_table_if_not_exists : sql.

(** Runs a method as far as the store lets it. *)
Ltac run_free :=
  unfold run, enter, try_except, bind, ret, raise, get_clock,
    date_minus_days;
  repeat (first
    [ rewrite connect_free | rewrite execute_update_free
    | rewrite execute_query_free | rewrite commit_free | rewrite close_free
    | rewrite copy2_from_db_free | rewrite copy2_to_db_free ];
    autounfold with sql;
    cbv beta iota delta [with_conn with_db with_files];
    cbn [leave st_path st_db st_conn st_files st_faults]).

Lemma set_db_same w : set_db (db w) w = w.
Proof. by destruct w. Qed.

Lemma run_add_student_new clk w i n e p d :
  i ∉ s_student_id <$> students (db w) →
  run (add_student i n e p d) clk no_faults w =
  (Returned true,
   set_db (set_students (students (db w) ++ [new_student_row clk i n e p d])
             (db w)) w).
Proof.
  intros Hi. unfold run, add_student, add_student_body, try_except. run_free.
  by rewrite bool_decide_eq_false_2.
Qed.

Lemma run_add_student_dup clk w i n e p d :
  i ∈ s_student_id <$> students (db w) →
  run (add_student i n e p d) clk no_faults w = (Returned false, w).
Proof.
  intros Hi. unfold run, add_student, add_student_body, try_except. run_free.
  rewrite bool_decide_eq_true_2 by done. by destruct w.
Qed.

Lemma run_add_course_new clk w i n ins sch :
  i ∉ c_course_id <$> courses (db w) →
  run (add_course i n ins sch) clk no_faults w =
  (Returned true,
   set_db (set_courses (courses (db w) ++ [new_course_row clk i n ins sch])
             (db w)) w).
Proof.
  intros Hi. unfold run, add_course, add_course_body, try_except. run_free.
  by rewrite bool_decide_eq_false_2.
Qed.

Lemma run_add_course_dup clk w i n ins sch :
  i ∈ c_course_id <$> courses (db w) →
  run (add_course i n ins sch) clk no_faults w = (Returned false, w).
Proof.
  intros Hi. unfold run, add_course, add_course_body, try_except. run_free.
  rewrite bool_decide_eq_true_2 by done. by destruct w.
Qed.

Lemma run_get_student clk w i :
  run (get_student i) clk no_faults w =
  (Returned (head (sql_select_student i (db w))), w).
Proof. unfold run, get_student, get_student_body, try_except. by destruct w. Qed.

Lemma run_get_all_students clk w :
  run get_all_students clk no_faults w =
  (Returned (sql_select_all_students (db w)), w).
Proof. unfold run. by destruct w. Qed.

Lemma run_get_all_courses clk w :
  run get_all_courses clk no_faults w =
  (Returned (sql_select_all_courses (db w)), w).
Proof. unfold run. by destruct w. Qed.

Lemma run_get_attendance_report clk w sd ed i c :
  run (get_attendance_report sd ed i c) clk no_faults w =
  (Returned (sql_select_report (report_clauses sd ed i c) (db w)), w).
Proof. unfold run. by destruct w. Qed.

Lemma run_record_attendance_toggled clk w i m c id :
  head (sql_select_attendance_id i (today clk) (db w)) = Some id →
  run (record_attendance i m c) clk no_faults w =
  (Returned false, set_db (toggled clk i c id (db w)) w).
Proof.
  intros Hid. unfold run, record_attendance, record_attendance_body,
    try_except, toggled. run_free. rewrite Hid. run_free.
  by destruct (truthy_str c).
Qed.

(** No row for (student, day): the SELECT finds nothing and the UNIQUE
    constraint lets the INSERT pass. *)
Lemma select_attendance_id_none i d st :
  (i, d) ∉ attendance_key <$> attendance st ↔
  head (sql_select_attendance_id i d st) = None.
Proof.
  unfold sql_select_attendance_id.
  induction (attendance st) as [|a l IH]; [set_solver|].
  rewrite fmap_cons, not_elem_of_cons, filter_cons, IH. unfold attendance_key.
  case_decide as Ha; simpl.
  - destruct Ha as [<- <-]. split; [tauto | done].
  - split; [tauto|]. intros H. split; [|done]. intros [= -> ->]. tauto.
Qed.

Lemma run_record_attendance_created clk w i m c :
  (i, today clk) ∉ attendance_key <$> attendance (db w) →
  (∀ x, c = Some x → x ≠ "" →
        (i, x, today clk) ∉
          course_attendance_key <$> course_attendance (db w)) →
  run (record_attendance i m c) clk no_faults w =
  (Returned true, set_db (created clk i m c (db w)) w).
Proof.
  intros Hnew Hc. unfold run, record_attendance, record_attendance_body,
    try_except, created. run_free.
  rewrite (proj1 (select_attendance_id_none _ _ _) Hnew). run_free.
  rewrite bool_decide_eq_false_2 by done. run_free.
  destruct c as [x|]; [|by run_free].
  unfold truthy_str. case_bool_decide as Hx; cbn [negb]; run_free; [done|].
  rewrite bool_decide_eq_false_2 by (by apply Hc). by run_free.
Qed.

(** The first branch when the UNIQUE constraint of course_attendance
    refuses the second insert: nothing is committed. *)
Lemma run_record_attendance_refused clk w i m x :
  (i, today clk) ∉ attendance_key <$> attendance (db w) →
  x ≠ "" →
  (i, x, today clk) ∈ course_attendance_key <$> course_attendance (db w) →
  run (record_attendance i m (Some x)) clk no_faults w = (Returned false, w).
Proof.
  intros Hnew Hx Hc. unfold run, record_attendance, record_attendance_body,
    try_except. run_free.
  rewrite (proj1 (select_attendance_id_none _ _ _) Hnew). run_free.
  rewrite bool_decide_eq_false_2 by done. run_free.
  unfold truthy_str. rewrite (bool_decide_eq_false_2 (x = "")) by done.
  cbn [negb]. run_free.
  rewrite bool_decide_eq_true_2 by done. by destruct w.
Qed.

Lemma run_delete_student clk w i :
  run (delete_student i) clk no_faults w =
  (Returned true, set_db (student_deleted i (db w)) w).
Proof. reflexivity. Qed.

Lemma run_delete_course clk w i :
  run (delete_course i) clk no_faults w =
  (Returned true, set_db (course_deleted i (db w)) w).
Proof. reflexivity. Qed.

Lemma run_get_student_statistics clk w i :
  (30 < today clk)%Z →
  run (get_student_statistics i) clk no_faults w =
  (Returned (Stats
     {| total_attendance := sql_count_attendance i (db w);
        recent_attendance :=
          sql_count_attendance_since i (today clk - 30) (db w);
        method_stats := dict (sql_count_by_method i (db w)) |}), w).
Proof.
  intros Ht. unfold run, get_student_statistics, get_student_statistics_body,
    try_except, date_minus_days. run_free.
  rewrite bool_decide_eq_true_2 by (unfold MINORDINAL; lia).
  by destruct w.
Qed.

Lemma run_get_student_statistics_overflow clk w i :
  (today clk ≤ 30)%Z →
  run (get_student_statistics i) clk no_faults w = (Returned EmptyDict, w).
Proof.
  intros Ht. unfold run, get_student_statistics, get_student_statistics_body,
    try_except, date_minus_days. run_free.
  rewrite bool_decide_eq_false_2 by (unfold MINORDINAL; lia).
  by destruct w.
Qed.

Lemma run_backup_database clk w p :
  p ≠ db_path w →
  run (backup_database p) clk no_faults w =
  (Returned true,
   {| db_path := db_path w; db := db w; files := <[p := db w]> (files w) |}).
Proof.
  intros Hp. unfold run, backup_database, backup_database_body, try_except.
  run_free. by rewrite bool_decide_eq_false_2.
Qed.

Lemma run_restore_database clk w p d :
  p ≠ db_path w → files w !! p = Some d →
  run (restore_database p) clk no_faults w = (Returned true, set_db d w).
Proof.
  intros Hp Hd. unfold run, restore_database, restore_database_body,
    try_except. run_free. rewrite bool_decide_eq_false_2 by done. by rewrite Hd.
Qed.

Lemma run_restore_database_missing clk w p :
  files w !! p = None →
  run (restore_database p) clk no_faults w = (Returned false, w).
Proof.
  intros Hd. unfold run, restore_database, restore_database_body,
    try_except. run_free. rewrite Hd. destruct w. by case_bool_decide.
Qed.

Lemma run_fmap_M {A B} (f : A → B) (m : M A) clk faults w :
  (run (fmap_M f m) clk faults w).2 = (run m clk faults w).2.
Proof.
  unfold run, fmap_M, bind, ret.
  by destruct (m clk (enter w faults)) as [[a|e] s].
Qed.

Lemma record_attendance_effect clk w i m c :
  effect clk w (RecordAttendance i m c)
    (run (record_attendance i m c) clk no_faults w).2.
Proof.
  destruct (head (sql_select_attendance_id i (today clk) (db w)))
    as [id|] eqn:Hid.
  { rewrite (run_record_attendance_toggled _ _ _ _ _ _ Hid).
    by apply effect_toggled. }
  apply select_attendance_id_none in Hid.
  destruct c as [x|].
  2: { rewrite run_record_attendance_created by done.
       by apply effect_created. }
  destruct (decide (x = "")) as [->|Hx].
  { assert (Hc : ∀ x, Some "" = Some x → x ≠ "" →
              (i, x, today clk) ∉
                course_attendance_key <$> course_attendance (db w))
      by (by intros ? [= <-]).
    rewrite run_record_attendance_created by done.
    by apply effect_created. }
  destruct (decide ((i, x, today clk) ∈
              course_attendance_key <$> course_attendance (db w)))
    as [Hin|Hin].
  - rewrite run_record_attendance_refused by done. apply effect_none.
  - rewrite run_record_attendance_created; [|done|by intros ? [= <-]].
    apply effect_created; [done|]. by intros ? [= <-].
Qed.

Lemma exec_effect_free c clk w : effect clk w c (exec c clk no_faults w).2.
Proof.
  unfold exec. destruct c; simpl method_of; rewrite run_fmap_M.
  - destruct (decide (student_id ∈ s_student_id <$> students (db w))).
    + rewrite run_add_student_dup by done. apply effect_none.
    + rewrite run_add_student_new by done. by apply effect_add_student.
  - rewrite run_get_student. apply effect_none.
  - rewrite run_get_all_students. apply effect_none.
  - destruct (decide (course_id ∈ c_course_id <$> courses (db w))).
    + rewrite run_add_course_dup by done. apply effect_none.
    + rewrite run_add_course_new by done. by apply effect_add_course.
  - rewrite run_get_all_courses. apply effect_none.
  - rewrite run_delete_student. apply effect_delete_student.
  - rewrite run_delete_course. apply effect_delete_course.
  - apply record_attendance_effect.
  - rewrite run_get_attendance_report. apply effect_none.
  - destruct (decide (30 < today clk)%Z).
    + rewrite run_get_student_statistics by done. apply effect_none.
    + rewrite run_get_student_statistics_overflow by lia. apply effect_none.
  - destruct (decide (backup_path = db_path w)) as [->|Hp].
    + replace (run _ _ _ _).2 with w; [apply effect_none|].
      unfold backup_database, backup_database_body. run_free.
      rewrite bool_decide_eq_true_2 by done. by destruct w.
    + rewrite run_backup_database by done. by apply effect_backup.
  - destruct (files w !! backup_path) as [d|] eqn:Hd.
    + destruct (decide (backup_path = db_path w)) as [->|Hp].
      * replace (run _ _ _ _).2 with w; [apply effect_none|].
        unfold restore_database, restore_database_body. run_free.
        rewrite bool_decide_eq_true_2 by done. by destruct w.
      * rewrite (run_restore_database _ _ _ d) by done.
        by apply effect_restore.
    + rewrite run_restore_database_missing by done. apply effect_none.
Qed.

(** Every call, whatever faults it meets, has one of the effects. *)
Lemma exec_effect c clk faults w : effect clk w c (exec c clk faults w).2.
Proof.
  destruct (exec_atomic c clk faults w) as [-> | ->].
  - apply effect_none.
  - apply exec_effect_free.
Qed.

Lemma wf_empty_store : wf_store empty_store.
Proof. split; simpl; constructor. Qed.

Lemma wf_new_world path : wf_world (new_world path).
Proof. split; [apply wf_empty_store | apply map_Forall_empty]. Qed.

Section ListFacts.
Context {A B : Type} (f : A → B).

Lemma NoDup_fmap_filter (P : A → Prop) `{∀ x, Decision (P x)}
  (l : list A) : NoDup (f <$> l) → NoDup (f <$> filter P l).
Proof.
  intros Hl. eapply sublist_NoDup; [exact Hl|].
  apply fmap_sublist, sublist_filter.
Qed.

Lemma NoDup_fmap_snoc (l : list A) x :
  NoDup (f <$> l) → f x ∉ f <$> l → NoDup (f <$> (l ++ [x])%list).
Proof.
  intros Hl Hx. rewrite fmap_app. apply NoDup_app. split; [done|].
  split; [|apply NoDup_singleton].
  intros y Hy ->%list_elem_of_singleton. done.
Qed.

(** An update that keeps [f] keeps the column of [f]. *)
Lemma fmap_update_kept (g : A → A) (l : list A) :
  (∀ a, f (g a) = f a) → f <$> (g <$> l) = f <$> l.
Proof.
  intros Hg. rewrite <- list_fmap_compose. apply list_fmap_ext.
  intros _ a _. apply Hg.
Qed.

Lemma filter_none (P : A → Prop) `{∀ x, Decision (P x)} (l : list A) :
  (∀ x, x ∈ l → ¬ P x) → filter P l = [].
Proof.
  intros Hl. destruct (filter P l) as [|a l'] eqn:Hf; [done|].
  assert (a ∈ filter P l) as [Ha Hin]%list_elem_of_filter
    by (rewrite Hf; left).
  by destruct (Hl a).
Qed.

(** Under a key, a selection that fixes the key has one row at most. *)
Lemma filter_at_most_one (P : A → Prop) `{∀ x, Decision (P x)} (l : list A) :
  NoDup (f <$> l) → (∀ x y, P x → P y → f x = f y) →
  filter P l = option_list (head (filter P l)).
Proof.
  intros Hl HP. induction l as [|a l IH]; [done|].
  rewrite fmap_cons, NoDup_cons in Hl. destruct Hl as [Ha Hl].
  rewrite filter_cons. case_decide as Hk; [|by apply IH].
  simpl. f_equal. apply filter_none. intros x Hx Hfx.
  apply Ha. rewrite (HP a x Hk Hfx). by apply list_elem_of_fmap_2.
Qed.

Lemma filter_iff (P Q : A → Prop) `{∀ x, Decision (P x)}
  `{∀ x, Decision (Q x)} (l : list A) :
  (∀ x, P x ↔ Q x) → filter P l = filter Q l.
Proof.
  intros HPQ. induction l as [|a l IH]; [done|].
  rewrite !filter_cons, IH. destruct (decide (P a)) as [HP|HP].
  - by rewrite decide_True by (by apply HPQ).
  - by rewrite decide_False by (by rewrite <- HPQ).
Qed.
End ListFacts.

Lemma foldr_max_ge (ids : list Z) x : x ∈ ids → (x ≤ foldr Z.max 0 ids)%Z.
Proof.
  induction ids as [|y ids IH]; [by intros ?%elem_of_nil|].
  intros [->|Hx]%elem_of_cons; simpl; [lia|]. specialize (IH Hx). lia.
Qed.

(** AUTOINCREMENT never gives a rowid the table holds. *)
Lemma next_rowid_fresh seq (ids : list Z) : next_rowid seq ids ∉ ids.
Proof.
  intros Hin%foldr_max_ge. unfold next_rowid in Hin. lia.
Qed.

Lemma wf_toggled clk i c id st : wf_store st → wf_store (toggled clk i c id st).
Proof.
  intros [H1 H2 H3 H4 H5 H6]. unfold toggled.
  assert (Ha : ∀ a, a_id (time_out_where_id (now clk) id a) = a_id a)
    by (intros a; unfold time_out_where_id; by case_bool_decide).
  assert (Hk : ∀ a, attendance_key (time_out_where_id (now clk) id a)
                    = attendance_key a)
    by (intros a; unfold time_out_where_id; by case_bool_decide).
  assert (Hc : ∀ r, ca_id (time_out_where_key (now clk) i c (today clk) r)
                    = ca_id r)
    by (intros r; unfold time_out_where_key; by case_bool_decide).
  assert (Hck : ∀ r, course_attendance_key
                       (time_out_where_key (now clk) i c (today clk) r)
                     = course_attendance_key r)
    by (intros r; unfold time_out_where_key; by case_bool_decide).
  destruct (truthy_str c); split; simpl;
    rewrite ?(fmap_update_kept _ _ _ Ha), ?(fmap_update_kept _ _ _ Hk),
      ?(fmap_update_kept _ _ _ Hc), ?(fmap_update_kept _ _ _ Hck); done.
Qed.

Lemma wf_created clk i m c st :
  (i, today clk) ∉ attendance_key <$> attendance st →
  (∀ x, c = Some x → x ≠ "" →
     (i, x, today clk) ∉ course_attendance_key <$> course_attendance st) →
  wf_store st → wf_store (created clk i m c st).
Proof.
  intros Hnew Hc [H1 H2 H3 H4 H5 H6]. split; simpl; try done.
  - apply NoDup_fmap_snoc; [done|]. apply next_rowid_fresh.
  - by apply NoDup_fmap_snoc.
  - destruct c as [x|]; [|done]. unfold truthy_str.
    case_bool_decide; simpl; [done|].
    apply NoDup_fmap_snoc; [done|]. apply next_rowid_fresh.
  - destruct c as [x|]; [|done]. unfold truthy_str.
    case_bool_decide; simpl; [done|].
    apply NoDup_fmap_snoc; [done|]. by apply Hc.
Qed.

Lemma wf_student_deleted i st : wf_store st → wf_store (student_deleted i st).
Proof.
  intros [H1 H2 H3 H4 H5 H6].
  split; simpl; try done; by apply NoDup_fmap_filter.
Qed.

Lemma wf_course_deleted i st : wf_store st → wf_store (course_deleted i st).
Proof.
  intros [H1 H2 H3 H4 H5 H6].
  assert (Ha : ∀ a, a_id (null_course_where i a) = a_id a)
    by (intros a; unfold null_course_where; by case_bool_decide).
  assert (Hk : ∀ a, attendance_key (null_course_where i a) = attendance_key a)
    by (intros a; unfold null_course_where; by case_bool_decide).
  split; simpl; try done;
    rewrite ?(fmap_update_kept _ _ _ Ha), ?(fmap_update_kept _ _ _ Hk);
    try done; by apply NoDup_fmap_filter.
Qed.

(** The schema constraints hold after every call. *)
Lemma effect_wf clk w c w' : effect clk w c w' → wf_world w → wf_world w'.
Proof.
  intros He [Hdb Hfiles].
  destruct He; (split; [|try done]); simpl; try done.
  - destruct Hdb. split; simpl; try done. by apply NoDup_fmap_snoc.
  - destruct Hdb. split; simpl; try done. by apply NoDup_fmap_snoc.
  - by apply wf_toggled.
  - by apply wf_created.
  - by apply wf_student_deleted.
  - by apply wf_course_deleted.
  - by apply map_Forall_insert_2.
  - by apply (Hfiles p).
Qed.

Lemma exec_wf c clk faults w : wf_world w → wf_world (exec c clk faults w).2.
Proof. apply effect_wf with clk c, exec_effect. Qed.

Lemma reachable_wf w : reachable w → wf_world w.
Proof.
  induction 1 as [path | w c clk faults _ IH];
    [apply wf_new_world | by apply exec_wf].
Qed.

(** * The operations never raise *)

Lemma body_of_fits c clk s v s' :
  body_of c clk s = (Returned v, s') → value_fits c v.
Proof.
  destruct c; simpl; unfold fmap_M, bind, ret;
    match goal with |- context [match ?b clk s with _ => _ end] =>
      destruct (b clk s) as [[?|?] ?] end; by intros [= <- _].
Qed.

Lemma failure_value_fits c : value_fits c (failure_value c).
Proof. by destruct c. Qed.

(** The bodies do raise: the handlers are what keeps a fault inside. *)
Example add_student_body_raises :
  (run (add_student_body "S001" "Ann" "" "" "")
     {| today := 739000; now := 0; current_timestamp := 0 |}
     [None; Some OperationalError] (new_world "attendance_system.db")).1
  = Raised OperationalError.
Proof. reflexivity. Qed.

(** [init_database], which has no handler, lets the fault through. *)
Example init_database_raises :
  (run init_database
     {| today := 739000; now := 0; current_timestamp := 0 |}
     [Some OperationalError] (new_world "attendance_system.db")).1
  = Raised OperationalError.
Proof. reflexivity. Qed.

(** C3.  Every public operation (add_student, get_student, get_all_students,
    add_course, get_all_courses, delete_student, delete_course,
    record_attendance, get_attendance_report, get_student_statistics,
    backup_database, restore_database), on every input, every store and
    under every fault of the storage layer, returns a value of its result
    type and never raises; when its body raised, the value is the failure
    value of the operation (False, None, the empty list or the empty
    dictionary). *)
Theorem operations_never_raise c clk faults w :
  ∃ v, (exec c clk faults w).1 = Returned v ∧ value_fits c v ∧
       (∀ e, (run (body_of c) clk faults w).1 = Raised e →
             v = failure_value c).
Proof.
  rewrite exec_body. unfold run.
  destruct (body_of c clk (enter w faults)) as [[v|e] s'] eqn:Hb; simpl.
  - exists v. split; [done|]. split; [by eapply body_of_fits|]. by intros e.
  - exists (failure_value c). split; [done|].
    split; [apply failure_value_fits | done].
Qed.

(** * Check-in and check-out *)

Lemma time_out_where_id_other t i (l : list attendance_row) :
  i ∉ a_id <$> l → time_out_where_id t i <$> l = l.
Proof.
  intros Hi. rewrite <- (list_fmap_id l) at 2. apply list_fmap_ext.
  intros _ a Ha%list_elem_of_lookup_2. unfold time_out_where_id.
  case_bool_decide as Hid; [|done].
  destruct Hi. rewrite <- Hid. by apply list_elem_of_fmap_2.
Qed.

Lemma select_attendance_id_snoc i d (l : list attendance_row) r st :
  attendance st = (l ++ [r])%list →
  (i, d) ∉ attendance_key <$> l → attendance_key r = (i, d) →
  head (sql_select_attendance_id i d st) = Some (a_id r).
Proof.
  intros Hst Hl Hr. unfold sql_select_attendance_id. rewrite Hst.
  rewrite filter_app, fmap_app, filter_none.
  - simpl. rewrite filter_cons, decide_True; [done|].
    unfold attendance_key in Hr. by injection Hr.
  - intros a Ha [Hi Hd]. apply Hl.
    apply list_elem_of_fmap. exists a. unfold attendance_key. by rewrite Hi, Hd.
Qed.

(** A check-in and, the same day, a check-out. *)
Lemma record_attendance_twice w student_id m clk1 clk2 m2 c2 :
  (student_id, today clk1) ∉ attendance_key <$> attendance (db w) →
  today clk2 = today clk1 →
  let row := new_attendance_row clk1 (db w) student_id (today clk1)
               (now clk1) m None in
  ∃ w1 w2,
    run (record_attendance student_id m None) clk1 no_faults w
      = (Returned true, w1) ∧
    attendance (db w1) = (attendance (db w) ++ [row])%list ∧
    run (record_attendance student_id m2 c2) clk2 no_faults w1
      = (Returned false, w2) ∧
    attendance (db w2)
      = (attendance (db w) ++ [set_a_time_out (Some (now clk2)) row])%list.
Proof.
  intros Hnew Hday row.
  set (w1 := set_db (created clk1 student_id m None (db w)) w).
  set (w2 := set_db (toggled clk2 student_id c2 (a_id row) (db w1)) w1).
  exists w1, w2. split; [by apply run_record_attendance_created|].
  split; [done|]. split.
  - apply run_record_attendance_toggled.
    apply (select_attendance_id_snoc _ _ (attendance (db w)) row); try done.
    + by rewrite Hday.
    + unfold attendance_key. simpl. by rewrite Hday.
  - unfold w2, toggled.
    assert (Hupd : time_out_where_id (now clk2) (a_id row)
                     <$> attendance (db w1)
                   = (attendance (db w)
                      ++ [set_a_time_out (Some (now clk2)) row])%list).
    { simpl. rewrite fmap_app, time_out_where_id_other
        by apply next_rowid_fresh.
      simpl. unfold time_out_where_id at 1.
      by rewrite bool_decide_eq_true_2. }
    by destruct (truthy_str c2).
Qed.

Lemma NoDup_fmap_eq {A B} (f : A → B) (l : list A) x y :
  NoDup (f <$> l) → x ∈ l → y ∈ l → f x = f y → x = y.
Proof.
  induction l as [|a l IH]; [by intros _ ?%elem_of_nil|].
  rewrite fmap_cons, NoDup_cons. intros [Ha Hl].
  intros [->|Hx]%elem_of_cons [->|Hy]%elem_of_cons Hxy; [done|..].
  - destruct Ha. rewrite Hxy. by apply list_elem_of_fmap_2.
  - destruct Ha. rewrite <- Hxy. by apply list_elem_of_fmap_2.
  - by apply IH.
Qed.

Lemma checked_out_set t a : checked_out t a (set_a_time_out (Some t) a).
Proof. by repeat split. Qed.

Lemma course_checked_out_set t r :
  course_checked_out t r (set_ca_time_out (Some t) r).
Proof. by repeat split. Qed.

Lemma toggled_time_out_set clk i c id st :
  Forall2 (time_out_set (now clk) id)
    (attendance st) (attendance (toggled clk i c id st)).
Proof.
  assert (Hatt : attendance (toggled clk i c id st)
                 = time_out_where_id (now clk) id <$> attendance st)
    by (unfold toggled; by destruct (truthy_str c)).
  rewrite Hatt. apply Forall2_fmap_r, Forall_Forall2_diag, Forall_forall.
  intros a _. unfold time_out_set, time_out_where_id, compose.
  case_bool_decide; split; intros; first [done | apply checked_out_set].
Qed.

(** C1.  A first call to record_attendance on a day (no attendance row for
    the student and the day) inserts exactly one attendance row, with time_in
    set, and returns True; a second call the same day for the same student
    returns False and sets time_out on that row (to the time of the second
    call, every other column staying) without inserting another; a call on a
    following day (no row for the new date) returns True again. *)
Theorem record_attendance_created_then_toggled
  w student_id m clk1 clk2 m2 c2 clk3 m3 :
  (student_id, today clk1) ∉ attendance_key <$> attendance (db w) →
  today clk2 = today clk1 →
  (today clk1 < today clk3)%Z →
  (student_id, today clk3) ∉ attendance_key <$> attendance (db w) →
  ∃ w1 w2 w3 row row',
    run (record_attendance student_id m None) clk1 no_faults w
      = (Returned true, w1) ∧
    attendance (db w1) = (attendance (db w) ++ [row])%list ∧
    a_student_id row = student_id ∧ a_date row = today clk1 ∧
    a_time_in row = Some (now clk1) ∧ a_time_out row = None ∧
    a_verification_method row = m ∧
    run (record_attendance student_id m2 c2) clk2 no_faults w1
      = (Returned false, w2) ∧
    attendance (db w2) = (attendance (db w) ++ [row'])%list ∧
    a_time_out row' = Some (now clk2) ∧
    checked_out (now clk2) row row' ∧
    run (record_attendance student_id m3 None) clk3 no_faults w2
      = (Returned true, w3) ∧
    length (attendance (db w3)) = S (length (attendance (db w2))).
Proof.
  intros Hnew Hday Hlater Hnext.
  destruct (record_attendance_twice w student_id m clk1 clk2 m2 c2 Hnew Hday)
    as (w1 & w2 & Hrun1 & Hatt1 & Hrun2 & Hatt2).
  exists w1, w2, (set_db (created clk3 student_id m3 None (db w2)) w2),
    (new_attendance_row clk1 (db w) student_id (today clk1) (now clk1) m None),
    (set_a_time_out (Some (now clk2))
       (new_attendance_row clk1 (db w) student_id (today clk1) (now clk1)
          m None)).
  split; [done|]. split; [done|]. do 5 (split; [done|]).
  split; [done|]. split; [done|]. split; [apply checked_out_set|].
  split; [apply checked_out_set|]. split.
  - apply run_record_attendance_created; [|done].
    rewrite Hatt2, fmap_app, not_elem_of_app. split; [done|].
    simpl. intros [= Hd]%list_elem_of_singleton. lia.
  - simpl. rewrite length_app. simpl. lia.
Qed.

Lemma record_attendance_created_then_toggled_witness :
  ∃ w1 w2 w3 row row',
    run (record_attendance "S001" "id_pass" None)
      {| today := 739000; now := 100; current_timestamp := 90 |} no_faults
      (new_world "attendance_system.db") = (Returned true, w1) ∧
    attendance (db w1) = ([] ++ [row])%list ∧
    a_student_id row = "S001" ∧ a_date row = 739000%Z ∧
    a_time_in row = Some 100%Z ∧ a_time_out row = None ∧
    a_verification_method row = "id_pass" ∧
    run (record_attendance "S001" "id_pass" None)
      {| today := 739000; now := 200; current_timestamp := 190 |} no_faults w1
      = (Returned false, w2) ∧
    attendance (db w2) = ([] ++ [row'])%list ∧
    a_time_out row' = Some 200%Z ∧
    checked_out 200 row row' ∧
    run (record_attendance "S001" "id_pass" None)
      {| today := 739001; now := 300; current_timestamp := 290 |} no_faults w2
      = (Returned true, w3) ∧
    length (attendance (db w3)) = S (length (attendance (db w2))).
Proof.
  apply (record_attendance_created_then_toggled
           (new_world "attendance_system.db") "S001" "id_pass"
           {| today := 739000; now := 100; current_timestamp := 90 |}
           {| today := 739000; now := 200; current_timestamp := 190 |}
           "id_pass" None
           {| today := 739001; now := 300; current_timestamp := 290 |}
           "id_pass").
  - simpl. apply not_elem_of_nil.
  - reflexivity.
  - simpl. lia.
  - simpl. apply not_elem_of_nil.
Defined.

Lemma select_attendance_id_found i d a st :
  NoDup (attendance_key <$> attendance st) →
  a ∈ attendance st → a_student_id a = i → a_date a = d →
  sql_select_attendance_id i d st = [a_id a].
Proof.
  intros Hl Ha Hi Hd. unfold sql_select_attendance_id.
  induction (attendance st) as [|b l IH]; [by apply elem_of_nil in Ha|].
  rewrite fmap_cons, NoDup_cons in Hl. destruct Hl as [Hb Hl].
  rewrite filter_cons. apply elem_of_cons in Ha as [<-|Ha].
  - rewrite decide_True by done. simpl. f_equal.
    rewrite filter_none; [done|]. intros x Hx [Hxi Hxd]. apply Hb.
    apply list_elem_of_fmap. exists x. unfold attendance_key.
    by rewrite Hxi, Hxd, Hi, Hd.
  - rewrite decide_False; [by apply IH|]. intros [Hbi Hbd]. apply Hb.
    apply list_elem_of_fmap. exists a. unfold attendance_key.
    by rewrite Hbi, Hbd, Hi, Hd.
Qed.

Lemma time_out_where_key_none t i c d (l : list course_attendance_row) :
  filter (λ r, ca_student_id r = i ∧ Some (ca_course_id r) = c ∧ ca_date r = d)
    l = [] →
  time_out_where_key t i c d <$> l = l.
Proof.
  intros Hnone. rewrite <- (list_fmap_id l) at 2. apply list_fmap_ext.
  intros _ r Hr%list_elem_of_lookup_2. unfold time_out_where_key.
  case_bool_decide as Hk; [|done].
  by destruct (filter_nil_not_elem_of _ _ r Hnone Hk).
Qed.

(** C9.  When record_attendance is called on a day for which the student has
    an attendance row but no course_attendance row for the given course, the
    update of course_attendance touches no row and none is created, while
    time_out is still set on the attendance row (to the time of the call,
    every other column and every other row staying) and the call returns
    False. *)
Theorem toggle_without_course_row w clk student_id m course_id a :
  wf_store (db w) →
  a ∈ attendance (db w) →
  a_student_id a = student_id → a_date a = today clk →
  (∀ x, course_id = Some x →
     (student_id, x, today clk) ∉
       course_attendance_key <$> course_attendance (db w)) →
  ∃ w' a',
    run (record_attendance student_id m course_id) clk no_faults w
      = (Returned false, w') ∧
    filter (λ r, ca_student_id r = student_id
                 ∧ Some (ca_course_id r) = course_id
                 ∧ ca_date r = today clk) (course_attendance (db w)) = [] ∧
    course_attendance (db w') = course_attendance (db w) ∧
    a' ∈ attendance (db w') ∧
    a_time_out a' = Some (now clk) ∧
    checked_out (now clk) a a' ∧
    Forall2 (λ b b', (b = a → b' = a') ∧ (b ≠ a → b' = b))
      (attendance (db w)) (attendance (db w')) ∧
    length (attendance (db w')) = length (attendance (db w)).
Proof.
  intros Hwf Ha Hi Hd Hc.
  assert (Hnone : filter (λ r, ca_student_id r = student_id
                    ∧ Some (ca_course_id r) = course_id
                    ∧ ca_date r = today clk) (course_attendance (db w)) = []).
  { apply filter_none. intros r Hr (Hri & Hrc & Hrd).
    apply (Hc (ca_course_id r)); [done|].
    apply list_elem_of_fmap. exists r. unfold course_attendance_key.
    by rewrite Hri, Hrd. }
  exists (set_db (toggled clk student_id course_id (a_id a) (db w)) w),
    (set_a_time_out (Some (now clk)) a).
  assert (Hatt : attendance (toggled clk student_id course_id (a_id a) (db w))
                 = time_out_where_id (now clk) (a_id a) <$> attendance (db w))
    by (unfold toggled; by destruct (truthy_str course_id)).
  split; [|split; [done|split; [|split; [|split; [|split; [|split]]]]]].
  - apply run_record_attendance_toggled.
    by rewrite (select_attendance_id_found _ _ a) by (done || apply Hwf).
  - simpl. unfold toggled. destruct (truthy_str course_id); [|done].
    simpl. by apply time_out_where_key_none.
  - simpl. rewrite Hatt. apply list_elem_of_fmap. exists a. split; [|done].
    unfold time_out_where_id. by rewrite bool_decide_eq_true_2.
  - apply checked_out_set.
  - apply checked_out_set.
  - simpl. rewrite Hatt.
    apply Forall2_fmap_r, Forall_Forall2_diag, Forall_forall.
    intros b Hb. unfold time_out_where_id, compose. split.
    + intros ->. by rewrite bool_decide_eq_true_2.
    + intros Hne. rewrite bool_decide_eq_false_2; [done|].
      intros Hid. apply Hne.
      by apply (NoDup_fmap_eq a_id (attendance (db w))); [apply Hwf|..].
  - simpl. rewrite Hatt. apply length_fmap.
Qed.

(** * Students *)

Lemma run_exec_add_student clk faults w i n e p d :
  exec (AddStudent i n e p d) clk faults w =
  match run (add_student i n e p d) clk faults w with
  | (Returned b, w') => (Returned (VBool b), w')
  | (Raised x, w') => (Raised x, w')
  end.
Proof.
  unfold exec, run. simpl. unfold fmap_M, bind, ret.
  by destruct (add_student i n e p d clk (enter w faults)) as [[b|x] s].
Qed.

(** A duplicate id is refused under every fault. *)
Lemma run_add_student_dup_faults clk faults w i n e p d :
  i ∈ s_student_id <$> students (db w) →
  run (add_student i n e p d) clk faults w = (Returned false, w).
Proof.
  intros Hi.
  pose proof (exec_atomic (AddStudent i n e p d) clk faults w) as Hat.
  pose proof (exec_not_failure_replays (AddStudent i n e p d) clk faults w)
    as Hre.
  destruct (exec_returns (AddStudent i n e p d) clk faults w) as [v Hv].
  rewrite !run_exec_add_student in *.
  rewrite (run_add_student_dup clk w) in * by done.
  destruct (run (add_student i n e p d) clk faults w) as [[[]|x] w'];
    simpl in *; try done.
  - by specialize (Hre _ eq_refl ltac:(done)).
  - by destruct Hat as [-> | ->].
Qed.

Lemma filter_filter_ne (i j : string) (l : list student_row) :
  j ≠ i →
  filter (λ s, s_student_id s = i) (filter (λ s, s_student_id s ≠ j) l)
  = filter (λ s, s_student_id s = i) l.
Proof.
  intros Hij. induction l as [|s l IH]; [done|].
  rewrite !filter_cons.
  destruct (decide (s_student_id s = i)) as [Hs|Hs].
  - rewrite decide_True by congruence. rewrite filter_cons, decide_True by done.
    by rewrite IH.
  - case_decide; [|done]. by rewrite filter_cons, decide_False.
Qed.

(** The row of a student stays as it is under every call but
    [delete_student] of that student and [restore_database]. *)
Lemma effect_keeps_student clk w c w' i row :
  effect clk w c w' → keeps_student i c →
  filter (λ s, s_student_id s = i) (students (db w)) = [row] →
  filter (λ s, s_student_id s = i) (students (db w')) = [row].
Proof.
  intros He Hk Hrow. destruct He; simpl in *; try done.
  - rewrite filter_app, Hrow, filter_cons, decide_False, filter_nil; [done|].
    simpl. intros ->. apply H.
    assert (row ∈ filter (λ s, s_student_id s = i) (students (db w)))
      as [<- Hin]%list_elem_of_filter by (rewrite Hrow; left).
    by apply list_elem_of_fmap_2.
  - unfold toggled. by destruct (truthy_str c).
  - by rewrite filter_filter_ne.
Qed.

Lemma exec_all_keeps_student calls w i row :
  Forall (λ x, keeps_student i x.1.1) calls →
  filter (λ s, s_student_id s = i) (students (db w)) = [row] →
  filter (λ s, s_student_id s = i) (students (db (exec_all calls w))) = [row].
Proof.
  intros Hcalls. revert w.
  induction Hcalls as [|[[c clk] faults] calls Hc _ IH]; intros w Hrow;
    [done|].
  simpl. apply IH. eapply effect_keeps_student; [apply exec_effect|done..].
Qed.

(** C6.  The first add_student with an id returns True and inserts the row;
    every later add_student with the same id, whatever its other arguments
    and whatever faults it meets, returns False without raising and leaves
    the store, with the row first inserted (name, email, phone, department),
    as it is.  Later calls are those made while the student is there: any
    calls may come in between but delete_student of this id and
    restore_database. *)
Theorem add_student_once w clk i n e p d calls :
  i ∉ s_student_id <$> students (db w) →
  Forall (λ x, keeps_student i x.1.1) calls →
  ∃ w1,
    run (add_student i n e p d) clk no_faults w = (Returned true, w1) ∧
    students (db w1)
      = (students (db w) ++ [new_student_row clk i n e p d])%list ∧
    ∀ clk' faults n' e' p' d',
      run (add_student i n' e' p' d') clk' faults (exec_all calls w1)
        = (Returned false, exec_all calls w1) ∧
      filter (λ s, s_student_id s = i) (students (db (exec_all calls w1)))
        = [new_student_row clk i n e p d].
Proof.
  intros Hi Hcalls. eexists. split; [by apply run_add_student_new|].
  split; [done|]. intros clk' faults n' e' p' d'.
  assert (Hrow : filter (λ s, s_student_id s = i)
                   (students (db (exec_all calls
                      (set_db (set_students (students (db w)
                                 ++ [new_student_row clk i n e p d]) (db w)) w))))
                 = [new_student_row clk i n e p d]).
  { apply exec_all_keeps_student; [done|]. simpl.
    rewrite filter_app, filter_none.
    - by rewrite filter_cons, decide_True.
    - intros s Hs <-. apply Hi. by apply list_elem_of_fmap_2. }
  split; [|done]. apply run_add_student_dup_faults.
  assert (new_student_row clk i n e p d ∈
            filter (λ s, s_student_id s = i)
              (students (db (exec_all calls
                 (set_db (set_students (students (db w)
                            ++ [new_student_row clk i n e p d]) (db w)) w)))))
    as [_ Hin]%list_elem_of_filter by (rewrite Hrow; left).
  by apply (list_elem_of_fmap_2 s_student_id) in Hin.
Qed.

Lemma run_exec_delete_student clk faults w i :
  exec (DeleteStudent i) clk faults w =
  match run (delete_student i) clk faults w with
  | (Returned b, w') => (Returned (VBool b), w')
  | (Raised x, w') => (Raised x, w')
  end.
Proof.
  unfold exec, run. simpl. unfold fmap_M, bind, ret.
  by destruct (delete_student i clk (enter w faults)) as [[b|x] s].
Qed.

(** C7.  After a successful delete_student the store has no students row,
    no attendance row and no course_attendance row of the student, and
    get_student returns None.  The three deletions are one unit: whatever
    faults the call meets, the store is left untouched or with all three
    done, and a call that returns True has done all three; without faults
    the call returns True. *)
Theorem delete_student_removes_all w clk faults i :
  run (delete_student i) clk no_faults w
    = (Returned true, set_db (student_deleted i (db w)) w) ∧
  ((run (delete_student i) clk faults w).2 = w
   ∨ (run (delete_student i) clk faults w).2
     = set_db (student_deleted i (db w)) w) ∧
  ∀ w', run (delete_student i) clk faults w = (Returned true, w') →
    w' = set_db (student_deleted i (db w)) w ∧
    (i ∉ s_student_id <$> students (db w')) ∧
    (i ∉ a_student_id <$> attendance (db w')) ∧
    (i ∉ ca_student_id <$> course_attendance (db w')) ∧
    ∀ clk', run (get_student i) clk' no_faults w' = (Returned None, w').
Proof.
  split; [apply run_delete_student|].
  pose proof (exec_atomic (DeleteStudent i) clk faults w) as Hat.
  pose proof (exec_not_failure_replays (DeleteStudent i) clk faults w) as Hre.
  rewrite !run_exec_delete_student in *.
  rewrite (run_delete_student clk w) in *.
  split.
  { by destruct (run (delete_student i) clk faults w) as [[b|x] w1]. }
  intros w' Hrun. rewrite Hrun in *.
  specialize (Hre _ eq_refl ltac:(done)). injection Hre as ->.
  split; [done|].
  assert (Hs : i ∉ s_student_id <$> students (student_deleted i (db w))).
  { simpl. intros (s & -> & [Hne _]%list_elem_of_filter)%list_elem_of_fmap.
    done. }
  split; [done|]. split; [|split].
  - simpl. intros (s & -> & [Hne _]%list_elem_of_filter)%list_elem_of_fmap.
    done.
  - simpl. intros (s & -> & [Hne _]%list_elem_of_filter)%list_elem_of_fmap.
    done.
  - intros clk'. rewrite run_get_student. f_equal. f_equal.
    unfold sql_select_student. rewrite filter_none; [done|].
    intros s Hin <-. apply Hs. by apply list_elem_of_fmap_2.
Qed.

(** * Courses *)

(** C8.  delete_course removes every course_attendance row of the course,
    sets course_id to NULL on every attendance row that referred to it and
    deletes the courses row.  No attendance row is deleted; the rows that
    referred to the course keep all their other fields (student_id, date,
    time_in, time_out, verification_method), and the attendance rows of
    other courses are unchanged. *)
Theorem delete_course_nulls_references w clk i :
  ∃ w',
    run (delete_course i) clk no_faults w = (Returned true, w') ∧
    (i ∉ ca_course_id <$> course_attendance (db w')) ∧
    course_attendance (db w')
      = filter (λ r, ca_course_id r ≠ i) (course_attendance (db w)) ∧
    (i ∉ c_course_id <$> courses (db w')) ∧
    courses (db w') = filter (λ c, c_course_id c ≠ i) (courses (db w)) ∧
    (Some i ∉ a_course_id <$> attendance (db w')) ∧
    Forall2 (course_reference_nulled i)
      (attendance (db w)) (attendance (db w')) ∧
    students (db w') = students (db w).
Proof.
  exists (set_db (course_deleted i (db w)) w).
  split; [apply run_delete_course|]. simpl. repeat split; try done.
  - intros (s & -> & [Hne _]%list_elem_of_filter)%list_elem_of_fmap. done.
  - intros (s & -> & [Hne _]%list_elem_of_filter)%list_elem_of_fmap. done.
  - intros (a' & Ha' & (a & -> & _)%list_elem_of_fmap)%list_elem_of_fmap.
    unfold null_course_where in Ha'. by case_bool_decide.
  - apply Forall2_fmap_r, Forall_Forall2_diag, Forall_forall. intros a _.
    unfold course_reference_nulled, null_course_where, compose.
    case_bool_decide; simpl; naive_solver.
Qed.

(** * The attendance rows under all operations *)

Lemma row_kept_refl c clk a : row_kept c clk a a.
Proof. unfold row_kept. naive_solver. Qed.

Lemma effect_row_kept clk w c w' a a' :
  effect clk w c w' → wf_store (db w) → ¬ is_restore c →
  a ∈ attendance (db w) → a' ∈ attendance (db w') → a_id a' = a_id a →
  row_kept c clk a a'.
Proof.
  intros He Hwf Hc Ha Ha' Hid.
  assert (Hsame : a' ∈ attendance (db w) → row_kept c clk a a').
  { intros Hin.
    rewrite (NoDup_fmap_eq a_id _ a' a (attendance_pk _ Hwf) Hin Ha Hid).
    apply row_kept_refl. }
  destruct He; simpl in *; try by apply Hsame.
  - assert (a' ∈ time_out_where_id (now clk) id <$> attendance (db w))
      as (a0 & -> & Ha0)%list_elem_of_fmap
      by (unfold toggled in Ha'; by destruct (truthy_str c)).
    unfold time_out_where_id in *. case_bool_decide; [|by apply Hsame].
    simpl in Hid.
    rewrite <- (NoDup_fmap_eq a_id _ a0 a (attendance_pk _ Hwf) Ha0 Ha Hid).
    unfold row_kept. simpl. naive_solver.
  - apply elem_of_app in Ha' as [Hin | ->%list_elem_of_singleton];
      [by apply Hsame|].
    simpl in Hid. destruct (next_rowid_fresh (attendance_seq (db w))
                              (a_id <$> attendance (db w))).
    rewrite Hid. by apply list_elem_of_fmap_2.
  - apply list_elem_of_filter in Ha' as [_ Hin]. by apply Hsame.
  - apply list_elem_of_fmap in Ha' as (a0 & -> & Ha0).
    unfold null_course_where in *. case_bool_decide; [|by apply Hsame].
    simpl in Hid.
    rewrite <- (NoDup_fmap_eq a_id _ a0 a (attendance_pk _ Hwf) Ha0 Ha Hid).
    unfold row_kept. simpl. naive_solver.
Qed.

Lemma reachable_exec_all calls w : reachable w → reachable (exec_all calls w).
Proof.
  revert w. induction calls as [|[[c clk] faults] calls IH]; intros w Hw;
    [done|].
  simpl. apply IH. by apply reachable_exec.
Qed.

Lemma reachable_course_world : reachable course_world.
Proof. apply reachable_exec, reachable_new. Qed.

Lemma reachable_restored_world : reachable restored_world.
Proof. apply reachable_exec_all, reachable_new. Qed.

(** C2, as stated, fails: delete_course changes course_id on a row it
    keeps, and restore_database brings back a row of the same id and key with
    another time_in. *)
Lemma attendance_rows_counterexample :
  (reachable course_world ∧
   ∃ a a',
     a ∈ attendance (db course_world) ∧
     a' ∈ attendance
            (db (exec (DeleteCourse "CS101") (clock_at 739000 200) no_faults
                   course_world).2) ∧
     a_id a' = a_id a ∧ a_course_id a = Some "CS101" ∧ a_course_id a' = None ∧
     ¬ only_time_out_differs a a') ∧
  (reachable restored_world ∧
   ∃ a a',
     a ∈ attendance (db restored_world) ∧
     a' ∈ attendance
            (db (exec (RestoreDatabase "first.db") (clock_at 739000 300)
                   no_faults restored_world).2) ∧
     a_id a' = a_id a ∧ attendance_key a' = attendance_key a ∧
     a_time_in a = Some 200%Z ∧ a_time_in a' = Some 100%Z ∧
     ¬ only_time_out_differs a a').
Proof.
  split; (split; [apply reachable_course_world || apply reachable_restored_world|]).
  - exists {| a_id := 1; a_student_id := "S001"; a_date := 739000;
              a_time_in := Some 100%Z; a_time_out := None;
              a_verification_method := "id_pass";
              a_course_id := Some "CS101"; a_created_at := Some 100%Z |},
           {| a_id := 1; a_student_id := "S001"; a_date := 739000;
              a_time_in := Some 100%Z; a_time_out := None;
              a_verification_method := "id_pass";
              a_course_id := None; a_created_at := Some 100%Z |}.
    repeat split; try (vm_compute; by constructor). by intros [=].
  - exists {| a_id := 1; a_student_id := "S001"; a_date := 739000;
              a_time_in := Some 200%Z; a_time_out := None;
              a_verification_method := "id_pass";
              a_course_id := None; a_created_at := Some 200%Z |},
           {| a_id := 1; a_student_id := "S001"; a_date := 739000;
              a_time_in := Some 100%Z; a_time_out := None;
              a_verification_method := "id_pass";
              a_course_id := None; a_created_at := Some 100%Z |}.
    repeat split; try (vm_compute; by constructor). by intros [=].
Qed.

(** C2 (amended).  In every reachable store there is at most one attendance
    row for a student and a date.  Every operation other than
    restore_database, under every fault, leaves on each attendance row it
    keeps the fields student_id, date, time_in, verification_method and
    created_at as they are; time_out changes only under record_attendance
    and course_id only under delete_course, which sets it to NULL. *)
Theorem attendance_rows_invariant w :
  reachable w →
  NoDup (attendance_key <$> attendance (db w)) ∧
  ∀ c clk faults a a',
    ¬ is_restore c →
    a ∈ attendance (db w) →
    a' ∈ attendance (db (exec c clk faults w).2) →
    a_id a' = a_id a →
    row_kept c clk a a'.
Proof.
  intros [Hwf _]%reachable_wf. split; [apply Hwf|].
  intros c clk faults a a' Hc Ha Ha' Hid.
  apply (effect_row_kept clk w c (exec c clk faults w).2);
    [apply exec_effect | done..].
Qed.

(** * Statistics *)

Lemma group_count_bump m m' groups :
  group_count m' (bump m groups)
  = if bool_decide (m = m') then S (group_count m' groups)
    else group_count m' groups.
Proof.
  induction groups as [|[k n] rest IH]; simpl.
  - by repeat case_bool_decide.
  - destruct (decide (k = m)) as [->|Hkm].
    + rewrite (bool_decide_eq_true_2 (m = m)) by done. simpl.
      repeat case_bool_decide; congruence.
    + rewrite (bool_decide_eq_false_2 (k = m)) by done. simpl. rewrite IH.
      repeat case_bool_decide; congruence.
Qed.

Lemma bump_keys m groups :
  (bump m groups).*1
  = if bool_decide (m ∈ groups.*1) then groups.*1
    else (groups.*1 ++ [m])%list.
Proof.
  induction groups as [|[k n] rest IH]; [reflexivity|].
  cbn [bump]. rewrite (fmap_cons fst (k, n) rest). cbn [fst].
  destruct (decide (k = m)) as [->|Hkm].
  - rewrite (bool_decide_eq_true_2 (m = m)) by done.
    by rewrite bool_decide_eq_true_2 by left.
  - rewrite (bool_decide_eq_false_2 (k = m)) by done.
    rewrite fmap_cons, IH. cbn [fst].
    destruct (decide (m ∈ rest.*1)) as [Hin|Hin].
    + rewrite (bool_decide_eq_true_2 (m ∈ rest.*1)) by done.
      by rewrite bool_decide_eq_true_2 by (by right).
    + rewrite (bool_decide_eq_false_2 (m ∈ rest.*1)) by done.
      rewrite bool_decide_eq_false_2; [done|].
      intros [->|?]%elem_of_cons; done.
Qed.

Lemma bump_NoDup m groups : NoDup groups.*1 → NoDup (bump m groups).*1.
Proof.
  intros Hg. rewrite bump_keys. case_bool_decide as Hin; [done|].
  apply NoDup_app. split; [done|]. split; [|apply NoDup_singleton].
  by intros k Hk ->%list_elem_of_singleton.
Qed.

Lemma bump_positive m groups :
  Forall (λ kv, 0 < kv.2)%nat groups →
  Forall (λ kv, 0 < kv.2)%nat (bump m groups).
Proof.
  induction 1 as [|[k n] rest Hn Hrest IH]; simpl.
  - repeat constructor.
  - case_bool_decide; constructor; simpl in *; (done || lia).
Qed.

Lemma group_count_elem m n groups :
  NoDup groups.*1 → Forall (λ kv, 0 < kv.2)%nat groups →
  (m, n) ∈ groups ↔ (0 < n)%nat ∧ group_count m groups = n.
Proof.
  induction groups as [|[k j] rest IH]; intros Hnd Hpos.
  - simpl. split; [by intros ?%elem_of_nil | lia].
  - rewrite fmap_cons in Hnd. apply NoDup_cons in Hnd as [Hk Hrest].
    apply Forall_cons_1 in Hpos as [Hj Hpos]. simpl in Hj, Hk.
    rewrite elem_of_cons, IH by done. cbn [group_count].
    destruct (decide (k = m)) as [->|Hkm].
    + rewrite (bool_decide_eq_true_2 (m = m)) by done. split.
      * intros [[= ->] | [Hn Hc]]; [done|].
        destruct Hk. apply list_elem_of_fmap. exists (m, n). split; [done|].
        by apply IH.
      * intros [_ ->]. by left.
    + rewrite (bool_decide_eq_false_2 (k = m)) by done.
      split; [|tauto]. intros [[= -> ->] | ?]; done.
Qed.

Section Grouping.
Context (student_id : string).

Lemma foldl_bump_invariant (rows : list attendance_row) groups :
  NoDup groups.*1 → Forall (λ kv, 0 < kv.2)%nat groups →
  let result :=
    foldl (λ groups a, bump (a_verification_method a) groups) groups rows in
  NoDup result.*1 ∧ Forall (λ kv, 0 < kv.2)%nat result ∧
  ∀ m, group_count m result
       = (group_count m groups
          + length (filter (λ a, a_verification_method a = m) rows))%nat.
Proof.
  revert groups. induction rows as [|a rows IH]; intros groups Hk Hp; simpl.
  - split; [done|]. split; [done|]. intros m. lia.
  - destruct (IH (bump (a_verification_method a) groups)
                (bump_NoDup _ _ Hk) (bump_positive _ _ Hp))
      as (Hk' & Hp' & Hc).
    split; [done|]. split; [done|]. intros m. rewrite Hc, group_count_bump.
    rewrite filter_cons. repeat (case_bool_decide || case_decide);
      simpl; try congruence; lia.
Qed.

(** Python's [dict] on pairs with distinct keys holds exactly the pairs. *)
Lemma dict_lookup (groups : list (string * nat)) m n :
  NoDup groups.*1 → dict groups !! m = Some n ↔ (m, n) ∈ groups.
Proof.
  intros Hg. rewrite (elem_of_list_to_map (M := gmap string)) by done.
  replace (dict groups) with (list_to_map groups : gmap string nat); [done|].
  unfold dict. induction groups as [|[k v] groups IH] using rev_ind; [done|].
  rewrite fmap_app in Hg. apply NoDup_app in Hg as (Hg & Hk & _).
  rewrite foldl_snoc, <- IH by done. simpl. apply list_to_map_snoc.
  intros Hin. apply (Hk k Hin). simpl. left.
Qed.

(** GROUP BY verification_method, read through [dict]: each method that
    occurs among the rows of the student is mapped to its count. *)
Lemma method_stats_lookup st m n :
  dict (sql_count_by_method student_id st) !! m = Some n ↔
  (0 < n)%nat ∧
  n = length (filter (λ a, a_verification_method a = m)
                (filter (λ a, a_student_id a = student_id) (attendance st))).
Proof.
  unfold sql_count_by_method.
  destruct (foldl_bump_invariant
              (filter (λ a, a_student_id a = student_id) (attendance st)) [])
    as (Hk & Hp & Hc); [constructor..|].
  rewrite dict_lookup, group_count_elem by done.
  rewrite Hc. simpl. lia.
Qed.
End Grouping.

Lemma add_student_keeps_attendance clk w i n e p d :
  attendance (db (run (add_student i n e p d) clk no_faults w).2)
  = attendance (db w).
Proof.
  destruct (decide (i ∈ s_student_id <$> students (db w))).
  - by rewrite run_add_student_dup.
  - by rewrite run_add_student_new.
Qed.

(** C5.  get_student_statistics returns the dictionary in which
    total_attendance is the number of attendance rows of the student,
    recent_attendance the number of those dated today - 30 days or later, and
    method_stats maps each verification method that occurs among those rows
    to its count.  In particular, after add_student("S001") and two calls of
    record_attendance("S001", "id_pass") on the same day, it returns
    total_attendance = 1 and method_stats = {"id_pass": 1}.  (The clock reads
    a date from which 30 days can be taken.) *)
Theorem get_student_statistics_counts w clk :
  (30 < today clk)%Z →
  (∀ i, ∃ s,
     run (get_student_statistics i) clk no_faults w = (Returned (Stats s), w) ∧
     total_attendance s
       = length (filter (λ a, a_student_id a = i) (attendance (db w))) ∧
     recent_attendance s
       = length (filter (λ a, a_student_id a = i ∧ (today clk - 30 ≤ a_date a)%Z)
                   (attendance (db w))) ∧
     ∀ m n, method_stats s !! m = Some n ↔
            (0 < n)%nat ∧
            n = length (filter (λ a, a_verification_method a = m)
                          (filter (λ a, a_student_id a = i)
                             (attendance (db w))))) ∧
  (∀ n e p d clk0 clk1 clk2,
     "S001" ∉ a_student_id <$> attendance (db w) →
     today clk2 = today clk1 →
     ∃ w1 w2 w3 s,
       (run (add_student "S001" n e p d) clk0 no_faults w).2 = w1 ∧
       run (record_attendance "S001" "id_pass" None) clk1 no_faults w1
         = (Returned true, w2) ∧
       run (record_attendance "S001" "id_pass" None) clk2 no_faults w2
         = (Returned false, w3) ∧
       run (get_student_statistics "S001") clk no_faults w3
         = (Returned (Stats s), w3) ∧
       total_attendance s = 1%nat ∧
       method_stats s = {["id_pass" := 1%nat]}).
Proof.
  intros Hclk. split.
  - intros i. eexists. split; [by apply run_get_student_statistics|].
    simpl. split; [done|]. split; [done|]. apply method_stats_lookup.
  - intros n e p d clk0 clk1 clk2 Hnone Hday.
    set (w1 := (run (add_student "S001" n e p d) clk0 no_faults w).2).
    assert (Hatt1 : attendance (db w1) = attendance (db w))
      by apply add_student_keeps_attendance.
    assert (Hnew : ("S001", today clk1)
                   ∉ attendance_key <$> attendance (db w1)).
    { rewrite Hatt1. intros (a & [= Ha _] & Hin)%list_elem_of_fmap.
      apply Hnone. rewrite Ha. by apply list_elem_of_fmap_2. }
    destruct (record_attendance_twice w1 "S001" "id_pass" clk1 clk2
                "id_pass" None Hnew Hday)
      as (w2 & w3 & Hrun1 & _ & Hrun2 & Hatt3).
    exists w1, w2, w3. eexists. split; [done|]. split; [done|].
    split; [done|]. split; [by apply run_get_student_statistics|].
    assert (Hrows : filter (λ a, a_student_id a = "S001") (attendance (db w3))
              = [set_a_time_out (Some (now clk2))
                   (new_attendance_row clk1 (db w1) "S001" (today clk1)
                      (now clk1) "id_pass" None)]).
    { rewrite Hatt3, Hatt1, filter_app, filter_none; [done|].
      intros a Hin Ha. apply Hnone. rewrite <- Ha.
      by apply list_elem_of_fmap_2. }
    simpl. unfold sql_count_attendance, sql_count_by_method.
    rewrite Hrows. split; [done|]. unfold dict. simpl.
    apply insert_empty.
Qed.

(** * The report *)

Global Instance ts_le_total : Total ts_le.
Proof. intros [x|] [y|]; simpl; try tauto. lia. Qed.

Global Instance time_in_desc_total : Total time_in_desc.
Proof. intros x y. unfold time_in_desc. apply ts_le_total. Qed.

(** The conditions of the query are the filters that are given. *)
Lemma report_clauses_passes sd ed i c a :
  forallb (λ cl, clause_holds cl a) (report_clauses sd ed i c)
  = passes sd ed (given i) (given c) a.
Proof.
  unfold report_clauses, passes, given.
  destruct sd as [d1|], ed as [d2|], i as [i|], c as [c|]; simpl;
    repeat (case_bool_decide; simpl); done.
Qed.

(** Every row of the report carries the id of a student of the store. *)
Lemma report_student_exists clauses st x :
  x ∈ sql_select_report clauses st →
  rr_student_id x ∈ s_student_id <$> students st.
Proof.
  unfold sql_select_report. rewrite merge_sort_Permutation.
  intros (a & (s & (cn & Hx & _)%list_elem_of_bind
                 & [Hs Hin]%list_elem_of_filter)%list_elem_of_bind
            & _)%list_elem_of_bind.
  destruct (forallb _ _); [|by apply elem_of_nil in Hx].
  apply list_elem_of_singleton in Hx as ->. simpl. rewrite Hs.
  by apply list_elem_of_fmap_2.
Qed.

(** Under the keys of students and courses, the join is a lookup. *)
Lemma report_join st clauses (l : list attendance_row) :
  wf_store st →
  (a ← l;
   s ← filter (λ s, a_student_id a = s_student_id s) (students st);
   cn ← left_join_course_name a st;
   if forallb (λ c, clause_holds c a) clauses
   then [{| rr_time_in := a_time_in a; rr_student_id := a_student_id a;
            rr_name := s_name s; rr_date := a_date a;
            rr_verification_method := a_verification_method a;
            rr_course_name := cn |}]
   else [])
  = omap (report_row_of st)
      (filter (λ a, forallb (λ c, clause_holds c a) clauses = true) l).
Proof.
  intros Hwf. induction l as [|a l IH]; [done|].
  rewrite bind_cons, IH, filter_cons. clear IH.
  rewrite (filter_iff _ (λ s, s_student_id s = a_student_id a))
    by (intros s; split; congruence).
  rewrite (filter_at_most_one s_student_id) by (apply Hwf || congruence).
  unfold report_row_of, sql_select_student, left_join_course_name.
  rewrite (filter_at_most_one c_course_id
             (λ c, a_course_id a = Some (c_course_id c)))
    by (apply Hwf || congruence).
  destruct (forallb _ _) eqn:Hok.
  - rewrite decide_True by done. simpl.
    destruct (head (filter (λ s, s_student_id s = a_student_id a)
                      (students st))) as [s|]; simpl; [|done].
    by destruct (head (filter (λ c, a_course_id a = Some (c_course_id c))
                         (courses st))).
  - rewrite decide_False by done.
    destruct (head (filter (λ s, s_student_id s = a_student_id a)
                      (students st))) as [s|]; simpl; [|done].
    by destruct (head (filter (λ c, a_course_id a = Some (c_course_id c))
                         (courses st))).
Qed.

Lemma sql_select_report_spec st sd ed i c :
  wf_store st →
  sql_select_report (report_clauses sd ed i c) st
  ≡ₚ report_spec sd ed (given i) (given c) st.
Proof.
  intros Hwf. unfold sql_select_report, report_spec.
  rewrite merge_sort_Permutation, report_join by done.
  erewrite filter_iff; [done|].
  intros a. by rewrite report_clauses_passes.
Qed.

(** C4, as stated, fails: a student_id filter that is the empty string is
    supplied, yet the report still holds the row of student S001, while no
    attendance row has the empty id. *)
Lemma get_attendance_report_counterexample :
  run (get_attendance_report None None (Some "") None) (clock_at 739000 200)
    no_faults one_student_world
  = (Returned [{| rr_time_in := Some 100%Z; rr_student_id := "S001";
                  rr_name := "Ann"; rr_date := 739000;
                  rr_verification_method := "id_pass";
                  rr_course_name := None |}], one_student_world) ∧
  report_spec None None (Some "") None (db one_student_world) = [] ∧
  ¬ (sql_select_report (report_clauses None None (Some "") None)
       (db one_student_world)
     ≡ₚ report_spec None None (Some "") None (db one_student_world)).
Proof.
  split; [by vm_compute|]. split; [by vm_compute|].
  intros Hp. apply Permutation_length in Hp. vm_compute in Hp. done.
Qed.

(** C4 (amended).  For every combination of the filters start_date,
    end_date, student_id and course_id, get_attendance_report returns exactly
    the attendance rows that satisfy all the filters given, each joined with
    its student row and with a NULL course name when its course matches no
    course, ordered by time_in descending; a filter that is None, or a
    student_id or course_id that is the empty string, asks nothing.  When no
    row matches, the result is the empty list and not a failure. *)
Theorem get_attendance_report_filters w clk sd ed i c :
  wf_store (db w) →
  ∃ l,
    run (get_attendance_report sd ed i c) clk no_faults w = (Returned l, w) ∧
    l ≡ₚ report_spec sd ed (given i) (given c) (db w) ∧
    Sorted time_in_desc l ∧
    ((∀ a, a ∈ attendance (db w) →
           passes sd ed (given i) (given c) a = false) → l = []).
Proof.
  intros Hwf. eexists. split; [apply run_get_attendance_report|].
  split; [by apply sql_select_report_spec|].
  split; [apply Sorted_merge_sort, _|].
  intros Hnone. apply Permutation_nil_r.
  rewrite sql_select_report_spec by done. unfold report_spec.
  rewrite filter_none; [done|]. intros a Ha. by rewrite Hnone.
Qed.

(** * Attendance rows without a student *)

(** C10, as stated, fails: an attendance row without a student that is
    older than 30 days is counted in total_attendance but not in
    recent_attendance. *)
Lemma orphan_row_counterexample :
  ∃ a s,
    a ∈ attendance (db course_world) ∧
    (a_student_id a ∉ s_student_id <$> students (db course_world)) ∧
    run (get_student_statistics (a_student_id a)) (clock_at 739040 0)
      no_faults course_world = (Returned (Stats s), course_world) ∧
    total_attendance s = 1%nat ∧ recent_attendance s = 0%nat.
Proof.
  exists {| a_id := 1; a_student_id := "S001"; a_date := 739000;
            a_time_in := Some 100%Z; a_time_out := None;
            a_verification_method := "id_pass";
            a_course_id := Some "CS101"; a_created_at := Some 100%Z |}.
  eexists. split; [vm_compute; by constructor|].
  split; [vm_compute; by intros ?%elem_of_nil|].
  split; [by apply run_get_student_statistics|]. by vm_compute.
Qed.

(** C10 (amended).  record_attendance does not check that the student
    exists: for an unknown student it inserts the row and returns True.  For
    every store with an attendance row whose student_id matches no students
    row, get_attendance_report never includes that row, whatever the filters,
    while get_student_statistics for that student_id counts the row in
    total_attendance and in method_stats, and in recent_attendance exactly
    when the row is dated today - 30 days or later. *)
Theorem orphan_row_reported_nowhere_counted w a :
  a ∈ attendance (db w) →
  (a_student_id a ∉ s_student_id <$> students (db w)) →
  (∀ clk sd ed i c, ∃ l,
     run (get_attendance_report sd ed i c) clk no_faults w = (Returned l, w) ∧
     ∀ x, x ∈ l → rr_student_id x ≠ a_student_id a) ∧
  (∀ clk, (30 < today clk)%Z → ∃ s,
     run (get_student_statistics (a_student_id a)) clk no_faults w
       = (Returned (Stats s), w) ∧
     total_attendance s
       = length (filter (λ r, a_student_id r = a_student_id a)
                   (attendance (db w))) ∧
     a ∈ filter (λ r, a_student_id r = a_student_id a) (attendance (db w)) ∧
     (0 < total_attendance s)%nat ∧
     (∃ n, method_stats s !! a_verification_method a = Some n ∧ (0 < n)%nat) ∧
     recent_attendance s
       = length (filter (λ r, a_student_id r = a_student_id a
                              ∧ (today clk - 30 ≤ a_date r)%Z)
                   (attendance (db w))) ∧
     (a ∈ filter (λ r, a_student_id r = a_student_id a
                       ∧ (today clk - 30 ≤ a_date r)%Z) (attendance (db w))
      ↔ (today clk - 30 ≤ a_date a)%Z) ∧
     ((today clk - 30 ≤ a_date a)%Z → (0 < recent_attendance s)%nat)) ∧
  (∀ clk i m,
     i ∉ s_student_id <$> students (db w) →
     (i, today clk) ∉ attendance_key <$> attendance (db w) →
     ∃ w' r,
       run (record_attendance i m None) clk no_faults w = (Returned true, w') ∧
       attendance (db w') = (attendance (db w) ++ [r])%list ∧
       a_student_id r = i ∧
       i ∉ s_student_id <$> students (db w')).
Proof.
  intros Ha Horphan.
  assert (Hpos : ∀ (P : attendance_row → Prop) `{∀ x, Decision (P x)},
            P a → (0 < length (filter P (attendance (db w))))%nat).
  { intros P ? HP.
    assert (Hin : a ∈ filter P (attendance (db w)))
      by (by apply list_elem_of_filter).
    destruct (filter P (attendance (db w))); [by apply elem_of_nil in Hin|].
    simpl. lia. }
  split; [|split].
  - intros clk sd ed i c. eexists.
    split; [apply run_get_attendance_report|].
    intros x Hx%report_student_exists Heq. apply Horphan. by rewrite <- Heq.
  - intros clk Hclk. eexists.
    split; [by apply run_get_student_statistics|]. simpl.
    split; [done|]. split; [by apply list_elem_of_filter|].
    split; [by apply Hpos|]. split; [|split; [done|split]].
    + exists (length (filter (λ r, a_verification_method r
                                   = a_verification_method a)
                       (filter (λ r, a_student_id r = a_student_id a)
                          (attendance (db w))))).
      assert (Hn : (0 < length (filter (λ r, a_verification_method r
                                             = a_verification_method a)
                        (filter (λ r, a_student_id r = a_student_id a)
                           (attendance (db w)))))%nat).
      { assert (Hin : a ∈ filter (λ r, a_verification_method r
                                       = a_verification_method a)
                     (filter (λ r, a_student_id r = a_student_id a)
                        (attendance (db w))))
          by (by rewrite !list_elem_of_filter).
        destruct (filter _ (filter _ _)); [by apply elem_of_nil in Hin|].
        simpl. lia. }
      split; [|done]. by apply method_stats_lookup.
    + rewrite list_elem_of_filter. tauto.
    + intros Hrecent. by apply Hpos.
  - intros clk i m Hi Hnew. eexists. eexists.
    split; [by apply run_record_attendance_created|]. simpl. done.
Qed.

(** * The theorems on sample stores *)

Lemma reachable_one_student_world : reachable one_student_world.
Proof. apply reachable_exec_all, reachable_new. Qed.

Lemma attendance_rows_invariant_witness :
  NoDup (attendance_key <$> attendance (db course_world)) ∧
  row_kept (DeleteCourse "CS101") (clock_at 739000 200) orphan_row
    (set_a_course_id None orphan_row).
Proof.
  destruct (attendance_rows_invariant course_world reachable_course_world)
    as [Hunique Hkept].
  split; [exact Hunique|].
  apply (Hkept (DeleteCourse "CS101") (clock_at 739000 200) no_faults).
  - intros [].
  - vm_compute. constructor.
  - vm_compute. constructor.
  - reflexivity.
Defined.

Lemma get_attendance_report_filters_witness :
  ∃ l,
    run (get_attendance_report (Some 739000%Z) (Some 739000%Z) (Some "S001")
           (Some ""))
      (clock_at 739000 200) no_faults one_student_world
      = (Returned l, one_student_world) ∧
    l ≡ₚ report_spec (Some 739000%Z) (Some 739000%Z) (given (Some "S001"))
           (given (Some "")) (db one_student_world) ∧
    Sorted time_in_desc l ∧
    ((∀ a, a ∈ attendance (db one_student_world) →
           passes (Some 739000%Z) (Some 739000%Z) (given (Some "S001"))
             (given (Some "")) a = false) → l = []).
Proof.
  apply (get_attendance_report_filters one_student_world
           (clock_at 739000 200) (Some 739000%Z) (Some 739000%Z)
           (Some "S001") (Some "")).
  apply reachable_wf, reachable_one_student_world.
Defined.

Lemma get_student_statistics_counts_witness :
  (∃ s,
     run (get_student_statistics "S001") (clock_at 739000 300) no_faults
       one_student_world = (Returned (Stats s), one_student_world) ∧
     total_attendance s
       = length (filter (λ a, a_student_id a = "S001")
                   (attendance (db one_student_world))) ∧
     recent_attendance s
       = length (filter (λ a, a_student_id a = "S001"
                              ∧ (739000 - 30 ≤ a_date a)%Z)
                   (attendance (db one_student_world))) ∧
     ∀ m n, method_stats s !! m = Some n ↔
            (0 < n)%nat ∧
            n = length (filter (λ a, a_verification_method a = m)
                          (filter (λ a, a_student_id a = "S001")
                             (attendance (db one_student_world))))) ∧
  (∃ w1 w2 w3 s,
     (run (add_student "S001" "Ann" "" "" "") (clock_at 739000 50) no_faults
        (new_world "attendance_system.db")).2 = w1 ∧
     run (record_attendance "S001" "id_pass" None) (clock_at 739000 100)
       no_faults w1 = (Returned true, w2) ∧
     run (record_attendance "S001" "id_pass" None) (clock_at 739000 200)
       no_faults w2 = (Returned false, w3) ∧
     run (get_student_statistics "S001") (clock_at 739000 300) no_faults w3
       = (Returned (Stats s), w3) ∧
     total_attendance s = 1%nat ∧
     method_stats s = {["id_pass" := 1%nat]}).
Proof.
  assert (Hclk : (30 < today (clock_at 739000 300))%Z) by (simpl; lia).
  split.
  - apply (proj1 (get_student_statistics_counts one_student_world
                    (clock_at 739000 300) Hclk) "S001").
  - apply (proj2 (get_student_statistics_counts
                    (new_world "attendance_system.db")
                    (clock_at 739000 300) Hclk)
             "Ann" "" "" "" (clock_at 739000 50) (clock_at 739000 100)
             (clock_at 739000 200)).
    + simpl. apply not_elem_of_nil.
    + reflexivity.
Defined.

Lemma add_student_once_witness :
  ∃ w1,
    run (add_student "S001" "Ann" "ann@example.org" "555-0100" "Physics")
      (clock_at 739000 50) no_faults (new_world "attendance_system.db")
      = (Returned true, w1) ∧
    students (db w1)
      = ([] ++ [new_student_row (clock_at 739000 50) "S001" "Ann"
                  "ann@example.org" "555-0100" "Physics"])%list ∧
    ∀ clk' faults n' e' p' d',
      run (add_student "S001" n' e' p' d') clk' faults
        (exec_all
           [(RecordAttendance "S001" "id_pass" None, clock_at 739000 100,
             no_faults);
            (DeleteStudent "S002", clock_at 739000 150,
             [None; Some OperationalError])] w1)
        = (Returned false,
           exec_all
             [(RecordAttendance "S001" "id_pass" None, clock_at 739000 100,
               no_faults);
              (DeleteStudent "S002", clock_at 739000 150,
               [None; Some OperationalError])] w1) ∧
      filter (λ s, s_student_id s = "S001")
        (students (db (exec_all
           [(RecordAttendance "S001" "id_pass" None, clock_at 739000 100,
             no_faults);
            (DeleteStudent "S002", clock_at 739000 150,
             [None; Some OperationalError])] w1)))
        = [new_student_row (clock_at 739000 50) "S001" "Ann"
             "ann@example.org" "555-0100" "Physics"].
Proof.
  apply (add_student_once (new_world "attendance_system.db")
           (clock_at 739000 50) "S001" "Ann" "ann@example.org" "555-0100"
           "Physics").
  - simpl. apply not_elem_of_nil.
  - repeat constructor. simpl. by intros [=].
Defined.

Lemma delete_student_removes_all_witness :
  set_db (student_deleted "S001" (db one_student_world)) one_student_world
    = set_db (student_deleted "S001" (db one_student_world)) one_student_world ∧
  ("S001" ∉ s_student_id <$>
     students (student_deleted "S001" (db one_student_world))) ∧
  ("S001" ∉ a_student_id <$>
     attendance (student_deleted "S001" (db one_student_world))) ∧
  ("S001" ∉ ca_student_id <$>
     course_attendance (student_deleted "S001" (db one_student_world))) ∧
  ∀ clk',
    run (get_student "S001") clk' no_faults
      (set_db (student_deleted "S001" (db one_student_world))
         one_student_world)
    = (Returned None,
       set_db (student_deleted "S001" (db one_student_world))
         one_student_world).
Proof.
  apply (proj2 (proj2 (delete_student_removes_all one_student_world
                         (clock_at 739000 200) no_faults "S001"))).
  reflexivity.
Defined.

Lemma toggle_without_course_row_witness :
  ∃ w' a',
    run (record_attendance "S001" "id_pass" (Some "CS101"))
      (clock_at 739000 200) no_faults one_student_world
      = (Returned false, w') ∧
    filter (λ r, ca_student_id r = "S001"
                 ∧ Some (ca_course_id r) = Some "CS101"
                 ∧ ca_date r = today (clock_at 739000 200))
      (course_attendance (db one_student_world)) = [] ∧
    course_attendance (db w') = course_attendance (db one_student_world) ∧
    a' ∈ attendance (db w') ∧
    a_time_out a' = Some (now (clock_at 739000 200)) ∧
    checked_out (now (clock_at 739000 200)) checked_in_row a' ∧
    Forall2 (λ b b', (b = checked_in_row → b' = a')
                     ∧ (b ≠ checked_in_row → b' = b))
      (attendance (db one_student_world)) (attendance (db w')) ∧
    length (attendance (db w')) = length (attendance (db one_student_world)).
Proof.
  apply (toggle_without_course_row one_student_world (clock_at 739000 200)
           "S001" "id_pass" (Some "CS101") checked_in_row).
  - apply reachable_wf, reachable_one_student_world.
  - vm_compute. constructor.
  - reflexivity.
  - reflexivity.
  - intros x _. vm_compute. inversion 1.
Defined.

Lemma orphan_row_reported_nowhere_counted_witness :
  (∃ l,
     run (get_attendance_report None None None None) (clock_at 739000 200)
       no_faults course_world = (Returned l, course_world) ∧
     ∀ x, x ∈ l → rr_student_id x ≠ a_student_id orphan_row) ∧
  (∃ s,
     run (get_student_statistics (a_student_id orphan_row))
       (clock_at 739000 200) no_faults course_world
       = (Returned (Stats s), course_world) ∧
     (0 < total_attendance s)%nat).
Proof.
  assert (Hin : orphan_row ∈ attendance (db course_world))
    by (vm_compute; constructor).
  assert (Horphan : a_student_id orphan_row
                    ∉ s_student_id <$> students (db course_world))
    by (vm_compute; inversion 1).
  destruct (orphan_row_reported_nowhere_counted course_world orphan_row
              Hin Horphan) as (Hreport & Hstats & _).
  split; [apply Hreport|].
  destruct (Hstats (clock_at 739000 200)) as (s & Hrun & _ & _ & Hpos & _);
    [simpl; lia|].
  by exists s.
Defined.

(** * Further properties of the store *)

(** ** Courses *)

Lemma run_exec_add_course clk faults w i n ins sch :
  exec (AddCourse i n ins sch) clk faults w =
  match run (add_course i n ins sch) clk faults w with
  | (Returned b, w') => (Returned (VBool b), w')
  | (Raised x, w') => (Raised x, w')
  end.
Proof.
  unfold exec, run. simpl. unfold fmap_M, bind, ret.
  by destruct (add_course i n ins sch clk (enter w faults)) as [[b|x] s].
Qed.

Lemma run_add_course_dup_faults clk faults w i n ins sch :
  i ∈ c_course_id <$> courses (db w) →
  run (add_course i n ins sch) clk faults w = (Returned false, w).
Proof.
  intros Hi.
  pose proof (exec_atomic (AddCourse i n ins sch) clk faults w) as Hat.
  pose proof (exec_not_failure_replays (AddCourse i n ins sch) clk faults w)
    as Hre.
  destruct (exec_returns (AddCourse i n ins sch) clk faults w) as [v Hv].
  rewrite !run_exec_add_course in *.
  rewrite (run_add_course_dup clk w) in * by done.
  destruct (run (add_course i n ins sch) clk faults w) as [[[]|x] w'];
    simpl in *; try done.
  - by specialize (Hre _ eq_refl ltac:(done)).
  - by destruct Hat as [-> | ->].
Qed.

Lemma filter_eq_filter_ne {A} (f : A → string) (i j : string) (l : list A) :
  j ≠ i →
  filter (λ x, f x = i) (filter (λ x, f x ≠ j) l) = filter (λ x, f x = i) l.
Proof.
  intros Hij. induction l as [|x l IH]; [done|].
  rewrite !filter_cons.
  destruct (decide (f x = i)) as [Hx|Hx].
  - rewrite decide_True by congruence. rewrite filter_cons, decide_True by done.
    by rewrite IH.
  - case_decide; [|done]. by rewrite filter_cons, decide_False.
Qed.

Lemma effect_keeps_course clk w c w' i row :
  effect clk w c w' → keeps_course i c →
  filter (λ x, c_course_id x = i) (courses (db w)) = [row] →
  filter (λ x, c_course_id x = i) (courses (db w')) = [row].
Proof.
  intros He Hk Hrow. destruct He; simpl in *; try done.
  - rewrite filter_app, Hrow, filter_cons, decide_False, filter_nil; [done|].
    simpl. intros ->. apply H.
    assert (row ∈ filter (λ x, c_course_id x = i) (courses (db w)))
      as [<- Hin]%list_elem_of_filter by (rewrite Hrow; left).
    by apply list_elem_of_fmap_2.
  - unfold toggled. by destruct (truthy_str c).
  - by rewrite (filter_eq_filter_ne c_course_id).
Qed.

Lemma exec_all_keeps_course calls w i row :
  Forall (λ x, keeps_course i x.1.1) calls →
  filter (λ x, c_course_id x = i) (courses (db w)) = [row] →
  filter (λ x, c_course_id x = i) (courses (db (exec_all calls w))) = [row].
Proof.
  intros Hcalls. revert w.
  induction Hcalls as [|[[c clk] faults] calls Hc _ IH]; intros w Hrow;
    [done|].
  simpl. apply IH. eapply effect_keeps_course; [apply exec_effect|done..].
Qed.

(** X1.  The first add_course with an id returns True and inserts the row;
    every later add_course with the same id, whatever its other arguments
    and whatever faults it meets, returns False and leaves the store, with
    the course first inserted, as it is.  Any calls may come in between but
    delete_course of this id and restore_database. *)
Theorem add_course_once w clk i n ins sch calls :
  i ∉ c_course_id <$> courses (db w) →
  Forall (λ x, keeps_course i x.1.1) calls →
  ∃ w1,
    run (add_course i n ins sch) clk no_faults w = (Returned true, w1) ∧
    courses (db w1)
      = (courses (db w) ++ [new_course_row clk i n ins sch])%list ∧
    ∀ clk' faults n' ins' sch',
      run (add_course i n' ins' sch') clk' faults (exec_all calls w1)
        = (Returned false, exec_all calls w1) ∧
      filter (λ x, c_course_id x = i) (courses (db (exec_all calls w1)))
        = [new_course_row clk i n ins sch].
Proof.
  intros Hi Hcalls. eexists. split; [by apply run_add_course_new|].
  split; [done|]. intros clk' faults n' ins' sch'.
  assert (Hrow : filter (λ x, c_course_id x = i)
                   (courses (db (exec_all calls
                      (set_db (set_courses (courses (db w)
                                 ++ [new_course_row clk i n ins sch]) (db w)) w))))
                 = [new_course_row clk i n ins sch]).
  { apply exec_all_keeps_course; [done|]. simpl.
    rewrite filter_app, filter_none.
    - by rewrite filter_cons, decide_True.
    - intros s Hs <-. apply Hi. by apply list_elem_of_fmap_2. }
  split; [|done]. apply run_add_course_dup_faults.
  assert (new_course_row clk i n ins sch ∈
            filter (λ x, c_course_id x = i)
              (courses (db (exec_all calls
                 (set_db (set_courses (courses (db w)
                            ++ [new_course_row clk i n ins sch]) (db w)) w)))))
    as [_ Hin]%list_elem_of_filter by (rewrite Hrow; left).
  by apply (list_elem_of_fmap_2 c_course_id) in Hin.
Qed.

Lemma add_course_once_witness :
  ∃ w1,
    run (add_course "CS101" "Computer Science" "Dr. Smith" "Mon 9:00")
      (clock_at 739000 50) no_faults (new_world "attendance_system.db")
      = (Returned true, w1) ∧
    courses (db w1)
      = ([] ++ [new_course_row (clock_at 739000 50) "CS101"
                  "Computer Science" "Dr. Smith" "Mon 9:00"])%list ∧
    ∀ clk' faults n' ins' sch',
      run (add_course "CS101" n' ins' sch') clk' faults
        (exec_all
           [(DeleteCourse "MATH201", clock_at 739000 100, no_faults)] w1)
        = (Returned false,
           exec_all
             [(DeleteCourse "MATH201", clock_at 739000 100, no_faults)] w1) ∧
      filter (λ x, c_course_id x = "CS101")
        (courses (db (exec_all
           [(DeleteCourse "MATH201", clock_at 739000 100, no_faults)] w1)))
        = [new_course_row (clock_at 739000 50) "CS101" "Computer Science"
             "Dr. Smith" "Mon 9:00"].
Proof.
  apply (add_course_once (new_world "attendance_system.db")
           (clock_at 739000 50) "CS101" "Computer Science" "Dr. Smith"
           "Mon 9:00").
  - simpl. apply not_elem_of_nil.
  - repeat constructor. simpl. by intros [=].
Defined.

(** ** Reads *)

Lemma effect_read clk w c w' : effect clk w c w' → is_read c → w' = w.
Proof. by destruct 1. Qed.

Lemma exec_read c clk faults w : is_read c → (exec c clk faults w).2 = w.
Proof. intros Hc. eapply effect_read; [apply exec_effect | done]. Qed.

(** X2.  The five operations that read (get_student, get_all_students,
    get_all_courses, get_attendance_report, get_student_statistics) leave
    the database file and the backups as they are, under every fault. *)
Theorem reads_change_nothing c clk faults w :
  is_read c → (exec c clk faults w).2 = w.
Proof. intros Hc. eapply effect_read; [apply exec_effect | done]. Qed.

Lemma reads_change_nothing_witness :
  (exec (GetAttendanceReport None None None None) (clock_at 739000 200)
     [None; Some OperationalError] one_student_world).2 = one_student_world.
Proof. by apply reads_change_nothing. Defined.

Lemma run_exec_get_all_students clk faults w :
  run get_all_students clk faults w =
  match exec GetAllStudents clk faults w with
  | (Returned (VStudents l), w') => (Returned l, w')
  | (_, w') => (Returned [], w')
  end.
Proof.
  unfold exec, run. simpl. unfold fmap_M, bind, ret, get_all_students,
    try_except.
  by destruct (get_all_students_body clk (enter w faults)) as [[b|x] s].
Qed.

(** The value of a call under faults is the value without faults or the
    failure value. *)
Lemma exec_value_cases c clk faults w :
  (exec c clk faults w).1 = (exec c clk no_faults w).1
  ∨ (exec c clk faults w).1 = Returned (failure_value c).
Proof.
  rewrite !exec_body.
  destruct (run (body_of c) clk faults w) as [[v|e] w1] eqn:Hb.
  - left. by rewrite (run_body_replays _ _ _ _ _ _ Hb).
  - by right.
Qed.

(** ** Backup and restore *)

Lemma effect_db_path clk w c w' : effect clk w c w' → db_path w' = db_path w.
Proof. by destruct 1. Qed.

Lemma exec_all_db_path calls w : db_path (exec_all calls w) = db_path w.
Proof.
  revert w. induction calls as [|[[c clk] faults] calls IH]; intros w; [done|].
  simpl. rewrite IH. eapply effect_db_path, exec_effect.
Qed.

Lemma effect_keeps_backup clk w c w' p d :
  effect clk w c w' → keeps_backup p c →
  files w !! p = Some d → files w' !! p = Some d.
Proof.
  intros He Hk Hp. destruct He; simpl in *; try done.
  by rewrite lookup_insert_ne.
Qed.

Lemma exec_all_keeps_backup calls w p d :
  Forall (λ x, keeps_backup p x.1.1) calls →
  files w !! p = Some d → files (exec_all calls w) !! p = Some d.
Proof.
  intros Hcalls. revert w.
  induction Hcalls as [|[[c clk] faults] calls Hc _ IH]; intros w Hp; [done|].
  simpl. apply IH. eapply effect_keeps_backup; [apply exec_effect|done..].
Qed.

(** X6.  A backup, then any calls but a backup to the same path (whatever
    faults they meet), then a restore from that path: both succeed and the
    database is again what it was when the backup was made. *)
Theorem backup_restore_round_trip w clk p calls clk' :
  p ≠ db_path w →
  Forall (λ x, keeps_backup p x.1.1) calls →
  ∃ w1 w3,
    run (backup_database p) clk no_faults w = (Returned true, w1) ∧
    db w1 = db w ∧
    run (restore_database p) clk' no_faults (exec_all calls w1)
      = (Returned true, w3) ∧
    db w3 = db w.
Proof.
  intros Hp Hcalls.
  set (w1 := {| db_path := db_path w; db := db w;
                files := <[p := db w]> (files w) |}).
  exists w1, (set_db (db w) (exec_all calls w1)).
  split; [by apply run_backup_database|]. split; [done|].
  split; [|reflexivity].
  apply run_restore_database.
  - by rewrite exec_all_db_path.
  - apply exec_all_keeps_backup; [done|]. simpl. apply lookup_insert_eq.
Qed.

Lemma backup_restore_round_trip_witness :
  ∃ w1 w3,
    run (backup_database "backup.db") (clock_at 739000 200) no_faults
      one_student_world = (Returned true, w1) ∧
    db w1 = db one_student_world ∧
    run (restore_database "backup.db") (clock_at 739001 100) no_faults
      (exec_all
         [(DeleteStudent "S001", clock_at 739000 300, no_faults);
          (BackupDatabase "other.db", clock_at 739000 400, no_faults)] w1)
      = (Returned true, w3) ∧
    db w3 = db one_student_world.
Proof.
  apply (backup_restore_round_trip one_student_world (clock_at 739000 200)
           "backup.db").
  - by vm_compute.
  - repeat constructor. simpl. by intros [=].
Defined.

(** A call that fails without faults and changes nothing does the same under
    every fault. *)
Lemma exec_failure_stable c clk faults w :
  exec c clk no_faults w = (Returned (failure_value c), w) →
  exec c clk faults w = (Returned (failure_value c), w).
Proof.
  intros Hfree.
  pose proof (exec_value_cases c clk faults w) as Hv.
  pose proof (exec_atomic c clk faults w) as Hw.
  rewrite Hfree in Hv, Hw.
  destruct (exec c clk faults w) as [r w']. simpl in *. f_equal.
  - by destruct Hv.
  - by destruct Hw.
Qed.

Lemma run_exec_restore_database clk faults w p :
  exec (RestoreDatabase p) clk faults w =
  match run (restore_database p) clk faults w with
  | (Returned b, w') => (Returned (VBool b), w')
  | (Raised x, w') => (Raised x, w')
  end.
Proof.
  unfold exec, run. simpl. unfold fmap_M, bind, ret.
  by destruct (restore_database p clk (enter w faults)) as [[b|x] s].
Qed.

Lemma run_exec_backup_database clk faults w p :
  exec (BackupDatabase p) clk faults w =
  match run (backup_database p) clk faults w with
  | (Returned b, w') => (Returned (VBool b), w')
  | (Raised x, w') => (Raised x, w')
  end.
Proof.
  unfold exec, run. simpl. unfold fmap_M, bind, ret.
  by destruct (backup_database p clk (enter w faults)) as [[b|x] s].
Qed.

(** X7.  restore_database from a path that holds no backup returns False,
    whatever faults it meets, and leaves the database and the backups as they
    are. *)
Theorem restore_database_missing w clk faults p :
  files w !! p = None →
  run (restore_database p) clk faults w = (Returned false, w).
Proof.
  intros Hp.
  pose proof (exec_failure_stable (RestoreDatabase p) clk faults w) as Hst.
  rewrite !run_exec_restore_database in Hst.
  rewrite (run_restore_database_missing clk w p Hp) in Hst.
  specialize (Hst eq_refl).
  by destruct (run (restore_database p) clk faults w) as [[[]|x] w'];
    simplify_eq.
Qed.

Lemma restore_database_missing_witness :
  run (restore_database "missing.db") (clock_at 739000 200)
    [Some OSError] one_student_world = (Returned false, one_student_world).
Proof. apply restore_database_missing. reflexivity. Defined.

(** ** Students: insert and lookup *)

Lemma run_exec_get_student clk faults w i :
  exec (GetStudent i) clk faults w =
  match run (get_student i) clk faults w with
  | (Returned r, w') => (Returned (VStudent r), w')
  | (Raised x, w') => (Raised x, w')
  end.
Proof.
  unfold exec, run. simpl. unfold fmap_M, bind, ret.
  by destruct (get_student i clk (enter w faults)) as [[b|x] s].
Qed.

(** X8.  get_student of an id that no student has returns None, whatever
    faults it meets; after add_student of that id it returns the row just
    inserted, with the name, email, phone and department given. *)
Theorem get_student_after_add_student w clk clk' i n e p d :
  i ∉ s_student_id <$> students (db w) →
  (∀ faults, run (get_student i) clk' faults w = (Returned None, w)) ∧
  ∃ w1 row,
    run (add_student i n e p d) clk no_faults w = (Returned true, w1) ∧
    run (get_student i) clk' no_faults w1 = (Returned (Some row), w1) ∧
    s_student_id row = i ∧ s_name row = n ∧ s_email row = Some e ∧
    s_phone row = Some p ∧ s_department row = Some d.
Proof.
  intros Hi.
  assert (Hnone : filter (λ s, s_student_id s = i) (students (db w)) = []).
  { apply filter_none. intros s Hs <-. apply Hi. by apply list_elem_of_fmap_2. }
  split.
  - intros faults.
    pose proof (exec_failure_stable (GetStudent i) clk' faults w) as Hst.
    rewrite !run_exec_get_student, run_get_student in Hst.
    unfold sql_select_student in Hst. rewrite Hnone in Hst.
    specialize (Hst eq_refl).
    by destruct (run (get_student i) clk' faults w) as [[[]|x] w'];
      simplify_eq.
  - eexists. exists (new_student_row clk i n e p d).
    split; [by apply run_add_student_new|].
    split; [|done]. rewrite run_get_student. f_equal. f_equal.
    unfold sql_select_student. simpl.
    rewrite filter_app, Hnone. simpl.
    by rewrite filter_cons, decide_True.
Qed.

Lemma get_student_after_add_student_witness :
  (∀ faults,
     run (get_student "S002") (clock_at 739000 300) faults one_student_world
     = (Returned None, one_student_world)) ∧
  ∃ w1 row,
    run (add_student "S002" "Bob" "bob@example.org" "555-0101" "Maths")
      (clock_at 739000 200) no_faults one_student_world
      = (Returned true, w1) ∧
    run (get_student "S002") (clock_at 739000 300) no_faults w1
      = (Returned (Some row), w1) ∧
    s_student_id row = "S002" ∧ s_name row = "Bob" ∧
    s_email row = Some "bob@example.org" ∧
    s_phone row = Some "555-0101" ∧ s_department row = Some "Maths".
Proof.
  apply (get_student_after_add_student one_student_world
           (clock_at 739000 200) (clock_at 739000 300) "S002" "Bob"
           "bob@example.org" "555-0101" "Maths").
  vm_compute. intros Hin. inversion Hin as [|? ? ? Hin']. inversion Hin'.
Defined.

(** ** Check-in and check-out with a course *)

Lemma covered_new_world path : covered_world (new_world path).
Proof.
  split; [|apply map_Forall_empty]. by intros r ?%elem_of_nil.
Qed.

Lemma covered_toggled clk i c id st :
  course_rows_covered st → course_rows_covered (toggled clk i c id st).
Proof.
  intros Hcov r Hr.
  assert (Hk : attendance_key <$> attendance (toggled clk i c id st)
               = attendance_key <$> attendance st).
  { unfold toggled. destruct (truthy_str c); simpl;
      apply fmap_update_kept; intros a; unfold time_out_where_id;
      by case_bool_decide. }
  rewrite Hk.
  assert (∃ r0, r0 ∈ course_attendance st ∧ ca_student_id r = ca_student_id r0
                ∧ ca_date r = ca_date r0) as (r0 & Hr0 & -> & ->).
  { unfold toggled in Hr. destruct (truthy_str c); simpl in Hr.
    - apply list_elem_of_fmap in Hr as (r0 & -> & Hr0). exists r0.
      unfold time_out_where_key. by case_bool_decide.
    - by exists r. }
  by apply Hcov.
Qed.

Lemma covered_created clk i m c st :
  course_rows_covered st → course_rows_covered (created clk i m c st).
Proof.
  intros Hcov r Hr. simpl. rewrite fmap_app, elem_of_app.
  assert (r ∈ course_attendance st
          ∨ (ca_student_id r, ca_date r) = (i, today clk)) as [Hold | Hnew].
  { simpl in Hr. destruct c as [x|]; [|by left].
    destruct (truthy_str (Some x)); [|by left].
    apply elem_of_app in Hr as [?| ->%list_elem_of_singleton];
      [by left | by right]. }
  - left. by apply Hcov.
  - right. rewrite Hnew. simpl. left.
Qed.

Lemma covered_student_deleted i st :
  course_rows_covered st → course_rows_covered (student_deleted i st).
Proof.
  intros Hcov r [Hne Hr]%list_elem_of_filter. simpl.
  apply Hcov in Hr as (a & Hk & Ha)%list_elem_of_fmap.
  apply list_elem_of_fmap. exists a. split; [done|].
  apply list_elem_of_filter. split; [|done].
  unfold attendance_key in Hk. by injection Hk as <- _.
Qed.

Lemma covered_course_deleted i st :
  course_rows_covered st → course_rows_covered (course_deleted i st).
Proof.
  intros Hcov r [Hne Hr]%list_elem_of_filter. simpl.
  rewrite fmap_update_kept; [by apply Hcov|].
  intros a. unfold null_course_where. by case_bool_decide.
Qed.

Lemma effect_covered clk w c w' :
  effect clk w c w' → covered_world w → covered_world w'.
Proof.
  intros He [Hdb Hfiles].
  destruct He; (split; [|try done]); simpl; try done.
  - by apply covered_toggled.
  - by apply covered_created.
  - by apply covered_student_deleted.
  - by apply covered_course_deleted.
  - by apply map_Forall_insert_2.
  - by apply (Hfiles p).
Qed.

Lemma reachable_covered w : reachable w → covered_world w.
Proof.
  induction 1 as [path | w c clk faults _ IH]; [apply covered_new_world|].
  eapply effect_covered; [apply exec_effect | done].
Qed.

(** In a reachable store a student without a row for the day has no course
    row for the day either. *)
Lemma reachable_no_stale_course_row w i d x :
  reachable w →
  (i, d) ∉ attendance_key <$> attendance (db w) →
  (i, x, d) ∉ course_attendance_key <$> course_attendance (db w).
Proof.
  intros [Hcov _]%reachable_covered Hnew
    (r & [= -> _ ->] & Hr)%list_elem_of_fmap.
  by apply Hnew, Hcov.
Qed.

(** X9.  In every reachable store record_attendance (without faults) returns
    True exactly when the student has no attendance row for today, whatever
    the course given: a course_attendance row never exists without the
    attendance row of the same student and day, so the second insert cannot
    be refused. *)
Theorem record_attendance_true_iff_first w clk i m c :
  reachable w →
  (∀ r, r ∈ course_attendance (db w) →
        (ca_student_id r, ca_date r) ∈ attendance_key <$> attendance (db w)) ∧
  (run (record_attendance i m c) clk no_faults w).1
  = Returned (bool_decide ((i, today clk)
                           ∉ attendance_key <$> attendance (db w))).
Proof.
  intros Hw. split; [apply (reachable_covered w Hw)|].
  case_bool_decide as Hnew.
  - rewrite run_record_attendance_created; [done..|].
    intros x _ _. by apply reachable_no_stale_course_row.
  - destruct (head (sql_select_attendance_id i (today clk) (db w)))
      as [id|] eqn:Hid.
    + by rewrite (run_record_attendance_toggled _ _ _ _ _ _ Hid).
    + by apply select_attendance_id_none in Hid.
Qed.

Lemma record_attendance_true_iff_first_witness :
  (∀ r, r ∈ course_attendance (db course_world) →
        (ca_student_id r, ca_date r)
        ∈ attendance_key <$> attendance (db course_world)) ∧
  (run (record_attendance "S001" "id_pass" (Some "CS101"))
     (clock_at 739001 100) no_faults course_world).1
  = Returned (bool_decide (("S001", today (clock_at 739001 100))
                           ∉ attendance_key <$> attendance (db course_world))).
Proof.
  apply (record_attendance_true_iff_first course_world (clock_at 739001 100)
           "S001" "id_pass" (Some "CS101")).
  apply reachable_course_world.
Defined.

Lemma filter_all {A} (P : A → Prop) `{∀ x, Decision (P x)} (l : list A) :
  (∀ x, x ∈ l → P x) → filter P l = l.
Proof.
  induction l as [|a l IH]; intros Hl; [done|].
  rewrite filter_cons, decide_True by (apply Hl; left).
  f_equal. apply IH. intros x Hx. apply Hl. by right.
Qed.

(** X10.  In a reachable store, the first record_attendance of the day for a
    student with a course given returns True and inserts two rows: the
    attendance row, which carries the course id, and a course_attendance row
    for the same student, course and day with the same time_in and method and
    no time_out.  When the course id is the empty string the attendance row
    stores the empty string (not NULL) and no course_attendance row is
    made. *)
Theorem record_attendance_with_course w clk i m x :
  reachable w →
  (i, today clk) ∉ attendance_key <$> attendance (db w) →
  ∃ w' row,
    run (record_attendance i m (Some x)) clk no_faults w = (Returned true, w') ∧
    attendance (db w') = (attendance (db w) ++ [row])%list ∧
    a_student_id row = i ∧ a_date row = today clk ∧
    a_time_in row = Some (now clk) ∧ a_time_out row = None ∧
    a_verification_method row = m ∧ a_course_id row = Some x ∧
    (x = "" → course_attendance (db w') = course_attendance (db w)) ∧
    (x ≠ "" → ∃ crow,
       course_attendance (db w') = (course_attendance (db w) ++ [crow])%list ∧
       ca_student_id crow = i ∧ ca_course_id crow = x ∧
       ca_date crow = today clk ∧ ca_time_in crow = Some (now clk) ∧
       ca_time_out crow = None ∧ ca_verification_method crow = m).
Proof.
  intros Hw Hnew. eexists. eexists.
  split.
  { apply run_record_attendance_created; [done|]. intros y _ _.
    by apply reachable_no_stale_course_row. }
  simpl. repeat (split; [done|]). unfold truthy_str. split.
  - intros ->. by rewrite bool_decide_eq_true_2.
  - intros Hx. rewrite bool_decide_eq_false_2 by done. simpl.
    eexists. split; [done|]. done.
Qed.

Lemma record_attendance_with_course_witness :
  ∃ w' row,
    run (record_attendance "S001" "id_pass" (Some "CS101"))
      (clock_at 739001 100) no_faults one_student_world
      = (Returned true, w') ∧
    attendance (db w') = (attendance (db one_student_world) ++ [row])%list ∧
    a_student_id row = "S001" ∧ a_date row = today (clock_at 739001 100) ∧
    a_time_in row = Some (now (clock_at 739001 100)) ∧
    a_time_out row = None ∧
    a_verification_method row = "id_pass" ∧ a_course_id row = Some "CS101" ∧
    ("CS101" = "" →
     course_attendance (db w') = course_attendance (db one_student_world)) ∧
    ("CS101" ≠ "" → ∃ crow,
       course_attendance (db w')
       = (course_attendance (db one_student_world) ++ [crow])%list ∧
       ca_student_id crow = "S001" ∧ ca_course_id crow = "CS101" ∧
       ca_date crow = today (clock_at 739001 100) ∧
       ca_time_in crow = Some (now (clock_at 739001 100)) ∧
       ca_time_out crow = None ∧ ca_verification_method crow = "id_pass").
Proof.
  apply (record_attendance_with_course one_student_world
           (clock_at 739001 100) "S001" "id_pass" "CS101").
  - apply reachable_one_student_world.
  - apply (bool_decide_unpack _). by vm_compute.
Defined.

Lemma time_out_where_key_other t i c d (l : list course_attendance_row) :
  (∀ x, c = Some x → (i, x, d) ∉ course_attendance_key <$> l) →
  time_out_where_key t i c d <$> l = l.
Proof.
  intros Hc. apply time_out_where_key_none, filter_none.
  intros r Hr (Hi & Hx & Hd). apply (Hc (ca_course_id r)); [done|].
  apply list_elem_of_fmap. exists r. unfold course_attendance_key.
  by rewrite Hi, Hd.
Qed.

(** X11.  Check-in and check-out with a course: in a reachable store, after
    a first record_attendance of the day with a course, a second call the
    same day with the same course returns False and sets time_out, to the
    time of the second call, on both the attendance row and the
    course_attendance row made by the first (every other column of the two
    rows staying); no row is added. *)
Theorem record_attendance_twice_with_course w i m x clk1 clk2 m2 :
  reachable w →
  (i, today clk1) ∉ attendance_key <$> attendance (db w) →
  x ≠ "" → today clk2 = today clk1 →
  ∃ w1 w2 row crow row' crow',
    run (record_attendance i m (Some x)) clk1 no_faults w
      = (Returned true, w1) ∧
    attendance (db w1) = (attendance (db w) ++ [row])%list ∧
    course_attendance (db w1) = (course_attendance (db w) ++ [crow])%list ∧
    a_student_id row = i ∧ a_date row = today clk1 ∧ a_time_out row = None ∧
    ca_student_id crow = i ∧ ca_course_id crow = x ∧
    ca_date crow = today clk1 ∧ ca_time_out crow = None ∧
    run (record_attendance i m2 (Some x)) clk2 no_faults w1
      = (Returned false, w2) ∧
    attendance (db w2) = (attendance (db w) ++ [row'])%list ∧
    course_attendance (db w2) = (course_attendance (db w) ++ [crow'])%list ∧
    a_time_out row' = Some (now clk2) ∧ checked_out (now clk2) row row' ∧
    ca_time_out crow' = Some (now clk2) ∧
    course_checked_out (now clk2) crow crow'.
Proof.
  intros Hw Hnew Hx Hday.
  assert (Hstale : ∀ y, (i, y, today clk1)
                        ∉ course_attendance_key <$> course_attendance (db w))
    by (intros y; by apply reachable_no_stale_course_row).
  set (row := new_attendance_row clk1 (db w) i (today clk1) (now clk1) m
                (Some x)).
  set (crow := new_course_attendance_row clk1 (db w) i x (today clk1)
                 (now clk1) m).
  set (w1 := set_db (created clk1 i m (Some x) (db w)) w).
  assert (Hatt1 : attendance (db w1) = (attendance (db w) ++ [row])%list)
    by done.
  assert (Hca1 : course_attendance (db w1)
                 = (course_attendance (db w) ++ [crow])%list).
  { simpl. unfold truthy_str. by rewrite bool_decide_eq_false_2. }
  exists w1, (set_db (toggled clk2 i (Some x) (a_id row) (db w1)) w1), row, crow,
    (set_a_time_out (Some (now clk2)) row),
    (set_ca_time_out (Some (now clk2)) crow).
  split; [apply run_record_attendance_created; [done|by intros]|].
  split; [done|]. split; [done|]. do 7 (split; [done|]). split.
  { apply run_record_attendance_toggled.
    apply (select_attendance_id_snoc _ _ (attendance (db w)) row); try done.
    + by rewrite Hday.
    + unfold attendance_key. simpl. by rewrite Hday. }
  assert (Htruthy : truthy_str (Some x) = true)
    by (unfold truthy_str; by rewrite bool_decide_eq_false_2).
  unfold toggled. rewrite Htruthy. cbn [db set_db attendance course_attendance
    set_course_attendance set_attendance].
  split; [|split; [|split; [done|split; [apply checked_out_set|
    split; [done|apply course_checked_out_set]]]]].
  - rewrite Hatt1, fmap_app, time_out_where_id_other by apply next_rowid_fresh.
    simpl. unfold time_out_where_id at 1. by rewrite bool_decide_eq_true_2.
  - rewrite Hca1, fmap_app, time_out_where_key_other.
    + simpl. unfold time_out_where_key at 1.
      by rewrite bool_decide_eq_true_2 by (by rewrite Hday).
    + intros y [= <-]. rewrite Hday. apply Hstale.
Qed.

Lemma record_attendance_twice_with_course_witness :
  ∃ w1 w2 row crow row' crow',
    run (record_attendance "S001" "id_pass" (Some "CS101"))
      (clock_at 739001 100) no_faults one_student_world
      = (Returned true, w1) ∧
    attendance (db w1) = (attendance (db one_student_world) ++ [row])%list ∧
    course_attendance (db w1)
      = (course_attendance (db one_student_world) ++ [crow])%list ∧
    a_student_id row = "S001" ∧ a_date row = today (clock_at 739001 100) ∧
    a_time_out row = None ∧
    ca_student_id crow = "S001" ∧ ca_course_id crow = "CS101" ∧
    ca_date crow = today (clock_at 739001 100) ∧ ca_time_out crow = None ∧
    run (record_attendance "S001" "id_pass" (Some "CS101"))
      (clock_at 739001 900) no_faults w1 = (Returned false, w2) ∧
    attendance (db w2)
      = (attendance (db one_student_world) ++ [row'])%list ∧
    course_attendance (db w2)
      = (course_attendance (db one_student_world) ++ [crow'])%list ∧
    a_time_out row' = Some (now (clock_at 739001 900)) ∧
    checked_out (now (clock_at 739001 900)) row row' ∧
    ca_time_out crow' = Some (now (clock_at 739001 900)) ∧
    course_checked_out (now (clock_at 739001 900)) crow crow'.
Proof.
  apply (record_attendance_twice_with_course one_student_world "S001"
           "id_pass" "CS101" (clock_at 739001 100) (clock_at 739001 900)
           "id_pass").
  - apply reachable_one_student_world.
  - apply (bool_decide_unpack _). by vm_compute.
  - done.
  - reflexivity.
Defined.

Lemma run_exec_record_attendance clk faults w i m c :
  exec (RecordAttendance i m c) clk faults w =
  match run (record_attendance i m c) clk faults w with
  | (Returned b, w') => (Returned (VBool b), w')
  | (Raised x, w') => (Raised x, w')
  end.
Proof.
  unfold exec, run. simpl. unfold fmap_M, bind, ret.
  by destruct (record_attendance i m c clk (enter w faults)) as [[b|x] s].
Qed.

(** X12.  Whatever faults it meets, record_attendance leaves the students,
    the courses and the backups as they are, removes no attendance and no
    course_attendance row and adds at most one of each.  When it returns
    True, exactly one attendance row was added, for the student and today. *)
Theorem record_attendance_adds_at_most_one w clk faults i m c :
  students (db (run (record_attendance i m c) clk faults w).2)
    = students (db w) ∧
  courses (db (run (record_attendance i m c) clk faults w).2)
    = courses (db w) ∧
  files (run (record_attendance i m c) clk faults w).2 = files w ∧
  (a_id <$> attendance (db (run (record_attendance i m c) clk faults w).2)
     = a_id <$> attendance (db w)
   ∨ ∃ r, attendance (db (run (record_attendance i m c) clk faults w).2)
          = (attendance (db w) ++ [r])%list) ∧
  (ca_id <$> course_attendance
               (db (run (record_attendance i m c) clk faults w).2)
     = ca_id <$> course_attendance (db w)
   ∨ ∃ r, course_attendance
            (db (run (record_attendance i m c) clk faults w).2)
          = (course_attendance (db w) ++ [r])%list) ∧
  ((run (record_attendance i m c) clk faults w).1 = Returned true →
   ∃ r, attendance (db (run (record_attendance i m c) clk faults w).2)
        = (attendance (db w) ++ [r])%list
        ∧ a_student_id r = i ∧ a_date r = today clk).
Proof.
  pose proof (exec_effect (RecordAttendance i m c) clk faults w) as He.
  pose proof (exec_not_failure_replays (RecordAttendance i m c) clk faults w)
    as Hre.
  pose proof (record_attendance_effect clk w i m c) as Hfree.
  rewrite !run_exec_record_attendance in *.
  destruct (run (record_attendance i m c) clk faults w) as [r w'] eqn:Hrun.
  assert (Hw' : effect clk w (RecordAttendance i m c) w')
    by (by destruct r).
  clear He. simpl.
  assert (Hid : ∀ id, a_id <$> (time_out_where_id (now clk) id
                                  <$> attendance (db w))
                      = a_id <$> attendance (db w)).
  { intros id. apply fmap_update_kept. intros a. unfold time_out_where_id.
    by case_bool_decide. }
  assert (Hcid : ca_id <$> (time_out_where_key (now clk) i c (today clk)
                              <$> course_attendance (db w))
                 = ca_id <$> course_attendance (db w)).
  { apply fmap_update_kept. intros a. unfold time_out_where_key.
    by case_bool_decide. }
  split; [|split; [|split; [|split; [|split]]]].
  - inversion Hw'; subst; simpl; try done.
    unfold toggled. by destruct (truthy_str c).
  - inversion Hw'; subst; simpl; try done.
    unfold toggled. by destruct (truthy_str c).
  - by inversion Hw'; subst.
  - inversion Hw'; subst; simpl; [by left| |right; by eexists].
    left. unfold toggled. by destruct (truthy_str c); simpl.
  - inversion Hw'; subst; simpl; [by left|..].
    + left. unfold toggled. by destruct (truthy_str c); simpl.
    + destruct c as [x|]; [|by left].
      destruct (truthy_str (Some x)); [right; by eexists | by left].
  - intros ->. specialize (Hre _ eq_refl ltac:(done)).
    destruct (run (record_attendance i m c) clk no_faults w) as [r0 w0]
      eqn:Hrun0.
    destruct r0 as [b|x]; [|done]. injection Hre as <- <-.
    destruct (decide ((i, today clk)
                      ∈ attendance_key <$> attendance (db w))) as [Hin|Hnew].
    + destruct (head (sql_select_attendance_id i (today clk) (db w)))
        as [id|] eqn:Hid'.
      * rewrite (run_record_attendance_toggled _ _ _ _ _ _ Hid') in Hrun0.
        done.
      * by apply select_attendance_id_none in Hid'.
    + destruct c as [x|].
      2: { rewrite run_record_attendance_created in Hrun0 by done.
           injection Hrun0 as <-. simpl. by eexists. }
      destruct (decide (x = "")) as [->|Hx].
      { rewrite run_record_attendance_created in Hrun0;
          [|done|by intros ? [= <-]].
        injection Hrun0 as <-. simpl. by eexists. }
      destruct (decide ((i, x, today clk) ∈
                  course_attendance_key <$> course_attendance (db w)))
        as [Hc|Hc].
      * by rewrite run_record_attendance_refused in Hrun0.
      * rewrite run_record_attendance_created in Hrun0;
          [|done|by intros ? [= <-]].
        injection Hrun0 as <-. simpl. by eexists.
Qed.

(** A fault at [conn.close()], after the commit: the row is there, yet the
    call returns False. *)
Example record_attendance_false_after_commit :
  run (record_attendance "S001" "id_pass" None) (clock_at 739001 100)
    [None; None; None; None; Some OperationalError] one_student_world
  = (Returned false,
     (run (record_attendance "S001" "id_pass" None) (clock_at 739001 100)
        no_faults one_student_world).2) ∧
  length (attendance
            (db (run (record_attendance "S001" "id_pass" None)
                   (clock_at 739001 100) no_faults one_student_world).2))
  = 2%nat.
Proof. by vm_compute. Qed.

Lemma record_attendance_adds_at_most_one_witness :
  ∃ r, attendance
         (db (run (record_attendance "S001" "id_pass" None)
                (clock_at 739001 100) [None; None] one_student_world).2)
       = (attendance (db one_student_world) ++ [r])%list
       ∧ a_student_id r = "S001" ∧ a_date r = today (clock_at 739001 100).
Proof.
  apply (record_attendance_adds_at_most_one one_student_world
           (clock_at 739001 100) [None; None] "S001" "id_pass" None).
  reflexivity.
Defined.

(** ** Deletions *)

(** X13.  delete_student of an id that occurs nowhere (no students row, no
    attendance row, no course_attendance row) still returns True; it changes
    nothing, under every fault. *)
Theorem delete_student_unknown w clk faults i :
  i ∉ s_student_id <$> students (db w) →
  i ∉ a_student_id <$> attendance (db w) →
  i ∉ ca_student_id <$> course_attendance (db w) →
  run (delete_student i) clk no_faults w = (Returned true, w) ∧
  (run (delete_student i) clk faults w).2 = w.
Proof.
  intros Hs Ha Hc.
  assert (Hsame : set_db (student_deleted i (db w)) w = w).
  { destruct w as [p [s cs a ca n1 n2] f]. unfold set_db, student_deleted.
    simpl in *. f_equal. f_equal; apply filter_all; intros x Hx Heq;
      [apply Hs | apply Ha | apply Hc]; rewrite <- Heq;
      by apply list_elem_of_fmap_2. }
  split; [by rewrite run_delete_student, Hsame|].
  pose proof (exec_atomic (DeleteStudent i) clk faults w) as Hat.
  rewrite !run_exec_delete_student, run_delete_student, Hsame in Hat.
  destruct (run (delete_student i) clk faults w) as [[b|x] w']; simpl in *;
    by destruct Hat.
Qed.

Lemma delete_student_unknown_witness :
  run (delete_student "S404") (clock_at 739000 200) no_faults
    one_student_world = (Returned true, one_student_world) ∧
  (run (delete_student "S404") (clock_at 739000 200)
     [None; None; Some OperationalError] one_student_world).2
  = one_student_world.
Proof.
  apply (delete_student_unknown one_student_world (clock_at 739000 200)
           [None; None; Some OperationalError] "S404");
    apply (bool_decide_unpack _); by vm_compute.
Defined.

Lemma run_exec_delete_course clk faults w i :
  exec (DeleteCourse i) clk faults w =
  match run (delete_course i) clk faults w with
  | (Returned b, w') => (Returned (VBool b), w')
  | (Raised x, w') => (Raised x, w')
  end.
Proof.
  unfold exec, run. simpl. unfold fmap_M, bind, ret.
  by destruct (delete_course i clk (enter w faults)) as [[b|x] s].
Qed.

(** X14.  delete_course of an id that occurs nowhere (no courses row, no
    course_attendance row, no attendance row that refers to it) still
    returns True; it changes nothing, under every fault. *)
Theorem delete_course_unknown w clk faults i :
  i ∉ c_course_id <$> courses (db w) →
  i ∉ ca_course_id <$> course_attendance (db w) →
  Some i ∉ a_course_id <$> attendance (db w) →
  run (delete_course i) clk no_faults w = (Returned true, w) ∧
  (run (delete_course i) clk faults w).2 = w.
Proof.
  intros Hs Hc Ha.
  assert (Hsame : set_db (course_deleted i (db w)) w = w).
  { destruct w as [p [s cs a ca n1 n2] f]. unfold set_db, course_deleted.
    simpl in *. f_equal. f_equal.
    - apply filter_all. intros x Hx Heq. apply Hs. rewrite <- Heq.
      by apply list_elem_of_fmap_2.
    - rewrite <- (list_fmap_id a) at 2. apply list_fmap_ext.
      intros _ x Hx%list_elem_of_lookup_2. unfold null_course_where.
      case_bool_decide as Heq; [|done]. destruct Ha. rewrite <- Heq.
      by apply list_elem_of_fmap_2.
    - apply filter_all. intros x Hx Heq. apply Hc. rewrite <- Heq.
      by apply list_elem_of_fmap_2. }
  split; [by rewrite run_delete_course, Hsame|].
  pose proof (exec_atomic (DeleteCourse i) clk faults w) as Hat.
  rewrite !run_exec_delete_course, run_delete_course, Hsame in Hat.
  destruct (run (delete_course i) clk faults w) as [[b|x] w']; simpl in *;
    by destruct Hat.
Qed.

Lemma delete_course_unknown_witness :
  run (delete_course "CS404") (clock_at 739000 200) no_faults
    one_student_world = (Returned true, one_student_world) ∧
  (run (delete_course "CS404") (clock_at 739000 200)
     [None; None; Some OperationalError] one_student_world).2
  = one_student_world.
Proof.
  apply (delete_course_unknown one_student_world (clock_at 739000 200)
           [None; None; Some OperationalError] "CS404");
    apply (bool_decide_unpack _); by vm_compute.
Defined.

(** ** Statistics and report agree *)

Lemma run_exec_get_student_statistics clk faults w i :
  exec (GetStudentStatistics i) clk faults w =
  match run (get_student_statistics i) clk faults w with
  | (Returned r, w') => (Returned (VStats r), w')
  | (Raised x, w') => (Raised x, w')
  end.
Proof.
  unfold exec, run. simpl. unfold fmap_M, bind, ret.
  by destruct (get_student_statistics i clk (enter w faults)) as [[b|x] s].
Qed.

(** A dictionary with the three keys comes from a run in which no fault
    occurred. *)
Lemma get_student_statistics_stats clk faults w i s :
  (run (get_student_statistics i) clk faults w).1 = Returned (Stats s) →
  (30 < today clk)%Z ∧
  s = {| total_attendance := sql_count_attendance i (db w);
         recent_attendance :=
           sql_count_attendance_since i (today clk - 30) (db w);
         method_stats := dict (sql_count_by_method i (db w)) |}.
Proof.
  intros Hs.
  pose proof (exec_not_failure_replays (GetStudentStatistics i) clk faults w
                (VStats (Stats s))) as Hre.
  rewrite !run_exec_get_student_statistics in Hre.
  destruct (run (get_student_statistics i) clk faults w) as [[r|x] w'];
    simpl in Hs; [|done]. injection Hs as ->.
  specialize (Hre eq_refl ltac:(done)).
  destruct (decide (30 < today clk)%Z) as [Ht|Ht].
  - rewrite run_get_student_statistics in Hre by done. split; [done|].
    congruence.
  - rewrite run_get_student_statistics_overflow in Hre by lia. done.
Qed.

Lemma sum_bump m groups :
  sum_list_with snd (bump m groups) = S (sum_list_with snd groups).
Proof.
  induction groups as [|[k n] rest IH]; simpl; [done|].
  case_bool_decide; simpl; [done|]. rewrite IH. lia.
Qed.

Lemma sum_foldl_bump (rows : list attendance_row) groups :
  sum_list_with snd
    (foldl (λ groups a, bump (a_verification_method a) groups) groups rows)
  = (sum_list_with snd groups + length rows)%nat.
Proof.
  revert groups. induction rows as [|a rows IH]; intros groups; simpl.
  - lia.
  - rewrite IH, sum_bump. lia.
Qed.

Lemma dict_list_to_map (groups : list (string * nat)) :
  NoDup groups.*1 → dict groups = list_to_map groups.
Proof.
  intros Hg. unfold dict.
  induction groups as [|[k v] groups IH] using rev_ind; [done|].
  rewrite fmap_app in Hg. apply NoDup_app in Hg as (Hg & Hk & _).
  rewrite foldl_snoc, IH by done. simpl. symmetry. apply list_to_map_snoc.
  intros Hin. apply (Hk k Hin). simpl. left.
Qed.

(** X15.  Whenever get_student_statistics returns the dictionary with the
    three keys (under any faults), the numbers in it agree: recent_attendance
    is at most total_attendance, the counts in method_stats add up to
    total_attendance, and each of them is positive. *)
Theorem get_student_statistics_consistent w clk faults i s :
  (run (get_student_statistics i) clk faults w).1 = Returned (Stats s) →
  (recent_attendance s ≤ total_attendance s)%nat ∧
  sum_list_with snd (map_to_list (method_stats s)) = total_attendance s ∧
  (∀ m n, method_stats s !! m = Some n → (0 < n ≤ total_attendance s)%nat).
Proof.
  intros [Ht ->]%get_student_statistics_stats. simpl.
  unfold sql_count_attendance, sql_count_attendance_since,
    sql_count_by_method.
  set (rows := filter (λ a, a_student_id a = i) (attendance (db w))).
  destruct (foldl_bump_invariant rows []) as (Hk & Hp & Hc); [constructor..|].
  split; [|split].
  - rewrite (filter_iff _
               (λ a, (today clk - 30 ≤ a_date a)%Z ∧ a_student_id a = i))
      by (intros a; tauto).
    rewrite <- (list_filter_filter _ _ (attendance (db w))).
    apply length_filter.
  - rewrite dict_list_to_map, map_to_list_to_map by done.
    by rewrite sum_foldl_bump.
  - intros m n Hm. rewrite dict_lookup in Hm by done.
    apply group_count_elem in Hm as [Hn Hm]; [|done..].
    split; [done|]. rewrite Hc in Hm. simpl in Hm. subst n.
    apply length_filter.
Qed.

Lemma get_student_statistics_consistent_witness :
  ∃ s,
    (run (get_student_statistics "S001") (clock_at 739001 0) [None; None]
       one_student_world).1 = Returned (Stats s) ∧
    (recent_attendance s ≤ total_attendance s)%nat ∧
    sum_list_with snd (map_to_list (method_stats s)) = total_attendance s ∧
    (∀ m n, method_stats s !! m = Some n →
            (0 < n ≤ total_attendance s)%nat).
Proof.
  eexists. split; [reflexivity|].
  apply (get_student_statistics_consistent one_student_world
           (clock_at 739001 0) [None; None] "S001").
  reflexivity.
Defined.

Lemma length_omap_all {A B} (f : A → option B) (l : list A) :
  (∀ x, x ∈ l → is_Some (f x)) → length (omap f l) = length l.
Proof.
  induction l as [|a l IH]; intros Hl; [done|]. simpl.
  destruct (Hl a) as [b ->]; [left|]. simpl. f_equal. apply IH.
  intros x Hx. apply Hl. by right.
Qed.

(** X16.  In a store whose keys hold, for a student that has a students row
    (and an id that is not the empty string), the report filtered by that
    student has as many rows as get_student_statistics counts in
    total_attendance, and every row of it carries the id of the student. *)
Theorem report_rows_are_total_attendance w clk clk' i :
  wf_store (db w) → i ≠ "" → (30 < today clk')%Z →
  i ∈ s_student_id <$> students (db w) →
  ∃ l s,
    run (get_attendance_report None None (Some i) None) clk no_faults w
      = (Returned l, w) ∧
    run (get_student_statistics i) clk' no_faults w
      = (Returned (Stats s), w) ∧
    length l = total_attendance s ∧
    ∀ x, x ∈ l → rr_student_id x = i.
Proof.
  intros Hwf Hi Ht Hin. eexists. eexists.
  split; [apply run_get_attendance_report|].
  split; [by apply run_get_student_statistics|]. simpl.
  assert (Hgiven : given (Some i) = Some i).
  { unfold given, truthy_str. by rewrite bool_decide_eq_false_2. }
  assert (Hrows :
    filter (λ a, passes None None (Some i) None a = true) (attendance (db w))
    = filter (λ a, a_student_id a = i) (attendance (db w))).
  { apply filter_iff. intros a. unfold passes. simpl.
    rewrite !andb_true_r. apply bool_decide_eq_true. }
  split.
  - rewrite sql_select_report_spec by done. unfold report_spec.
    rewrite Hgiven. change (given None) with (@None string).
    rewrite Hrows. unfold sql_count_attendance. apply length_omap_all.
    intros a [Ha _]%list_elem_of_filter. unfold report_row_of.
    rewrite Ha. apply list_elem_of_fmap in Hin as (s & Hs & Hsin).
    destruct (head (sql_select_student i (db w)))
      as [s'|] eqn:Hhead; [by eexists|].
    apply head_None in Hhead.
    assert (s ∈ sql_select_student i (db w)) as Hel
      by (by apply list_elem_of_filter).
    rewrite Hhead in Hel. by apply elem_of_nil in Hel.
  - intros x Hx. rewrite sql_select_report_spec in Hx by done.
    unfold report_spec in Hx. rewrite Hgiven in Hx.
    change (given None) with (@None string) in Hx. rewrite Hrows in Hx.
    apply list_elem_of_omap in Hx as (a & [Ha _]%list_elem_of_filter & Hr).
    unfold report_row_of in Hr.
    destruct (head (sql_select_student (a_student_id a) (db w)));
      simpl in Hr; [|done].
    by injection Hr as <-.
Qed.

Lemma report_rows_are_total_attendance_witness :
  ∃ l s,
    run (get_attendance_report None None (Some "S001") None)
      (clock_at 739001 0) no_faults one_student_world
      = (Returned l, one_student_world) ∧
    run (get_student_statistics "S001") (clock_at 739001 0) no_faults
      one_student_world = (Returned (Stats s), one_student_world) ∧
    length l = total_attendance s ∧
    ∀ x, x ∈ l → rr_student_id x = "S001".
Proof.
  apply (report_rows_are_total_attendance one_student_world
           (clock_at 739001 0) (clock_at 739001 0) "S001").
  - apply reachable_wf, reachable_one_student_world.
  - done.
  - reflexivity.
  - apply (bool_decide_unpack _). by vm_compute.
Defined.

(** * The command line *)

Lemma invoke_calm {A} (m : M A) env s :
  calm env →
  invoke m env s =
  match run m (clock_of env (calls_made s)) no_faults (world s) with
  | (r, w) => (r, {| world := w; calls_made := S (calls_made s) |})
  end.
Proof. intros Hc. unfold invoke. by rewrite Hc. Qed.

Lemma set_courses_app w l1 l2 :
  set_db (set_courses (courses (db w) ++ l1 ++ l2) (db w)) w
  = set_db
      (set_courses
         (courses (db (set_db (set_courses (courses (db w) ++ l1) (db w)) w))
          ++ l2)
         (db (set_db (set_courses (courses (db w) ++ l1) (db w)) w)))
      (set_db (set_courses (courses (db w) ++ l1) (db w)) w).
Proof. destruct w as [p [] f]. unfold set_db, set_courses. simpl.
  by rewrite app_assoc. Qed.

Lemma set_students_app w l1 l2 :
  set_db (set_students (students (db w) ++ l1 ++ l2) (db w)) w
  = set_db
      (set_students
         (students
            (db (set_db (set_students (students (db w) ++ l1) (db w)) w))
          ++ l2)
         (db (set_db (set_students (students (db w) ++ l1) (db w)) w)))
      (set_db (set_students (students (db w) ++ l1) (db w)) w).
Proof. destruct w as [p [] f]. unfold set_db, set_students. simpl.
  by rewrite app_assoc. Qed.

Section SampleData.
Import SmartAttendanceSystem.

Lemma add_courses_cons env i n ins sch l s :
  add_courses ((i, n, ins, sch) :: l) env s =
  add_courses l env
    {| world := (run (add_course i n ins sch) (clock_of env (calls_made s))
                   (faults_of env (calls_made s)) (world s)).2;
       calls_made := S (calls_made s) |}.
Proof.
  unfold add_courses. cbn [for_each]. unfold pbind at 1.
  unfold ptry, pbind at 1. unfold invoke.
  by destruct (run (add_course i n ins sch) _ _ _) as [[b|x] w].
Qed.

Lemma add_students_cons env i n e p d l s :
  add_students ((i, n, e, p, d) :: l) env s =
  add_students l env
    {| world := (run (add_student i n e p d) (clock_of env (calls_made s))
                   (faults_of env (calls_made s)) (world s)).2;
       calls_made := S (calls_made s) |}.
Proof.
  unfold add_students. cbn [for_each]. unfold pbind at 1.
  unfold ptry, pbind at 1. unfold invoke.
  by destruct (run (add_student i n e p d) _ _ _) as [[b|x] w].
Qed.

(** Without faults the loop over the courses appends a row for each id that
    is not there yet. *)
Lemma add_courses_calm env l s :
  calm env →
  ∃ extra,
    add_courses l env s
    = (Returned (),
       {| world := set_db (set_courses (courses (db (world s)) ++ extra)
                             (db (world s))) (world s);
          calls_made := (calls_made s + length l)%nat |}) ∧
    ∀ c, c ∈ l →
         c.1.1.1 ∈ c_course_id <$> (courses (db (world s)) ++ extra)%list.
Proof.
  intros Hc. revert s. induction l as [|[[[i n] ins] sch] l IH]; intros s.
  - exists []. split; [|by intros c ?%elem_of_nil].
    unfold add_courses. simpl. unfold pret. f_equal.
    destruct s as [[p [] f] k]. unfold set_db, set_courses. simpl.
    rewrite app_nil_r. f_equal. lia.
  - rewrite add_courses_cons, Hc.
    destruct (decide (i ∈ c_course_id <$> courses (db (world s))))
      as [Hin|Hnew].
    + rewrite run_add_course_dup by done. cbn [snd].
      destruct (IH {| world := world s; calls_made := S (calls_made s) |})
        as (extra & Hrun & Hl).
      exists extra. rewrite Hrun. simpl.
      split; [do 3 f_equal; lia|].
      intros c [->|Hcl]%elem_of_cons; [|by apply Hl]. simpl.
      rewrite fmap_app. apply elem_of_app. by left.
    + rewrite run_add_course_new by done. cbn [snd].
      destruct (IH {| world :=
                        set_db (set_courses
                                  (courses (db (world s))
                                   ++ [new_course_row
                                         (clock_of env (calls_made s))
                                         i n ins sch])
                                  (db (world s))) (world s);
                      calls_made := S (calls_made s) |})
        as (extra & Hrun & Hl).
      exists (new_course_row (clock_of env (calls_made s)) i n ins sch
              :: extra).
      rewrite Hrun. cbn [world calls_made].
      split.
      * f_equal. f_equal; [|simpl; lia].
        symmetry. apply (set_courses_app (world s) [_] extra).
      * intros c [->|Hcl]%elem_of_cons.
        -- simpl. rewrite fmap_app, fmap_cons. apply elem_of_app. right.
           by left.
        -- specialize (Hl c Hcl). simpl in Hl.
           by rewrite <- app_assoc in Hl.
Qed.

Lemma add_students_calm env l s :
  calm env →
  ∃ extra,
    add_students l env s
    = (Returned (),
       {| world := set_db (set_students (students (db (world s)) ++ extra)
                             (db (world s))) (world s);
          calls_made := (calls_made s + length l)%nat |}) ∧
    ∀ c, c ∈ l →
         c.1.1.1.1 ∈ s_student_id <$> (students (db (world s)) ++ extra)%list.
Proof.
  intros Hc. revert s. induction l as [|[[[[i n] e] p] d] l IH]; intros s.
  - exists []. split; [|by intros c ?%elem_of_nil].
    unfold add_students. simpl. unfold pret. f_equal.
    destruct s as [[q [] f] k]. unfold set_db, set_students. simpl.
    rewrite app_nil_r. f_equal. lia.
  - rewrite add_students_cons, Hc.
    destruct (decide (i ∈ s_student_id <$> students (db (world s))))
      as [Hin|Hnew].
    + rewrite run_add_student_dup by done. cbn [snd].
      destruct (IH {| world := world s; calls_made := S (calls_made s) |})
        as (extra & Hrun & Hl).
      exists extra. rewrite Hrun. simpl.
      split; [do 3 f_equal; lia|].
      intros c [->|Hcl]%elem_of_cons; [|by apply Hl]. simpl.
      rewrite fmap_app. apply elem_of_app. by left.
    + rewrite run_add_student_new by done. cbn [snd].
      destruct (IH {| world :=
                        set_db (set_students
                                  (students (db (world s))
                                   ++ [new_student_row
                                         (clock_of env (calls_made s))
                                         i n e p d])
                                  (db (world s))) (world s);
                      calls_made := S (calls_made s) |})
        as (extra & Hrun & Hl).
      exists (new_student_row (clock_of env (calls_made s)) i n e p d
              :: extra).
      rewrite Hrun. cbn [world calls_made].
      split.
      * f_equal. f_equal; [|simpl; lia].
        symmetry. apply (set_students_app (world s) [_] extra).
      * intros c [->|Hcl]%elem_of_cons.
        -- simpl. rewrite fmap_app, fmap_cons. apply elem_of_app. right.
           by left.
        -- specialize (Hl c Hcl). simpl in Hl.
           by rewrite <- app_assoc in Hl.
Qed.

(** When every id is there already, the loops change nothing, whatever the
    faults. *)
Lemma add_courses_present env l s :
  (∀ c, c ∈ l → c.1.1.1 ∈ c_course_id <$> courses (db (world s))) →
  add_courses l env s
  = (Returned (),
     {| world := world s; calls_made := (calls_made s + length l)%nat |}).
Proof.
  revert s. induction l as [|[[[i n] ins] sch] l IH]; intros s Hl.
  - unfold add_courses. simpl. unfold pret. f_equal. destruct s. simpl.
    f_equal. lia.
  - rewrite add_courses_cons.
    rewrite run_add_course_dup_faults by (apply (Hl (i, n, ins, sch)); left).
    cbn [snd]. rewrite IH.
    + simpl. do 3 f_equal. lia.
    + intros c Hcl. apply Hl. by right.
Qed.

Lemma add_students_present env l s :
  (∀ c, c ∈ l → c.1.1.1.1 ∈ s_student_id <$> students (db (world s))) →
  add_students l env s
  = (Returned (),
     {| world := world s; calls_made := (calls_made s + length l)%nat |}).
Proof.
  revert s. induction l as [|[[[[i n] e] p] d] l IH]; intros s Hl.
  - unfold add_students. simpl. unfold pret. f_equal. destruct s. simpl.
    f_equal. lia.
  - rewrite add_students_cons.
    rewrite run_add_student_dup_faults
      by (apply (Hl (i, n, e, p, d)); left).
    cbn [snd]. rewrite IH.
    + simpl. do 3 f_equal. lia.
    + intros c Hcl. apply Hl. by right.
Qed.

(** X17.  Without faults add_sample_data leaves every sample course and
    every sample student in the store; the rows that were there stay as they
    are and come first (a student S001 that exists keeps its name), no
    attendance row and no backup is touched.  Run again, whatever the
    faults, it changes nothing. *)
Theorem add_sample_data_once env env' w :
  calm env →
  ∃ w1,
    perform add_sample_data env w = (Returned (), w1) ∧
    files w1 = files w ∧
    attendance (db w1) = attendance (db w) ∧
    course_attendance (db w1) = course_attendance (db w) ∧
    students (db w) `prefix_of` students (db w1) ∧
    courses (db w) `prefix_of` courses (db w1) ∧
    (∀ c, c ∈ sample_courses →
          c.1.1.1 ∈ c_course_id <$> courses (db w1)) ∧
    (∀ s, s ∈ sample_students →
          s.1.1.1.1 ∈ s_student_id <$> students (db w1)) ∧
    perform add_sample_data env' w1 = (Returned (), w1).
Proof.
  intros Hc. unfold perform, add_sample_data.
  destruct (add_courses_calm env sample_courses
              {| world := w; calls_made := 0 |} Hc) as (cs & Hrun1 & Hcs).
  cbn [world calls_made] in *.
  set (w0 := set_db (set_courses (courses (db w) ++ cs) (db w)) w) in *.
  destruct (add_students_calm env sample_students
              {| world := w0; calls_made := (0 + length sample_courses)%nat |}
              Hc) as (ss & Hrun2 & Hss).
  cbn [world calls_made] in *.
  set (w1 := set_db (set_students (students (db w0) ++ ss) (db w0)) w0) in *.
  exists w1. unfold pbind at 1. rewrite Hrun1, Hrun2. cbn [world].
  repeat split; try done.
  - by exists ss.
  - by exists cs.
  - unfold pbind.
    rewrite add_courses_present by (intros c Hcl; by apply Hcs).
    rewrite add_students_present by (intros c Hcl; by apply Hss).
    done.
Qed.

Lemma add_sample_data_once_witness :
  ∃ w1,
    perform add_sample_data (still (clock_at 739000 0)) one_student_world
      = (Returned (), w1) ∧
    files w1 = files one_student_world ∧
    attendance (db w1) = attendance (db one_student_world) ∧
    course_attendance (db w1) = course_attendance (db one_student_world) ∧
    students (db one_student_world) `prefix_of` students (db w1) ∧
    courses (db one_student_world) `prefix_of` courses (db w1) ∧
    (∀ c, c ∈ sample_courses →
          c.1.1.1 ∈ c_course_id <$> courses (db w1)) ∧
    (∀ s, s ∈ sample_students →
          s.1.1.1.1 ∈ s_student_id <$> students (db w1)) ∧
    perform add_sample_data (still (clock_at 739001 0)) w1
      = (Returned (), w1).
Proof.
  apply (add_sample_data_once (still (clock_at 739000 0))
           (still (clock_at 739001 0)) one_student_world).
  intros n. reflexivity.
Defined.
End SampleData.

Lemma set_db_db w : set_db (db w) w = w.
Proof. by destruct w. Qed.

Lemma students_deleted_all (l : list string) st :
  foldl (λ st i, student_deleted i st) st l
  = {| students := filter (λ s, s_student_id s ∉ l) (students st);
       courses := courses st;
       attendance := filter (λ a, a_student_id a ∉ l) (attendance st);
       course_attendance :=
         filter (λ r, ca_student_id r ∉ l) (course_attendance st);
       attendance_seq := attendance_seq st;
       course_attendance_seq := course_attendance_seq st |}.
Proof.
  revert st. induction l as [|i l IH]; intros st.
  - simpl. destruct st. simpl.
    f_equal; symmetry; apply filter_all; intros x _; apply not_elem_of_nil.
  - simpl. rewrite IH. unfold student_deleted. simpl.
    rewrite !list_filter_filter.
    f_equal; apply filter_iff; intros x; rewrite not_elem_of_cons; tauto.
Qed.

Lemma null_course_among_cons i l a :
  null_course_among l (null_course_where i a) = null_course_among (i :: l) a.
Proof.
  unfold null_course_among, null_course_where.
  destruct (a_course_id a) as [c|] eqn:Hc.
  - destruct (decide (c = i)) as [->|Hne].
    + rewrite (bool_decide_eq_true_2 (Some i = Some i)) by done. simpl.
      rewrite (bool_decide_eq_true_2 (i ∈ i :: l)) by left. done.
    + rewrite (bool_decide_eq_false_2 (Some c = Some i)) by congruence.
      rewrite Hc.
      destruct (decide (c ∈ l)) as [Hin|Hin].
      * rewrite (bool_decide_eq_true_2 (c ∈ l)) by done.
        by rewrite (bool_decide_eq_true_2 (c ∈ i :: l)) by (by right).
      * rewrite (bool_decide_eq_false_2 (c ∈ l)) by done.
        rewrite (bool_decide_eq_false_2 (c ∈ i :: l)); [done|].
        by intros [->|?]%elem_of_cons.
  - rewrite (bool_decide_eq_false_2 (None = Some i)) by done.
    by rewrite Hc.
Qed.

Lemma courses_deleted_all (l : list string) st :
  foldl (λ st i, course_deleted i st) st l
  = {| students := students st;
       courses := filter (λ c, c_course_id c ∉ l) (courses st);
       attendance := null_course_among l <$> attendance st;
       course_attendance :=
         filter (λ r, ca_course_id r ∉ l) (course_attendance st);
       attendance_seq := attendance_seq st;
       course_attendance_seq := course_attendance_seq st |}.
Proof.
  revert st. induction l as [|i l IH]; intros st.
  - simpl. destruct st. simpl. f_equal.
    + symmetry. apply filter_all. intros x _. apply not_elem_of_nil.
    + rewrite <- (list_fmap_id attendance0) at 1. apply list_fmap_ext.
      intros _ a _. unfold null_course_among.
      destruct (a_course_id a); [|done].
      by rewrite bool_decide_eq_false_2 by apply not_elem_of_nil.
    + symmetry. apply filter_all. intros x _. apply not_elem_of_nil.
  - simpl. rewrite IH. unfold course_deleted. simpl.
    rewrite !list_filter_filter, <- list_fmap_compose.
    f_equal.
    + apply filter_iff. intros x. rewrite not_elem_of_cons. tauto.
    + apply list_fmap_ext. intros _ a _. apply null_course_among_cons.
    + apply filter_iff. intros x. rewrite not_elem_of_cons. tauto.
Qed.

Section DeleteAll.
Import SmartAttendanceSystem.

Lemma delete_students_loop env (l : list student_row) s :
  calm env →
  for_each l (λ student,
    invoke (delete_student (s_student_id student)) ;+ pret ()) env s
  = (Returned (),
     {| world := set_db (foldl (λ st i, student_deleted i st) (db (world s))
                           (s_student_id <$> l)) (world s);
        calls_made := (calls_made s + length l)%nat |}).
Proof.
  intros Hc. revert s. induction l as [|x l IH]; intros s.
  - simpl. unfold pret. rewrite set_db_db. destruct s. simpl.
    do 2 f_equal. lia.
  - cbn [for_each]. unfold pbind at 1. unfold pbind at 1.
    unfold invoke at 1. rewrite Hc, run_delete_student. unfold pret at 1.
    rewrite IH. simpl. do 2 f_equal. lia.
Qed.

Lemma delete_courses_loop env (l : list course_row) s :
  calm env →
  for_each l (λ course,
    invoke (delete_course (c_course_id course)) ;+ pret ()) env s
  = (Returned (),
     {| world := set_db (foldl (λ st i, course_deleted i st) (db (world s))
                           (c_course_id <$> l)) (world s);
        calls_made := (calls_made s + length l)%nat |}).
Proof.
  intros Hc. revert s. induction l as [|x l IH]; intros s.
  - simpl. unfold pret. rewrite set_db_db. destruct s. simpl.
    do 2 f_equal. lia.
  - cbn [for_each]. unfold pbind at 1. unfold pbind at 1.
    unfold invoke at 1. rewrite Hc, run_delete_course. unfold pret at 1.
    rewrite IH. simpl. do 2 f_equal. lia.
Qed.

(** X18.  delete_all_data, confirmed with yes and without faults, empties
    students and courses, but not always attendance: the attendance rows of
    ids that have no students row stay (their reference to a deleted course
    set to NULL), and so do the course_attendance rows whose student and
    course both have no row.  attendance is empty afterwards exactly when
    every attendance row had a students row.  With any other answer nothing
    is called and nothing changes. *)
Theorem delete_all_data_keeps_orphans env w response :
  calm env →
  (response ≠ "yes" →
   perform (delete_all_data response) env w = (Returned (), w)) ∧
  ∃ w1,
    perform (delete_all_data "yes") env w = (Returned (), w1) ∧
    students (db w1) = [] ∧ courses (db w1) = [] ∧
    attendance (db w1)
      = null_course_among (c_course_id <$> courses (db w))
          <$> filter (λ a, a_student_id a
                           ∉ s_student_id <$> students (db w))
                (attendance (db w)) ∧
    course_attendance (db w1)
      = filter (λ r, (ca_course_id r ∉ c_course_id <$> courses (db w))
                     ∧ ca_student_id r ∉ s_student_id <$> students (db w))
          (course_attendance (db w)) ∧
    files w1 = files w ∧
    (attendance (db w1) = [] ↔
     ∀ a, a ∈ attendance (db w) →
          a_student_id a ∈ s_student_id <$> students (db w)).
Proof.
  intros Hc. split.
  { intros Hno. unfold perform, delete_all_data, ptry.
    by rewrite bool_decide_eq_false_2. }
  assert (Hs : ∀ x, x ∈ s_student_id <$> sql_select_all_students (db w)
                    ↔ x ∈ s_student_id <$> students (db w)).
  { intros x. unfold sql_select_all_students.
    by rewrite merge_sort_Permutation. }
  assert (Hcs : ∀ x, x ∈ c_course_id <$> sql_select_all_courses (db w)
                     ↔ x ∈ c_course_id <$> courses (db w)).
  { intros x. unfold sql_select_all_courses.
    by rewrite merge_sort_Permutation. }
  eexists. split.
  { unfold perform, delete_all_data, ptry.
    rewrite bool_decide_eq_true_2 by done.
    unfold pbind at 1. rewrite invoke_calm, run_get_all_students by done.
    unfold pbind at 1. rewrite delete_students_loop by done.
    unfold pbind at 1. rewrite invoke_calm, run_get_all_courses by done.
    rewrite delete_courses_loop by done. cbn [world db set_db]. done. }
  cbn [db set_db files world calls_made].
  rewrite students_deleted_all, courses_deleted_all. simpl.
  assert (Hatt :
    null_course_among (c_course_id <$> sql_select_all_courses (db w))
      <$> filter (λ a, a_student_id a
                       ∉ s_student_id <$> sql_select_all_students (db w))
            (attendance (db w))
    = null_course_among (c_course_id <$> courses (db w))
        <$> filter (λ a, a_student_id a ∉ s_student_id <$> students (db w))
              (attendance (db w))).
  { rewrite (filter_iff _ (λ a, a_student_id a
                                ∉ s_student_id <$> students (db w)))
      by (intros a; by rewrite Hs).
    apply list_fmap_ext. intros _ a _. unfold null_course_among.
    destruct (a_course_id a) as [c|]; [|done].
    by rewrite (bool_decide_ext _ _ (Hcs c)). }
  unfold sql_select_all_courses, sql_select_all_students in *.
  cbn [courses students] in *.
  split; [|split; [|split; [|split; [|split]]]].
  - apply filter_none. intros x Hx Hnot. apply Hnot, Hs.
    by apply list_elem_of_fmap_2.
  - apply filter_none. intros x Hx Hnot. apply Hnot, Hcs.
    by apply list_elem_of_fmap_2.
  - done.
  - rewrite list_filter_filter. apply filter_iff. intros r.
    by rewrite Hs, Hcs.
  - done.
  - rewrite Hatt. split.
    + intros Hnil%fmap_nil_inv a Ha.
      destruct (decide (a_student_id a ∈ s_student_id <$> students (db w)))
        as [|Hout]; [done|].
      by destruct (filter_nil_not_elem_of _ _ a Hnil Hout).
    + intros Hall. rewrite filter_none; [done|].
      intros a Ha Hout. by apply Hout, Hall.
Qed.

Lemma delete_all_data_keeps_orphans_witness :
  perform (delete_all_data "no") (still (clock_at 739001 0)) course_world
    = (Returned (), course_world) ∧
  ∃ w1,
    perform (delete_all_data "yes") (still (clock_at 739001 0)) course_world
      = (Returned (), w1) ∧
    students (db w1) = [] ∧ courses (db w1) = [] ∧
    length (attendance (db w1)) = 1%nat.
Proof.
  destruct (delete_all_data_keeps_orphans (still (clock_at 739001 0))
              course_world "no") as [Hno (w1 & Hrun & Hs & Hc & Ha & _)].
  - intros n. reflexivity.
  - split; [by apply Hno|]. exists w1.
    split; [done|]. split; [done|]. split; [done|]. by rewrite Ha.
Defined.
End DeleteAll.

(** ** record_attendance touches the rows of one student *)

Lemma filter_fmap_frame {A} (P : A → Prop) `{∀ x, Decision (P x)}
  (f : A → A) (l : list A) :
  (∀ x, x ∈ l → P x → f x = x) → (∀ x, x ∈ l → P (f x) → P x) →
  filter P (f <$> l) = filter P l.
Proof.
  induction l as [|a l IH]; intros Hf HP; [done|].
  rewrite fmap_cons, !filter_cons.
  rewrite IH by (intros x Hx; first [apply Hf | apply HP]; by right).
  destruct (decide (P a)) as [Ha|Ha].
  - rewrite (Hf a) by (done || left). by rewrite decide_True.
  - rewrite decide_False; [done|]. intros Hfa. apply Ha, HP; [left|done].
Qed.

Lemma record_attendance_frame clk w i m c :
  NoDup (a_id <$> attendance (db w)) →
  students (db (run (record_attendance i m c) clk no_faults w).2)
    = students (db w) ∧
  courses (db (run (record_attendance i m c) clk no_faults w).2)
    = courses (db w) ∧
  files (run (record_attendance i m c) clk no_faults w).2 = files w ∧
  filter (λ a, a_student_id a ≠ i)
    (attendance (db (run (record_attendance i m c) clk no_faults w).2))
    = filter (λ a, a_student_id a ≠ i) (attendance (db w)) ∧
  filter (λ r, ca_student_id r ≠ i)
    (course_attendance
       (db (run (record_attendance i m c) clk no_faults w).2))
    = filter (λ r, ca_student_id r ≠ i) (course_attendance (db w)).
Proof.
  intros Hnd.
  pose proof (record_attendance_effect clk w i m c) as He.
  destruct (run (record_attendance i m c) clk no_faults w) as [r w'].
  simpl in *.
  assert (Hca : filter (λ r, ca_student_id r ≠ i)
                  (time_out_where_key (now clk) i c (today clk)
                     <$> course_attendance (db w))
                = filter (λ r, ca_student_id r ≠ i)
                    (course_attendance (db w))).
  { apply filter_fmap_frame.
    - intros x _ Hx. unfold time_out_where_key.
      case_bool_decide as Hk; [|done]. by destruct Hk.
    - intros x _. unfold time_out_where_key. by case_bool_decide. }
  inversion He; subst; simpl.
  - done.
  - assert (Hatt : filter (λ a, a_student_id a ≠ i)
                     (time_out_where_id (now clk) id <$> attendance (db w))
                   = filter (λ a, a_student_id a ≠ i) (attendance (db w))).
    { apply filter_fmap_frame.
      - intros x Hx Hne. unfold time_out_where_id.
        case_bool_decide as Hid; [|done]. exfalso. apply Hne.
        apply head_Some_elem_of in H3. unfold sql_select_attendance_id in H3.
        apply list_elem_of_fmap in H3
          as (a & Ha & [[Hi _] Hin]%list_elem_of_filter).
        rewrite <- Hi. f_equal.
        apply (NoDup_fmap_eq a_id (attendance (db w))); [done..|].
        congruence.
      - intros x _. unfold time_out_where_id. by case_bool_decide. }
    unfold toggled. destruct (truthy_str c); simpl; by rewrite ?Hatt, ?Hca.
  - split; [done|]. split; [done|]. split; [done|]. split.
    + rewrite filter_app, filter_cons, decide_False, filter_nil, app_nil_r
        by (simpl; tauto). done.
    + destruct c as [x|]; [|done]. destruct (truthy_str (Some x)); [|done].
      rewrite filter_app, filter_cons, decide_False, filter_nil, app_nil_r
        by (simpl; tauto). done.
Qed.

(** X19.  record_attendance for a student, whatever faults it meets, leaves
    the attendance and course_attendance rows of every other student as they
    are (ids of attendance rows being distinct). *)
Theorem record_attendance_other_students w clk faults i m c j :
  NoDup (a_id <$> attendance (db w)) → j ≠ i →
  filter (λ a, a_student_id a = j)
    (attendance (db (run (record_attendance i m c) clk faults w).2))
    = filter (λ a, a_student_id a = j) (attendance (db w)) ∧
  filter (λ r, ca_student_id r = j)
    (course_attendance (db (run (record_attendance i m c) clk faults w).2))
    = filter (λ r, ca_student_id r = j) (course_attendance (db w)).
Proof.
  intros Hnd Hj.
  destruct (record_attendance_frame clk w i m c Hnd)
    as (_ & _ & _ & Ha & Hc).
  pose proof (exec_atomic (RecordAttendance i m c) clk faults w) as Hat.
  rewrite !run_exec_record_attendance in Hat.
  assert (Hw : (run (record_attendance i m c) clk faults w).2 = w
               ∨ (run (record_attendance i m c) clk faults w).2
                 = (run (record_attendance i m c) clk no_faults w).2).
  { destruct (run (record_attendance i m c) clk faults w) as [[b|x] w'];
      destruct (run (record_attendance i m c) clk no_faults w)
        as [[b0|x0] w0]; simpl in *; done. }
  destruct Hw as [->| ->]; [done|].
  split.
  - rewrite <- (list_filter_filter_l _ (λ a, a_student_id a ≠ i)),
      Ha, list_filter_filter_l; [done|..]; intros a ->; done.
  - rewrite <- (list_filter_filter_l _ (λ r, ca_student_id r ≠ i)),
      Hc, list_filter_filter_l; [done|..]; intros a ->; done.
Qed.

Lemma record_attendance_other_students_witness :
  filter (λ a, a_student_id a = "S001")
    (attendance
       (db (run (record_attendance "S002" "id_pass" (Some "CS101"))
              (clock_at 739000 300) [None; None; Some OperationalError]
              one_student_world).2))
    = filter (λ a, a_student_id a = "S001")
        (attendance (db one_student_world)) ∧
  filter (λ r, ca_student_id r = "S001")
    (course_attendance
       (db (run (record_attendance "S002" "id_pass" (Some "CS101"))
              (clock_at 739000 300) [None; None; Some OperationalError]
              one_student_world).2))
    = filter (λ r, ca_student_id r = "S001")
        (course_attendance (db one_student_world)).
Proof.
  apply (record_attendance_other_students one_student_world
           (clock_at 739000 300) [None; None; Some OperationalError]
           "S002" "id_pass" (Some "CS101") "S001").
  - apply (bool_decide_unpack _). by vm_compute.
  - done.
Defined.

Section SystemTest.
Import SmartAttendanceSystem.

(** X20.  The database part of run_system_test, without faults, is not
    neutral: a student TEST001 that was there before is deleted with all the
    attendance and course_attendance rows of that id, and the course TEST101
    stays in the store (added when it was not there).  The other students,
    their rows and the backups are left as they are. *)
Theorem run_system_test_leaves_traces env w :
  calm env → NoDup (a_id <$> attendance (db w)) →
  ∃ w1,
    perform run_system_test env w = (Returned (), w1) ∧
    students (db w1)
      = filter (λ s, s_student_id s ≠ "TEST001") (students (db w)) ∧
    attendance (db w1)
      = filter (λ a, a_student_id a ≠ "TEST001") (attendance (db w)) ∧
    course_attendance (db w1)
      = filter (λ r, ca_student_id r ≠ "TEST001")
          (course_attendance (db w)) ∧
    courses (db w) `prefix_of` courses (db w1) ∧
    ("TEST101" ∈ c_course_id <$> courses (db w1)) ∧
    files w1 = files w.
Proof.
  intros Hc Hnd. unfold perform, run_system_test, ptry.
  unfold pbind at 1. rewrite invoke_calm by done. cbn [world calls_made].
  set (clk0 := clock_of env 0).
  set (w_a := (run (add_student "TEST001" "Test Student" "test@test.com"
                      "555-0000" "Test Dept") clk0 no_faults w).2).
  assert (Ha : ∃ b, run (add_student "TEST001" "Test Student"
                           "test@test.com" "555-0000" "Test Dept")
                      clk0 no_faults w = (Returned b, w_a) ∧
                files w_a = files w ∧ courses (db w_a) = courses (db w) ∧
                attendance (db w_a) = attendance (db w) ∧
                course_attendance (db w_a) = course_attendance (db w) ∧
                filter (λ s, s_student_id s ≠ "TEST001") (students (db w_a))
                = filter (λ s, s_student_id s ≠ "TEST001")
                    (students (db w))).
  { subst w_a.
    destruct (decide ("TEST001" ∈ s_student_id <$> students (db w))).
    - rewrite run_add_student_dup by done. by eexists.
    - rewrite run_add_student_new by done. eexists. simpl.
      repeat split; try done.
      rewrite filter_app, filter_cons, decide_False, filter_nil, app_nil_r
        by (simpl; tauto). done. }
  destruct Ha as (b & -> & Hfa & Hca & Haa & Hcaa & Hsa).
  unfold pbind at 1. rewrite invoke_calm, run_get_student by done.
  cbn [world calls_made].
  unfold pbind at 1. rewrite invoke_calm by done. cbn [world calls_made].
  set (clk2 := clock_of env 2).
  set (w_c := (run (add_course "TEST101" "Test Course" "Test Instructor"
                      "Test Schedule") clk2 no_faults w_a).2).
  assert (Hcc : ∃ b, run (add_course "TEST101" "Test Course"
                            "Test Instructor" "Test Schedule")
                       clk2 no_faults w_a = (Returned b, w_c) ∧
                files w_c = files w_a ∧
                students (db w_c) = students (db w_a) ∧
                attendance (db w_c) = attendance (db w_a) ∧
                course_attendance (db w_c) = course_attendance (db w_a) ∧
                courses (db w_a) `prefix_of` courses (db w_c) ∧
                "TEST101" ∈ c_course_id <$> courses (db w_c)).
  { subst w_c.
    destruct (decide ("TEST101" ∈ c_course_id <$> courses (db w_a))).
    - rewrite run_add_course_dup by done. by eexists.
    - rewrite run_add_course_new by done. eexists. simpl.
      repeat split; try done; [by eexists|].
      rewrite fmap_app. apply elem_of_app. right. simpl. left. }
  destruct Hcc as (b' & -> & Hfc & Hsc & Hac & Hcac & Hpre & Hin).
  unfold pbind at 1. rewrite invoke_calm by done. cbn [world calls_made].
  set (clk3 := clock_of env 3).
  destruct (record_attendance_frame clk3 w_c "TEST001" "id_pass"
              (Some "TEST101")) as (Hsr & Hcr & Hfr & Har & Hcar).
  { by rewrite Hac, Haa. }
  destruct (exec_returns (RecordAttendance "TEST001" "id_pass"
                            (Some "TEST101")) clk3 no_faults w_c)
    as [v Hv].
  rewrite run_exec_record_attendance in Hv.
  destruct (run (record_attendance "TEST001" "id_pass" (Some "TEST101"))
              clk3 no_faults w_c) as [[r|x] w_r]; [|done].
  cbn [snd] in *.
  unfold pbind at 1. rewrite invoke_calm, run_delete_student by done.
  unfold pret. cbn [world calls_made]. eexists. split; [done|]. simpl.
  rewrite Hsr, Hsc, Hsa, Har, Hac, Haa, Hcar, Hcac, Hcaa, Hcr, Hfr, Hfc, Hfa.
  repeat split; try done.
  by rewrite <- Hca.
Qed.

Lemma run_system_test_leaves_traces_witness :
  ∃ w1,
    perform run_system_test (still (clock_at 739000 300)) one_student_world
      = (Returned (), w1) ∧
    students (db w1)
      = filter (λ s, s_student_id s ≠ "TEST001")
          (students (db one_student_world)) ∧
    attendance (db w1)
      = filter (λ a, a_student_id a ≠ "TEST001")
          (attendance (db one_student_world)) ∧
    course_attendance (db w1)
      = filter (λ r, ca_student_id r ≠ "TEST001")
          (course_attendance (db one_student_world)) ∧
    courses (db one_student_world) `prefix_of` courses (db w1) ∧
    ("TEST101" ∈ c_course_id <$> courses (db w1)) ∧
    files w1 = files one_student_world.
Proof.
  apply (run_system_test_leaves_traces (still (clock_at 739000 300))
           one_student_world).
  - intros n. reflexivity.
  - apply (bool_decide_unpack _). by vm_compute.
Defined.
End SystemTest.

(** * The window *)

Lemma run_get_all_students_faults clk faults w :
  ∃ l, run get_all_students clk faults w = (Returned l, w).
Proof.
  rewrite run_exec_get_all_students.
  pose proof (exec_effect GetAllStudents clk faults w) as He.
  apply effect_read in He; [|done].
  destruct (exec GetAllStudents clk faults w) as [[[]|] w'];
    simpl in *; subst; by eexists.
Qed.

Lemma run_exec_get_attendance_report clk faults w sd ed i c :
  exec (GetAttendanceReport sd ed i c) clk faults w =
  match run (get_attendance_report sd ed i c) clk faults w with
  | (Returned r, w') => (Returned (VReport r), w')
  | (Raised x, w') => (Raised x, w')
  end.
Proof.
  unfold exec, run. simpl. unfold fmap_M, bind, ret.
  by destruct (get_attendance_report sd ed i c clk (enter w faults))
    as [[b|x] s].
Qed.

Lemma run_get_attendance_report_faults clk faults w sd ed i c :
  ∃ l, run (get_attendance_report sd ed i c) clk faults w = (Returned l, w).
Proof.
  pose proof (exec_effect (GetAttendanceReport sd ed i c) clk faults w) as He.
  apply effect_read in He; [|done].
  destruct (exec_returns (GetAttendanceReport sd ed i c) clk faults w)
    as [v Hv].
  rewrite run_exec_get_attendance_report in He, Hv.
  destruct (run (get_attendance_report sd ed i c) clk faults w)
    as [[l|x] w']; simpl in *; [|done]. subst. by eexists.
Qed.

Lemma run_add_student_returns clk faults w i n e p d :
  ∃ b, (run (add_student i n e p d) clk faults w).1 = Returned b.
Proof.
  destruct (exec_returns (AddStudent i n e p d) clk faults w) as [v Hv].
  rewrite run_exec_add_student in Hv.
  destruct (run (add_student i n e p d) clk faults w) as [[b|x] w'];
    [by eexists | done].
Qed.

(** An unknown id is not found, whatever the faults. *)
Lemma run_get_student_unknown clk faults w i :
  i ∉ s_student_id <$> students (db w) →
  run (get_student i) clk faults w = (Returned None, w).
Proof.
  intros Hi.
  pose proof (exec_failure_stable (GetStudent i) clk faults w) as Hst.
  rewrite !run_exec_get_student, run_get_student in Hst.
  unfold sql_select_student in Hst. rewrite filter_none in Hst.
  - specialize (Hst eq_refl).
    by destruct (run (get_student i) clk faults w) as [[[]|x] w'];
      simplify_eq.
  - intros s Hs <-. apply Hi. by apply list_elem_of_fmap_2.
Qed.

Section Window.
Import AttendanceGUI.
Context (strip : string → string).

Lemma refresh_student_list_shows_nothing env s :
  refresh_student_list env s
  = (Returned [],
     {| world := world s; calls_made := S (calls_made s) |}).
Proof.
  unfold refresh_student_list, ptry, pbind, invoke.
  destruct (run_get_all_students_faults (clock_of env (calls_made s))
              (faults_of env (calls_made s)) (world s)) as [l ->].
  done.
Qed.

Lemma refresh_attendance_list_shows_nothing env s :
  refresh_attendance_list env s
  = (Returned [],
     {| world := world s; calls_made := S (calls_made s) |}).
Proof.
  unfold refresh_attendance_list, ptry, pbind, invoke, date_today.
  destruct (run_get_attendance_report_faults (clock_of env (calls_made s))
              (faults_of env (calls_made s)) (world s)
              (Some (today (clock_of env (calls_made s))))
              (Some (today (clock_of env (calls_made s)))) None None)
    as [l ->].
  done.
Qed.

(** X21.  The handler that adds a student asks for an id and a name (after
    strip) and otherwise calls add_student and drops its result: it always
    shows that the student was added, also when the id is taken and the
    store is left as it was; whatever the faults, no other dialog is
    shown. *)
Theorem gui_add_student_always_success env w id nm em ph dp :
  (strip id = "" ∨ strip nm = "" →
   perform (AttendanceGUI.add_student strip id nm em ph dp) env w
   = (Returned [RequiredError], w)) ∧
  (strip id ≠ "" → strip nm ≠ "" →
   (perform (AttendanceGUI.add_student strip id nm em ph dp) env w).1
     = Returned [AddedInfo (strip nm)] ∧
   (strip id ∈ s_student_id <$> students (db w) →
    (perform (AttendanceGUI.add_student strip id nm em ph dp) env w).2
      = w)).
Proof.
  split.
  - intros Hor. unfold perform, AttendanceGUI.add_student.
    destruct Hor as [-> | ->].
    + by rewrite (bool_decide_eq_true_2 ("" = "")).
    + rewrite (bool_decide_eq_true_2 ("" = "")) by done.
      by rewrite orb_true_r.
  - intros Hid Hnm. unfold perform, AttendanceGUI.add_student.
    rewrite (bool_decide_eq_false_2 (strip id = "")) by done.
    rewrite (bool_decide_eq_false_2 (strip nm = "")) by done.
    cbn [orb]. unfold ptry, pbind, invoke. cbn [world calls_made].
    destruct (run_add_student_returns (clock_of env 0) (faults_of env 0) w
                (strip id) (strip nm) (strip em) (strip ph) (strip dp))
      as [b Hb].
    split.
    + destruct (run _ _ _ w) as [r w1].
      simpl in Hb. subst r.
      by rewrite refresh_student_list_shows_nothing.
    + intros Hdup. rewrite run_add_student_dup_faults by done.
      by rewrite refresh_student_list_shows_nothing.
Qed.

(** X22.  The handler that verifies an id looks the student up before it
    records: for an id (after strip) that has no students row it shows that
    the id was not found and calls nothing else, so that the store stays as
    it was, whatever the faults.  For a student that is there, without
    faults, the first call of the day inserts the attendance row (time_in
    now, no time_out, method id_pass), with the value of the course box as
    course_id, and shows the name of the student; a later call the same day
    sets time_out of the row of the day to the time of the call, leaves
    every other column and every other row as it is, and shows that
    attendance was recorded already. *)
Theorem gui_verify_id_attendance_checks_student env w entry cv :
  (strip entry = "" →
   perform (verify_id_attendance strip entry cv) env w
   = (Returned [EnterIdError], w)) ∧
  (strip entry ≠ "" →
   (strip entry ∉ s_student_id <$> students (db w)) →
   perform (verify_id_attendance strip entry cv) env w
   = (Returned [NotFoundError (strip entry)], w)) ∧
  (calm env → strip entry ≠ "" →
   ∀ row, head (sql_select_student (strip entry) (db w)) = Some row →
   ((strip entry, today (clock_of env 1))
      ∉ attendance_key <$> attendance (db w) →
    (cv ≠ "" → (strip entry, cv, today (clock_of env 1))
               ∉ course_attendance_key <$> course_attendance (db w)) →
    ∃ w' r,
      perform (verify_id_attendance strip entry cv) env w
      = (Returned [RecordedLabel (s_name row) (strip entry)], w') ∧
      w' = set_db (created (clock_of env 1) (strip entry) "id_pass" (Some cv)
                     (db w)) w ∧
      attendance (db w') = (attendance (db w) ++ [r])%list ∧
      a_student_id r = strip entry ∧ a_date r = today (clock_of env 1) ∧
      a_time_in r = Some (now (clock_of env 1)) ∧ a_time_out r = None ∧
      a_verification_method r = "id_pass" ∧ a_course_id r = Some cv) ∧
   (∀ id, head (sql_select_attendance_id (strip entry)
                  (today (clock_of env 1)) (db w)) = Some id →
    ∃ w' a,
      perform (verify_id_attendance strip entry cv) env w
      = (Returned [AlreadyRecordedLabel], w') ∧
      w' = set_db (toggled (clock_of env 1) (strip entry) (Some cv) id
                     (db w)) w ∧
      a ∈ attendance (db w) ∧ a_id a = id ∧
      a_student_id a = strip entry ∧ a_date a = today (clock_of env 1) ∧
      Forall2 (time_out_set (now (clock_of env 1)) id)
        (attendance (db w)) (attendance (db w')))).
Proof.
  split; [|split].
  - intros He. unfold perform, verify_id_attendance.
    by rewrite He, (bool_decide_eq_true_2 ("" = "")).
  - intros Hid Hun. unfold perform, verify_id_attendance.
    rewrite (bool_decide_eq_false_2 (strip entry = "")) by done.
    unfold ptry, pbind, invoke. cbn [world calls_made].
    by rewrite run_get_student_unknown.
  - intros Hc Hid row Hrow. split.
    + intros Hnew Hca. eexists. eexists.
      split; [|split; [reflexivity|]].
      * unfold perform, verify_id_attendance.
        rewrite (bool_decide_eq_false_2 (strip entry = "")) by done.
        unfold ptry, pbind, invoke. cbn [world calls_made].
        rewrite Hc, run_get_student, Hrow. cbn [world calls_made].
        rewrite Hc.
        rewrite run_record_attendance_created;
          [|done|by intros x [= <-] Hx; apply Hca].
        by rewrite refresh_attendance_list_shows_nothing.
      * by simpl.
    + intros aid Haid. eexists.
      pose proof Haid as Hel. apply head_Some_elem_of in Hel.
      unfold sql_select_attendance_id in Hel.
      apply list_elem_of_fmap in Hel
        as (a & Ha & [[Hi Hd] Hin]%list_elem_of_filter).
      exists a. split; [|split; [reflexivity|]].
      * unfold perform, verify_id_attendance.
        rewrite (bool_decide_eq_false_2 (strip entry = "")) by done.
        unfold ptry, pbind, invoke. cbn [world calls_made].
        rewrite Hc, run_get_student, Hrow. cbn [world calls_made].
        rewrite Hc.
        by rewrite (run_record_attendance_toggled _ _ _ _ _ _ Haid).
      * do 4 (split; [done|]). apply toggled_time_out_set.
Qed.
End Window.

Lemma gui_add_student_always_success_witness :
  perform (AttendanceGUI.add_student (λ s, s) "" "Ann" "" "" "")
    (still (clock_at 739000 300)) one_student_world
  = (Returned [AttendanceGUI.RequiredError], one_student_world) ∧
  perform (AttendanceGUI.add_student (λ s, s) "S001" "Bob" "" "" "")
    (still (clock_at 739000 300)) one_student_world
  = (Returned [AttendanceGUI.AddedInfo "Bob"], one_student_world).
Proof.
  destruct (gui_add_student_always_success (λ s, s)
              (still (clock_at 739000 300)) one_student_world
              "" "Ann" "" "" "") as [Hreq _].
  destruct (gui_add_student_always_success (λ s, s)
              (still (clock_at 739000 300)) one_student_world
              "S001" "Bob" "" "" "") as [_ Hok].
  split; [apply Hreq; by left|].
  destruct Hok as [Hv Hw]; [done..|].
  specialize (Hw ltac:(apply (bool_decide_unpack _); by vm_compute)).
  destruct (perform _ _ one_student_world) as [r w1]. simpl in *.
  by subst.
Defined.

Lemma gui_verify_id_attendance_checks_student_witness :
  perform (AttendanceGUI.verify_id_attendance (λ s, s) "S404" "CS101")
    (still (clock_at 739000 300)) one_student_world
  = (Returned [AttendanceGUI.NotFoundError "S404"], one_student_world) ∧
  (perform (AttendanceGUI.verify_id_attendance (λ s, s) "S001" "CS101")
     (still (clock_at 739001 300)) one_student_world).1
  = Returned [AttendanceGUI.RecordedLabel "Ann" "S001"] ∧
  ∃ w' a,
    perform (AttendanceGUI.verify_id_attendance (λ s, s) "S001" "CS101")
      (still (clock_at 739000 300)) one_student_world
    = (Returned [AttendanceGUI.AlreadyRecordedLabel], w') ∧
    a ∈ attendance (db one_student_world) ∧
    Forall2 (time_out_set 300 (a_id a))
      (attendance (db one_student_world)) (attendance (db w')).
Proof.
  destruct (gui_verify_id_attendance_checks_student (λ s, s)
              (still (clock_at 739000 300)) one_student_world
              "S404" "CS101") as (_ & Hun & _).
  destruct (gui_verify_id_attendance_checks_student (λ s, s)
              (still (clock_at 739001 300)) one_student_world
              "S001" "CS101") as (_ & _ & Hok).
  destruct (gui_verify_id_attendance_checks_student (λ s, s)
              (still (clock_at 739000 300)) one_student_world
              "S001" "CS101") as (_ & _ & Hagain).
  split; [|split].
  - apply Hun; [done|]. apply (bool_decide_unpack _). by vm_compute.
  - destruct (Hok ltac:(intros n; reflexivity) ltac:(done) _ eq_refl)
      as [Hnew _].
    destruct Hnew as (w' & r & -> & _).
    + apply (bool_decide_unpack _). by vm_compute.
    + intros _. apply (bool_decide_unpack _). by vm_compute.
    + done.
  - destruct (Hagain ltac:(intros n; reflexivity) ltac:(done) _ eq_refl)
      as [_ Htog].
    destruct (Htog 1%Z eq_refl) as (w' & a & Hrun & _ & Ha & Hid & _ & _ & Hf).
    exists w', a. rewrite Hid. done.
Defined.

(** * One commit for each operation *)

(** X23.  Every operation of the manager that goes through the database
    connection (all but backup_database and restore_database, which copy the
    file) is all or nothing under faults: the database file and the backups
    are left untouched or exactly as the call without faults leaves them,
    the value returned is the value of the call without faults or the value
    of failure (False, None, the empty list, the empty dictionary), and a
    call that returns another value than that of failure has done all that
    the call without faults does. *)
Theorem operations_all_or_nothing c clk faults w :
  ¬ is_copy c →
  ((exec c clk faults w).2 = w
   ∨ (exec c clk faults w).2 = (exec c clk no_faults w).2) ∧
  ((exec c clk faults w).1 = (exec c clk no_faults w).1
   ∨ (exec c clk faults w).1 = Returned (failure_value c)) ∧
  (∀ v, (exec c clk faults w).1 = Returned v → v ≠ failure_value c →
        exec c clk faults w = exec c clk no_faults w).
Proof.
  intros _. split; [apply exec_atomic|]. split; [apply exec_value_cases|].
  apply exec_not_failure_replays.
Qed.

Lemma operations_all_or_nothing_witness :
  exec (RecordAttendance "S002" "id_pass" (Some "CS101"))
    (clock_at 739000 300) [None; None; None; None; None; None]
    one_student_world
  = exec (RecordAttendance "S002" "id_pass" (Some "CS101"))
      (clock_at 739000 300) no_faults one_student_world.
Proof.
  apply (operations_all_or_nothing
           (RecordAttendance "S002" "id_pass" (Some "CS101"))
           (clock_at 739000 300) [None; None; None; None; None; None]
           one_student_world) with (v := VBool true).
  - by intros [].
  - reflexivity.
  - discriminate.
Defined.
